(** * The five-stage answer pipeline of the RAG system, embedded in Rocq

    The development follows [app/controller/*.py] and
    [app/services/hkgenai.py]: query understanding, source selection,
    retrieval, reranking and response generation, glued together by
    [run_search_pipeline]; the performance monitor of
    [app/utils/profiler.py], which times these stages, and the chat store
    of [app/routes.py], which calls the pipeline, come after them.

    Python dictionaries are finite maps from strings to Python values
    ([gmap string py]); Python floats are exact rationals ([Q]); a call
    that may raise returns an [outcome]; the calls that leave the process
    (the language-model endpoint, the search API, the vector index, the
    domain integrations, [json.loads], [json.dumps], the BM25 library) are
    the fields of a record [World], so that every function of the
    repository is an executable Rocq function of its arguments and of the
    world it runs in. *)

From Stdlib Require Import QArith Lqa Permutation.
From stdpp Require Import gmap strings list fin_maps pretty sorting.

Set Warnings "-register-all,-clear-no-such-hyp".
Open Scope string_scope.
Open Scope list_scope.

(** ** Python values *)

Inductive py :=
| PNone
| PBool (b : bool)
| PInt (n : Z)
| PFloat (q : Q)
| PStr (s : string)
| PList (l : list py)
| PDict (d : gmap string py).

(** A dictionary, as the code passes them around. *)
Abbreviation dict := (gmap string py).

(** [bool(v)]: the truth value Python gives to [v] in [if v], [v or w]. *)
Definition truthy (v : py) : bool :=
  match v with
  | PNone => false
  | PBool b => b
  | PInt n => negb (n =? 0)%Z
  | PFloat q => negb (Qeq_bool q 0)
  | PStr s => negb (String.eqb s "")
  | PList l => match l with [] => false | _ :: _ => true end
  | PDict d => negb (bool_decide (d = ∅))
  end.

(** [v == s] for a string constant [s]: only a string equals a string. *)
Definition eq_str (v : py) (s : string) : bool :=
  match v with
  | PStr t => String.eqb t s
  | _ => false
  end.

(** [v in [s1, ..., sn]] for a list of string constants. *)
Definition in_strs (v : py) (l : list string) : bool :=
  existsb (eq_str v) l.

(** [key in d] and [d.get(key, dflt)]. *)
Definition has_key (d : dict) (k : string) : bool :=
  bool_decide (is_Some (d !! k)).

Definition get_or (d : dict) (k : string) (dflt : py) : py :=
  default dflt (d !! k).

(** [d.get(key)]: [None] (the Python value) when the key is absent. *)
Definition get (d : dict) (k : string) : py := get_or d k PNone.

Definition is_dict (v : py) : bool :=
  match v with PDict _ => true | _ => false end.

Definition is_list (v : py) : bool :=
  match v with PList _ => true | _ => false end.

(** A number where Python arithmetic accepts one ([bool] is an [int]). *)
Definition as_number (v : py) : option Q :=
  match v with
  | PInt n => Some (inject_Z n)
  | PFloat q => Some q
  | PBool b => Some (if b then 1 else 0)%Q
  | _ => None
  end.

(** ** Strings *)

Definition nl : string := String (Ascii.ascii_of_nat 10) "".

(** Whitespace of [str.strip()] and [str.split()], on the ASCII range. *)
Definition is_space (c : Ascii.ascii) : bool :=
  let n := Ascii.nat_of_ascii c in
  ((9 <=? n) && (n <=? 13) || (28 <=? n) && (n <=? 32))%nat.

Fixpoint lstrip (s : string) : string :=
  match s with
  | EmptyString => EmptyString
  | String c s' => if is_space c then lstrip s' else s
  end.

Fixpoint rstrip (s : string) : string :=
  match s with
  | EmptyString => EmptyString
  | String c s' =>
      match rstrip s' with
      | EmptyString => if is_space c then EmptyString else String c EmptyString
      | r => String c r
      end
  end.

Definition strip (s : string) : string := rstrip (lstrip s).

Definition startswith (s p : string) : bool := String.prefix p s.

(** [s.replace(old, "")] for a non-empty [old]: scan left to right and drop
    every occurrence; [skip] counts the characters of the occurrence being
    dropped. *)
Fixpoint remove_from (old : string) (skip : nat) (s : string) : string :=
  match s with
  | EmptyString => EmptyString
  | String c s' =>
      match skip with
      | S k => remove_from old k s'
      | O =>
          if String.prefix old s
          then remove_from old (Nat.pred (String.length old)) s'
          else String c (remove_from old 0 s')
      end
  end.

Definition remove_all (s old : string) : string :=
  match old with
  | EmptyString => s
  | _ => remove_from old 0 s
  end.

(** [sub in s] on strings *)
Fixpoint contains (s sub : string) : bool :=
  String.prefix sub s
  || match s with
     | EmptyString => false
     | String _ s' => contains s' sub
     end.

Definition lower_char (c : Ascii.ascii) : Ascii.ascii :=
  let n := Ascii.nat_of_ascii c in
  if ((65 <=? n) && (n <=? 90))%nat then Ascii.ascii_of_nat (n + 32) else c.

(** [s.lower()], on the ASCII range *)
Fixpoint lower (s : string) : string :=
  match s with
  | EmptyString => EmptyString
  | String c s' => String (lower_char c) (lower s')
  end.

(** [s.split()]: the maximal runs of characters that are no whitespace;
    [cur] is the run being read. *)
Fixpoint split_from (cur : string) (s : string) : list string :=
  match s with
  | EmptyString => match cur with EmptyString => [] | _ => [cur] end
  | String c s' =>
      if is_space c
      then match cur with
           | EmptyString => split_from EmptyString s'
           | _ => cur :: split_from EmptyString s'
           end
      else split_from (cur +:+ String c EmptyString) s'
  end.

Definition split_ws (s : string) : list string := split_from EmptyString s.

(** [s[:n]] *)
Definition take_str (n : nat) (s : string) : string := String.substring 0 n s.

(** ** Exceptions and outcomes *)

Inductive exn_class :=
| UnboundLocalError
| JSONDecodeError
| TypeError
| OtherException.

(** An exception: its class and [str(e)]. *)
Record exn := Exn { exn_class_of : exn_class; exn_str : string }.

Inductive outcome (A : Type) :=
| Ok (a : A)
| Raise (e : exn).
Arguments Ok {A} a.
Arguments Raise {A} e.

#[global] Instance outcome_ret : MRet outcome := fun A a => Ok a.
#[global] Instance outcome_bind : MBind outcome := fun A B f m =>
  match m with
  | Ok a => f a
  | Raise e => Raise e
  end.

Definition returns {A} (m : outcome A) : Prop := ∃ a, m = Ok a.

(** ** Constants ([app/constants.py]) *)

Definition INTENT_ANALYTICAL := "analytical".
Definition INTENT_FACTUAL := "factual".
Definition INTENT_CONVERSATIONAL := "conversational".
Definition INTENT_TRANSACTIONAL := "transactional".

Definition DOMAIN_WEATHER := "weather".
Definition DOMAIN_TRANSPORTATION := "transportation".
Definition DOMAIN_FINANCE := "finance".
Definition DOMAIN_GENERAL := "general".

Definition VALID_INTENTS :=
  [INTENT_ANALYTICAL; INTENT_FACTUAL; INTENT_CONVERSATIONAL; INTENT_TRANSACTIONAL].
Definition VALID_DOMAINS :=
  [DOMAIN_WEATHER; DOMAIN_TRANSPORTATION; DOMAIN_FINANCE; DOMAIN_GENERAL].

Definition SOURCE_LOCAL_KB := "local_kb".
Definition SOURCE_DOMAIN_API := "domain_api".
Definition SOURCE_WEB_SEARCH := "web_search".

Definition RESULT_SOURCE_LOCAL_KB := "local_kb".
Definition RESULT_SOURCE_WEB := "web".
Definition RESULT_SOURCE_DOMAIN_API := "domain_api".

Definition DEFAULT_SCORE_LOCAL_KB : Q := 0.5.
Definition DEFAULT_SCORE_WEB : Q := 0.7.
Definition DEFAULT_SCORE_DOMAIN_API : Q := 0.9.
Definition DEFAULT_SCORE_WEB_RESULTS : Q := 0.8.

Definition DEFAULT_TOP_K_LOCAL_KB : nat := 5.
Definition DEFAULT_MAX_WEB_RESULTS : nat := 5.
Definition DEFAULT_MAX_CONTEXT_RESULTS : nat := 5.
Definition DEFAULT_MAX_SUPPORTING_WEB : nat := 3.

Definition TEMPERATURE_LLM_CLASSIFICATION : Q := 0.1.
Definition TEMPERATURE_RESPONSE_GENERATION : Q := 0.7.
Definition MAX_TOKENS_LLM_CLASSIFICATION : Z := 200.
Definition MAX_TOKENS_RESPONSE_GENERATION : Z := 800.

Definition BM25_WEIGHT_ORIGINAL : Q := 0.7.
Definition BM25_WEIGHT_BM25 : Q := 0.3.

Definition CONTENT_PREVIEW_LENGTH_MEDIUM : nat := 200.

Definition ENTITY_KEY_LOCATIONS := "locations".
Definition ENTITY_KEY_ORGANIZATIONS := "organizations".
Definition ENTITY_KEY_STOCK_SYMBOLS := "stock_symbols".
Definition ENTITY_KEY_DATES := "dates".
Definition ENTITY_KEY_PRODUCTS := "products".
Definition ENTITY_KEY_GENERAL := "general".

Definition LOG_RESPONSE_ERROR :=
  "I apologize, but I encountered an error generating a response.".
Definition LOG_RESPONSE_FALLBACK :=
  "I couldn't generate a response at this time.".
Definition ERROR_PIPELINE_PROCESSING :=
  "I apologize, but I encountered an error processing your query".

Definition RESPONSE_CONTEXT_HEADER := "Available context:" +:+ nl.
Definition RESPONSE_PRIMARY_SOURCE_HEADER :=
  nl +:+ "[Primary Source: Real-time API Data]" +:+ nl.
Definition RESPONSE_SUPPORTING_WEB_HEADER :=
  nl +:+ "[Supporting Information from Web]:" +:+ nl.

Definition MARKDOWN_JSON_START := "```json".
Definition MARKDOWN_CODE_START := "```".

(** ** The world outside the process *)

(** The request [HKGAIClient.chat] posts. *)
Record chat_request := ChatRequest {
  system_prompt : string;
  user_prompt : string;
  max_tokens : Z;
  temperature : Q
}.

(** What an HTTP exchange gives back: [requests] raised a
    [RequestException] (connection error, timeout), or a response arrived,
    with its status code and what [.json()] does on its body: a value, or
    an exception when the body is not JSON. *)
Inductive http_reply :=
| RequestException (msg : string)
| HttpResponse (status_code : Z) (json : outcome py).

(** [response.raise_for_status()] raises on a 4xx or 5xx status. *)
Definition is_error_status (status_code : Z) : bool :=
  ((400 <=? status_code) && (status_code <? 600))%Z.

(** The vector index behind [load_local_retriever]: [kb_search query k] is
    [model.encode] followed by [index.search], the list of (score, id) it
    finds or an exception; [kb_document id] is [documents[id]]. *)
Record retriever := Retriever {
  kb_search : string → nat → outcome (list (Q * Z));
  kb_document : Z → outcome py
}.

Record World := {
  (** the chat-completions endpoint *)
  http_post : chat_request → http_reply;
  (** [str(e)] of the [HTTPError] that [raise_for_status] raises *)
  http_error_str : Z → string;
  (** [requests.get("http://ip-api.com/json/")] and [datetime.now()] *)
  ip_api_get : http_reply;
  now : string;
  (** [json.loads], [json.dumps], and [str] on a value that is no string *)
  json_loads : string → option py;
  json_dumps : py → string;
  py_repr : py → string;
  (** the prompt texts of [constants.py] and [retrieval.py] *)
  LLM_CLASSIFICATION_SYSTEM_PROMPT : string;
  DIRECT_ANSWER_SYSTEM_PROMPT : string;
  REFINE_SYSTEM_PROMPT : string;
  RESPONSE_GENERATION_SYSTEM_PROMPT_TEMPLATE : string → string → string;
  RESPONSE_GENERATION_USER_PROMPT_TEMPLATE : string → string → string;
  (** [load_local_retriever()]: nothing when the index files are absent *)
  load_local_retriever : option retriever;
  (** the search API: its key and [requests.get] on it *)
  SERPAPI_KEY : option string;
  serpapi_get : string → nat → http_reply;
  (** the three domain integrations *)
  get_finance_data : py → outcome dict;
  get_weather_data : py → outcome dict;
  get_transportation_data : string → py → outcome dict;
  (** [BM25Okapi(corpus).get_scores(query)] *)
  bm25_get_scores : list (list string) → list string → outcome (list Q)
}.

(** [str(v)] *)
Definition py_str (w : World) (v : py) : string :=
  match v with
  | PStr s => s
  | _ => py_repr w v
  end.

(** ** The language-model client ([app/services/hkgenai.py]) *)

(** [(v or "").strip()]: nothing when [.strip()] raises. *)
Definition or_empty_strip (v : py) : option string :=
  if truthy v
  then match v with PStr s => Some (strip s) | _ => None end
  else Some "".

(** [choices[0]]: the head of a list, the first character of a string, an
    exception on anything else. *)
Definition subscript0 (v : py) : option py :=
  match v with
  | PList (x :: _) => Some x
  | PStr (String c _) => Some (PStr (String c ""))
  | _ => None
  end.

(** The [try] block of [chat]: [None] stands for an exception, which the
    code swallows with [content] left empty. *)
Definition extract_content_try (data : py) : option string :=
  match data with
  | PDict d =>
      let choices := get_or d "choices" (PList []) in
      if truthy choices then
        c0 ← subscript0 choices;
        let first := match c0 with PDict f => f | _ => ∅ end in
        let message :=
          let m := get first "message" in
          if truthy m then m else PDict ∅ in
        match message with
        | PDict md =>
            content ← or_empty_strip (get md "content");
            if String.eqb content ""
            then or_empty_strip (get first "text")
            else Some content
        | _ => None
        end
      else Some ""
  | _ => None
  end.

Definition extract_content (data : py) : string :=
  default "" (extract_content_try data).

Definition chat (w : World) (req : chat_request) : outcome dict :=
  match http_post w req with
  | RequestException e => Ok {[ "error" := PStr e ]}
  | HttpResponse status_code body =>
      if is_error_status status_code
      then Ok {[ "error" := PStr (http_error_str w status_code) ]}
      else
      data ← body;
      let content := extract_content data in
      if String.eqb content ""
      then Ok (<[ "content" := PStr "" ]>
               (<[ "warning" := PStr "Empty content returned" ]>
                {[ "raw" := data ]}))
      else Ok (<[ "content" := PStr content ]> {[ "raw" := data ]})
  end.

(** ** Response generation ([app/controller/response_generation.py]) *)

Fixpoint _extract_domain_api_result (context : list dict) : py :=
  match context with
  | [] => PNone
  | ctx :: rest =>
      if eq_str (get ctx "source") RESULT_SOURCE_DOMAIN_API
         && is_dict (get ctx "content")
      then get ctx "content"
      else _extract_domain_api_result rest
  end.

Definition _extract_web_results (context : list dict) (max_results : nat)
  : list dict :=
  take max_results
    (filter (λ ctx, eq_str (get ctx "source") RESULT_SOURCE_WEB = true) context).

(** [enumerate(l, 1)] *)
Definition enumerate1 {A} (l : list A) : list (nat * A) :=
  zip (seq 1 (length l)) l.

Definition _build_context_summary (w : World) (context : list dict)
    (domain_api_result : py) : string :=
  match context with
  | [] =>
      "No specific context retrieved. Use your general knowledge to provide a helpful answer."
  | _ =>
      if truthy domain_api_result then
        let head :=
          RESPONSE_CONTEXT_HEADER +:+ RESPONSE_PRIMARY_SOURCE_HEADER
          +:+ json_dumps w domain_api_result +:+ nl in
        let web_results := _extract_web_results context DEFAULT_MAX_SUPPORTING_WEB in
        match web_results with
        | [] => head
        | _ =>
            fold_left
              (λ acc '(i, ctx),
                 match get_or ctx "content" (PStr "") with
                 | PStr content =>
                     acc +:+ pretty i +:+ ". "
                     +:+ take_str CONTENT_PREVIEW_LENGTH_MEDIUM content
                     +:+ "..." +:+ nl
                 | _ => acc
                 end)
              (enumerate1 web_results)
              (head +:+ RESPONSE_SUPPORTING_WEB_HEADER)
        end
      else
        fold_left
          (λ acc '(i, ctx),
             let source := get_or ctx "source" (PStr "unknown") in
             let content := get_or ctx "content" (PDict ∅) in
             acc +:+ nl +:+ "[Source " +:+ pretty i +:+ ": "
             +:+ py_str w source +:+ "]" +:+ nl
             +:+ json_dumps w content +:+ nl)
          (enumerate1 (take DEFAULT_MAX_CONTEXT_RESULTS context))
          RESPONSE_CONTEXT_HEADER
  end.

(** The request [generate_response] sends: both prompts, built from the
    templates, and the generation parameters. *)
Definition generation_request (w : World) (query : string)
    (understanding : dict) (context : list dict) : chat_request :=
  let domain_api_result := _extract_domain_api_result context in
  let context_summary := _build_context_summary w context domain_api_result in
  let domain := get_or understanding "domain" (PStr DOMAIN_GENERAL) in
  let intent := get_or understanding "intent" (PStr INTENT_CONVERSATIONAL) in
  let system_prompt :=
    RESPONSE_GENERATION_SYSTEM_PROMPT_TEMPLATE w (py_str w intent) (py_str w domain) in
  let user_prompt :=
    RESPONSE_GENERATION_USER_PROMPT_TEMPLATE w query context_summary in
  ChatRequest system_prompt user_prompt
    MAX_TOKENS_RESPONSE_GENERATION TEMPERATURE_RESPONSE_GENERATION.

Definition generate_response (w : World) (query : string)
    (understanding : dict) (context : list dict) : outcome py :=
  result ← chat w (generation_request w query understanding context);
  if has_key result "error"
  then Ok (PStr LOG_RESPONSE_ERROR)
  else Ok (get_or result "content" (PStr LOG_RESPONSE_FALLBACK)).

(** ** Query understanding ([app/controller/query_understanding.py]) *)

Definition dq : string := String (Ascii.ascii_of_nat 34) "".

Definition DEFAULT_USER_CONTEXT (w : World) : dict :=
  <[ "current_time" := PStr (now w) ]>
  (<[ "location" := PStr "Hong Kong" ]>
  (<[ "country" := PStr "Hong Kong" ]>
  (<[ "timezone" := PStr "Asia/Hong_Kong" ]>
  (<[ "latitude" := PFloat 22.3193 ]>
  {[ "longitude" := PFloat 114.1694 ]})))).

(** The lookup runs inside [try ... except Exception]: a failed request, a
    body that is not JSON or not a dictionary leave the defaults. *)
Definition get_user_context (w : World) : dict :=
  let context := DEFAULT_USER_CONTEXT w in
  match ip_api_get w with
  | HttpResponse 200 (Ok (PDict data)) =>
      if eq_str (get data "status") "success" then
        <[ "longitude" := get_or data "lon" (PFloat 114.1694) ]>
        (<[ "latitude" := get_or data "lat" (PFloat 22.3193) ]>
        (<[ "timezone" := get_or data "timezone" (PStr "Asia/Hong_Kong") ]>
        (<[ "country" := get_or data "country" (PStr "Hong Kong") ]>
        (<[ "location" := get_or data "city" (PStr "Hong Kong") ]> context))))
      else context
  | _ => context
  end.

Definition ENTITY_KEYS : list string :=
  [ENTITY_KEY_LOCATIONS; ENTITY_KEY_ORGANIZATIONS; ENTITY_KEY_STOCK_SYMBOLS;
   ENTITY_KEY_DATES; ENTITY_KEY_PRODUCTS; ENTITY_KEY_GENERAL].

Definition _create_empty_entities : dict :=
  <[ ENTITY_KEY_LOCATIONS := PList [] ]>
  (<[ ENTITY_KEY_ORGANIZATIONS := PList [] ]>
  (<[ ENTITY_KEY_STOCK_SYMBOLS := PList [] ]>
  (<[ ENTITY_KEY_DATES := PList [] ]>
  (<[ ENTITY_KEY_PRODUCTS := PList [] ]>
  {[ ENTITY_KEY_GENERAL := PList [] ]})))).

(** The user prompt of the classification call. *)
Definition classification_user_prompt (w : World) (query : string)
    (user_context : dict) : string :=
  let context_str :=
    if truthy (PDict user_context) then
      nl +:+ nl +:+ "Context Information:" +:+ nl
      +:+ "- Current Time: " +:+ py_str w (get user_context "current_time") +:+ nl
      +:+ "- User Location: " +:+ py_str w (get user_context "location")
      +:+ ", " +:+ py_str w (get user_context "country") +:+ nl
      +:+ "- Timezone: " +:+ py_str w (get user_context "timezone") +:+ nl +:+ nl
      +:+ "Use this context when interpreting the query, especially for time-sensitive or location-specific queries."
      +:+ nl
    else "" in
  "Classify this query: " +:+ dq +:+ query +:+ dq +:+ context_str.

Definition classification_request (w : World) (query : string)
    (user_context : dict) : chat_request :=
  ChatRequest (LLM_CLASSIFICATION_SYSTEM_PROMPT w)
    (classification_user_prompt w query user_context)
    MAX_TOKENS_LLM_CLASSIFICATION TEMPERATURE_LLM_CLASSIFICATION.

(** Markdown code fences around the JSON are removed. *)
Definition strip_code_fences (content : string) : string :=
  if startswith content MARKDOWN_JSON_START
  then strip (remove_all (remove_all content MARKDOWN_JSON_START) MARKDOWN_CODE_START)
  else if startswith content MARKDOWN_CODE_START
  then strip (remove_all content MARKDOWN_CODE_START)
  else content.

(** Lines 143-151: [entities] becomes a dictionary that has every expected
    key; what the model supplied under a key stays as it is. *)
Definition ensure_entity_keys (entities : py) : dict :=
  let entities :=
    match entities with
    | PDict d => d
    | _ => {[ ENTITY_KEY_GENERAL :=
               if is_list entities then entities else PList [] ]}
    end in
  fold_left
    (λ (e : dict) key, if has_key e key then e else <[ key := PList [] ]> e)
    ENTITY_KEYS entities.

(** The [try] of [classify_with_llm] up to [json.loads]: the text to
    parse, or [None] where the function returns [None] at once (an error
    marker, an empty answer). *)
Definition model_reply_text (w : World) (query : string) (user_context : dict)
  : outcome (option string) :=
  response ← chat w (classification_request w query user_context);
  if has_key response "error" then Ok None else
  match get_or response "content" (PStr "") with
  | PStr c =>
      let content := strip c in
      if negb (truthy (PStr content)) then Ok None
      else Ok (Some (strip_code_fences content))
  | _ => Raise (Exn OtherException "no attribute strip")
  end.

(** The [try] from the validation of the parsed reply on. A reply that is
    no dictionary never gets through: on a list or a string, ["intent" not
    in result] either returns [None] or lets [result["intent"]] raise
    [TypeError]; on a number, a boolean or [null] the test itself raises. *)
Definition validate_reply (result : py) : outcome (option dict) :=
  match result with
  | PDict result =>
      if negb (has_key result "intent") || negb (has_key result "domain")
      then Ok None
      else if negb (in_strs (get result "intent") VALID_INTENTS) then Ok None
      else if negb (in_strs (get result "domain") VALID_DOMAINS) then Ok None
      else
        let result :=
          if has_key result "needs_web" then result
          else <[ "needs_web" :=
                    PBool (in_strs (get result "domain")
                             [DOMAIN_WEATHER; DOMAIN_TRANSPORTATION; DOMAIN_FINANCE]) ]>
                 result in
        let result :=
          if has_key result "entities" then result
          else <[ "entities" := PDict _create_empty_entities ]> result in
        let entities := ensure_entity_keys (get_or result "entities" (PDict ∅)) in
        Ok (Some (<[ "entities" := PDict entities ]> result))
  | PList l =>
      if negb (existsb (λ x, eq_str x "intent") l)
         || negb (existsb (λ x, eq_str x "domain") l)
      then Ok None
      else Raise (Exn TypeError "list indices must be integers")
  | PStr s =>
      if negb (contains s "intent") || negb (contains s "domain")
      then Ok None
      else Raise (Exn TypeError "string indices must be integers")
  | _ => Raise (Exn TypeError "argument is not iterable")
  end.

Definition classify_try (w : World) (query : string) (user_context : dict)
  : outcome (option dict) :=
  text ← model_reply_text w query user_context;
  match text with
  | None => Ok None
  | Some content =>
      match json_loads w content with
      | None => Raise (Exn JSONDecodeError "Expecting value")
      | Some result => validate_reply result
      end
  end.

(** [except json.JSONDecodeError] and [except Exception] both return [None]. *)
Definition classify_with_llm (w : World) (query : string) (user_context : dict)
  : option dict :=
  match classify_try w query user_context with
  | Ok r => r
  | Raise _ => None
  end.

Definition default_understanding (user_context : dict) : dict :=
  <[ "intent" := PStr INTENT_FACTUAL ]>
  (<[ "domain" := PStr DOMAIN_GENERAL ]>
  (<[ "needs_web" := PBool true ]>
  (<[ "entities" := PDict _create_empty_entities ]>
  {[ "user_context" := PDict user_context ]}))).

Definition query_understanding (w : World) (query : string) : dict :=
  let user_context := get_user_context w in
  match classify_with_llm w query user_context with
  | Some llm_result =>
      if truthy (PDict llm_result) then
        <[ "intent" := get llm_result "intent" ]>
        (<[ "domain" := get llm_result "domain" ]>
        (<[ "needs_web" := get_or llm_result "needs_web" (PBool false) ]>
        (<[ "entities" := get_or llm_result "entities" (PDict ∅) ]>
        {[ "user_context" := PDict user_context ]})))
      else default_understanding user_context
  | None => default_understanding user_context
  end.

(** ** Source selection ([app/controller/source_selection.py]) *)

Record SourceSelection := {
  sources : list string;
  domain_handler : option string;
  priority : list string
}.

(** The closing loop: a source that has no place in [priority] yet is
    appended to it. *)
Definition complete_priority (sources priority : list string) : list string :=
  fold_left
    (λ priority source,
       if bool_decide (source ∈ priority) then priority else priority ++ [source])
    sources priority.

Definition source_selection (understanding : dict) : SourceSelection :=
  let domain := get_or understanding "domain" (PStr DOMAIN_GENERAL) in
  let needs_web := get_or understanding "needs_web" (PBool false) in
  let intent := get_or understanding "intent" (PStr INTENT_CONVERSATIONAL) in
  (* domain-specific API handlers *)
  let '(sources, priority, domain_handler) :=
    if eq_str domain DOMAIN_FINANCE
    then ([SOURCE_DOMAIN_API], [SOURCE_DOMAIN_API], Some DOMAIN_FINANCE)
    else if eq_str domain DOMAIN_WEATHER
    then ([SOURCE_DOMAIN_API], [SOURCE_DOMAIN_API], Some DOMAIN_WEATHER)
    else if eq_str domain DOMAIN_TRANSPORTATION
    then ([SOURCE_DOMAIN_API], [SOURCE_DOMAIN_API], Some DOMAIN_TRANSPORTATION)
    else ([], [], None) in
  (* web search, on the needs_web flag *)
  let '(sources, priority) :=
    if truthy needs_web then
      (sources ++ [SOURCE_WEB_SEARCH],
       if eq_str domain DOMAIN_GENERAL
       then SOURCE_WEB_SEARCH :: priority
       else priority ++ [SOURCE_WEB_SEARCH])
    else (sources, priority) in
  (* the local knowledge base, always *)
  let sources := sources ++ [SOURCE_LOCAL_KB] in
  let priority :=
    if eq_str intent INTENT_CONVERSATIONAL
       || (eq_str domain DOMAIN_GENERAL && negb (truthy needs_web))
    then SOURCE_LOCAL_KB :: priority
    else priority ++ [SOURCE_LOCAL_KB] in
  (* every source gets a place in the priority list *)
  let priority := complete_priority sources priority in
  {| sources := sources; domain_handler := domain_handler; priority := priority |}.

(** ** Retrieval ([app/controller/retrieval.py]) *)

(** *** The direct answer of the language model *)

Definition direct_answer_request (w : World) (query : string) : chat_request :=
  ChatRequest (DIRECT_ANSWER_SYSTEM_PROMPT w) query 300 0.7.

(** The result the direct answer is formatted as. *)
Definition direct_answer_item (content : py) : dict :=
  <[ "content" := content ]>
  (<[ "score" := PFloat 1.0 ]>
  (<[ "source" := PStr "hkgai_direct" ]>
  {[ "rank" := PInt 0 ]})).

Definition get_hkgai_answer_try (w : World) (query : string) : outcome dict :=
  hkgai_response ← chat w (direct_answer_request w query);
  if has_key hkgai_response "content" && truthy (get hkgai_response "content")
  then Ok (direct_answer_item (get hkgai_response "content"))
  else Ok ∅.

Definition get_hkgai_answer (w : World) (query : string) : dict :=
  match get_hkgai_answer_try w query with
  | Ok r => r
  | Raise _ => ∅
  end.

(** *** The local knowledge base *)

Definition MIN_SIMILARITY_THRESHOLD : Q := 0.3.

(** The loop over [enumerate(ids[0])]: [i] is the position in the hit list. *)
Fixpoint kb_format (r : retriever) (i : nat) (hits : list (Q * Z))
  : outcome (list dict) :=
  match hits with
  | [] => Ok []
  | (similarity_score, idx) :: rest =>
      if Qlt_le_dec similarity_score MIN_SIMILARITY_THRESHOLD
      then kb_format r (S i) rest
      else
        doc ← kb_document r idx;
        match doc with
        | PDict d =>
            match d !! "content" with
            | Some content =>
                results ← kb_format r (S i) rest;
                Ok ((<[ "content" := content ]>
                     (<[ "score" := PFloat similarity_score ]>
                     (<[ "source" := PStr RESULT_SOURCE_LOCAL_KB ]>
                     {[ "rank" := PInt (Z.of_nat (i + 1)) ]}))) :: results)
            | None => Raise (Exn OtherException "content")
            end
        | _ => Raise (Exn TypeError "document is not subscriptable by key")
        end
  end.

Definition retrieve_from_local_kb (w : World) (query : string) (top_k : nat)
  : list dict :=
  match load_local_retriever w with
  | None => []
  | Some r =>
      match hits ← kb_search r query top_k; kb_format r 0 hits with
      | Ok results => results
      | Raise _ => []
      end
  end.

(** *** Web search *)

Definition refine_user_prompt (w : World) (original_query : string)
    (user_context : py) : string :=
  let context_info :=
    match user_context with
    | PDict uc =>
        if truthy user_context then
          let location := get uc "location" in
          let country := get uc "country" in
          let current_time := get uc "current_time" in
          (if truthy location then
             nl +:+ "User's location: "
             +:+ (if truthy country
                  then py_str w location +:+ ", " +:+ py_str w country
                  else py_str w location)
           else "")
          +:+ (if truthy current_time
               then nl +:+ "Current time: " +:+ py_str w current_time
               else "")
        else ""
    | _ => ""
    end in
  "Refine this search query: " +:+ original_query +:+ context_info.

Definition _refine_search_query (w : World) (original_query : string)
    (user_context : py) : string :=
  match chat w (ChatRequest (REFINE_SYSTEM_PROMPT w)
                  (refine_user_prompt w original_query user_context) 50 0.3) with
  | Ok response =>
      if has_key response "content" && truthy (get response "content")
      then match get response "content" with
           | PStr c => strip c
           | _ => original_query
           end
      else original_query
  | Raise _ => original_query
  end.

(** One entry of [organic_results]; [item.get] raises on what is no
    dictionary. *)
Definition serp_item (query refined_query : string) (item : py) : option dict :=
  match item with
  | PDict d =>
      Some (<[ "title" := get_or d "title" (PStr "") ]>
            (<[ "link" := get_or d "link" (PStr "") ]>
            (<[ "snippet" := get_or d "snippet" (PStr "") ]>
            (<[ "source" := PStr "serpapi" ]>
            (<[ "original_query" := PStr query ]>
            {[ "refined_query" := PStr refined_query ]})))))
  | _ => None
  end.

Definition serpapi_search (w : World) (query : string) (max_results : nat)
    (user_context : py) : list dict :=
  match SERPAPI_KEY w with
  | None | Some EmptyString => []
  | Some _ =>
      let refined_query := _refine_search_query w query user_context in
      match serpapi_get w refined_query max_results with
      | HttpResponse 200 (Ok (PDict data)) =>
          match get_or data "organic_results" (PList []) with
          | PList organic_results =>
              default [] (mapM (serp_item query refined_query)
                            (take max_results organic_results))
          | _ => []
          end
      | _ => []
      end
  end.

Definition retrieve_from_web (w : World) (query : string) (user_context : py)
  : list dict :=
  let results := serpapi_search w query DEFAULT_MAX_WEB_RESULTS user_context in
  (λ result : dict,
     <[ "content" := get_or result "snippet" (PStr "") ]>
     (<[ "title" := get_or result "title" (PStr "") ]>
     (<[ "url" := get_or result "link" (PStr "") ]>
     (<[ "source" := PStr RESULT_SOURCE_WEB ]>
     {[ "score" := PFloat DEFAULT_SCORE_WEB_RESULTS ]})))) <$> results.

(** *** The domain integrations *)

Definition DEFAULT_ENTITIES : dict :=
  <[ ENTITY_KEY_LOCATIONS := PList [] ]>
  (<[ ENTITY_KEY_ORGANIZATIONS := PList [] ]>
  (<[ "dates" := PList [] ]>
  (<[ "products" := PList [] ]>
  {[ "general" := PList [] ]}))).

Definition call_domain_api (w : World) (query : string) (domain : string)
    (understanding : dict) : outcome dict :=
  let entities := get_or understanding "entities" (PDict DEFAULT_ENTITIES) in
  if String.eqb domain DOMAIN_FINANCE then get_finance_data w entities
  else if String.eqb domain DOMAIN_WEATHER then get_weather_data w entities
  else if String.eqb domain DOMAIN_TRANSPORTATION
  then get_transportation_data w query entities
  else Ok (<[ "error" := PStr ("No API handler for domain: " +:+ domain) ]>
           {[ "domain" := PStr domain ]}).

(** *** The coordinator and the order of its calls

    [retrieve_information] is traced: each backend it invokes leaves a
    [Call] when it starts and a [Return] when it hands back its value; a
    backend that raises leaves only the [Call], and the exception ends the
    function. *)

Inductive backend := LocalKB | DirectAnswer | WebSearch | DomainAPI.

Inductive event :=
| Call (b : backend)
| Return (b : backend).

#[global] Instance backend_eq_dec : EqDecision backend.
Proof. solve_decision. Defined.
#[global] Instance event_eq_dec : EqDecision event.
Proof. solve_decision. Defined.

Definition traced (A : Type) : Type := list event * outcome A.

#[global] Instance traced_ret : MRet traced := fun A a => ([], Ok a).
#[global] Instance traced_bind : MBind traced := fun A B f m =>
  match m with
  | (t, Ok a) => let '(t', r) := f a in (t ++ t', r)
  | (t, Raise e) => (t, Raise e)
  end.

Definition invoke {A} (b : backend) (call : outcome A) : traced A :=
  match call with
  | Ok a => ([Call b; Return b], Ok a)
  | Raise e => ([Call b], Raise e)
  end.

Definition raise {A} (e : exn) : traced A := ([], Raise e).

(** Reading a local variable that no executed statement has assigned. *)
Definition unbound_local (name : string) : exn :=
  Exn UnboundLocalError
    ("cannot access local variable '" +:+ name
     +:+ "' where it is not associated with a value").

Definition read_local {A} (name : string) (v : option A) : traced A :=
  match v with
  | Some a => mret a
  | None => raise (unbound_local name)
  end.

Record RetrievalResult := {
  local_kb_results : list dict;
  web_results : list dict;
  domain_api_results : dict
}.

Definition retrieve_information (w : World) (query : string)
    (understanding : dict) (sel : SourceSelection) : traced RetrievalResult :=
  let source_list := sources sel in
  let user_context := get understanding "user_context" in
  (* the local knowledge base: [kb_results] is assigned only here *)
  kb_results ←
    (if bool_decide (SOURCE_LOCAL_KB ∈ source_list)
     then r ← invoke LocalKB (Ok (retrieve_from_local_kb w query DEFAULT_TOP_K_LOCAL_KB));
          mret (Some r)
     else mret None);
  (* the direct answer, only when web search is not used *)
  kb_results ←
    (if negb (bool_decide (SOURCE_WEB_SEARCH ∈ source_list))
     then hkgai_result ← invoke DirectAnswer (Ok (get_hkgai_answer w query));
          if truthy (PDict hkgai_result)
          then l ← read_local "kb_results" kb_results;
               mret (Some (hkgai_result :: l))
          else mret kb_results
     else mret kb_results);
  local ← read_local "kb_results" kb_results;
  (* web search *)
  web ←
    (if bool_decide (SOURCE_WEB_SEARCH ∈ source_list)
     then invoke WebSearch (Ok (retrieve_from_web w query user_context))
     else mret []);
  (* the domain integration, and the web fallback when it fails *)
  '(api, web) ←
    (match domain_handler sel with
     | Some handler =>
         if bool_decide (SOURCE_DOMAIN_API ∈ source_list) && truthy (PStr handler)
         then
           api_result ← invoke DomainAPI (call_domain_api w query handler understanding);
           if has_key api_result "error"
              && negb (bool_decide (SOURCE_WEB_SEARCH ∈ source_list))
           then
             fallback_results ←
               invoke WebSearch (Ok (retrieve_from_web w query user_context));
             mret (api_result, fallback_results)
           else mret (api_result, web)
         else mret (∅, web)
     | None => mret (∅, web)
     end);
  mret {| local_kb_results := local; web_results := web; domain_api_results := api |}.

(** ** Reranking ([app/controller/reranking.py]) *)

Definition ML_AVAILABLE : bool := true.

(** [max(scores)]: the running maximum is replaced by each larger score;
    nothing on an empty list, where Python raises. *)
Definition larger (current score : Q) : Q :=
  if Qlt_le_dec current score then score else current.

Definition maximum (scores : list Q) : option Q :=
  match scores with
  | [] => None
  | s :: rest => Some (fold_left larger rest s)
  end.

(** The text BM25 sees for one result. *)
Definition result_text (w : World) (result : dict) : string :=
  let content := get_or result "content" (PStr "") in
  py_str w (if is_dict content then PStr (json_dumps w content) else content).

(** The loop that writes the blended scores back. It stops where Python
    raises (a missing BM25 score, a score that is no number); the results
    before that point keep their new scores, the others their old ones. *)
Fixpoint blend (results : list dict) (normalized_scores : list Q) : list dict :=
  match results, normalized_scores with
  | result :: results', bm25_score :: scores' =>
      match as_number (get_or result "score" (PFloat DEFAULT_SCORE_LOCAL_KB)) with
      | Some original_score =>
          <[ "bm25_score" := PFloat bm25_score ]>
          (<[ "score" := PFloat (BM25_WEIGHT_ORIGINAL * original_score
                                 + BM25_WEIGHT_BM25 * bm25_score) ]> result)
          :: blend results' scores'
      | None => results
      end
  | _, _ => results
  end.

Definition normalize (bm25_scores : list Q) (max_score : Q) : list Q :=
  (λ score, score / max_score)%Q <$> bm25_scores.

Definition apply_bm25_reranking (w : World) (query : py) (results : list dict)
  : list dict :=
  if negb ML_AVAILABLE then results else
  match query with
  | PStr q =>
      let texts := result_text w <$> results in
      let tokenized_corpus := (λ text, split_ws (lower text)) <$> texts in
      let tokenized_query := split_ws (lower q) in
      match bm25_get_scores w tokenized_corpus tokenized_query with
      | Ok bm25_scores =>
          match maximum bm25_scores with
          | Some m =>
              let max_score := if Qlt_le_dec 0 m then m else 1%Q in
              blend results (normalize bm25_scores max_score)
          | None => results
          end
      | Raise _ => results
      end
  | _ => results
  end.

(** The key of the final sort, [x.get("score", 0)]. *)
Definition sort_key (x : dict) : option Q :=
  as_number (get_or x "score" (PInt 0)).

(** [list.sort(key=..., reverse=True)]: descending, and stable, so that of
    two results with equal keys the one that came first stays first. *)
Fixpoint insert_desc (k : Q) (x : dict) (sorted : list (Q * dict))
  : list (Q * dict) :=
  match sorted with
  | [] => [(k, x)]
  | (k', y) :: rest =>
      if Qlt_le_dec k k' then (k', y) :: insert_desc k x rest
      else (k, x) :: sorted
  end.

Definition sort_desc (keyed : list (Q * dict)) : list dict :=
  snd <$> foldr (λ '(k, x) acc, insert_desc k x acc) [] keyed.

(** Sorting compares the keys; keys that are no numbers make the
    comparison raise [TypeError] as soon as there are two results. *)
Definition sort_by_score (results : list dict) : outcome (list dict) :=
  match results with
  | [] | [_] => Ok results
  | _ =>
      match mapM (λ x, k ← sort_key x; Some (k, x)) results with
      | Some keyed => Ok (sort_desc keyed)
      | None => Raise (Exn TypeError "'<' not supported between instances")
      end
  end.

Definition flatten_results (results : RetrievalResult) : list dict :=
  ((λ kb_result : dict,
      <[ "content" := get_or kb_result "content" (PDict kb_result) ]>
      (<[ "source" := PStr RESULT_SOURCE_LOCAL_KB ]>
      {[ "score" := get_or kb_result "score" (PFloat DEFAULT_SCORE_LOCAL_KB) ]}))
     <$> local_kb_results results)
  ++ ((λ web_result : dict,
      <[ "content" := get_or web_result "content" (PDict web_result) ]>
      (<[ "source" := PStr RESULT_SOURCE_WEB ]>
      {[ "score" := get_or web_result "score" (PFloat DEFAULT_SCORE_WEB) ]}))
     <$> web_results results)
  ++ (let domain_results := domain_api_results results in
      if truthy (PDict domain_results)
      then [ <[ "content" := PDict domain_results ]>
             (<[ "source" := PStr RESULT_SOURCE_DOMAIN_API ]>
             {[ "score" := PFloat DEFAULT_SCORE_DOMAIN_API ]}) ]
      else []).

(** The results after blending, before the final sort. *)
Definition rescore (w : World) (all_results : list dict) (understanding : dict)
  : list dict :=
  if ML_AVAILABLE && bool_decide (1 < length all_results)
  then apply_bm25_reranking w (get_or understanding "query" (PStr "")) all_results
  else all_results.

Definition rerank_results (w : World) (results : RetrievalResult)
    (understanding : dict) : outcome (list dict) :=
  sort_by_score (rescore w (flatten_results results) understanding).

(** ** The pipeline ([app/controller/pipeline.py])

    The log lines between the stages are left out: they format
    dictionaries that came out of [json.loads] or were built from strings
    and numbers, and change nothing. *)

Definition run_search_pipeline_try (w : World) (query : string) : outcome py :=
  let understanding := query_understanding w query in
  let understanding := <[ "query" := PStr query ]> understanding in
  let sel := source_selection understanding in
  results ← snd (retrieve_information w query understanding sel);
  ranked_results ← rerank_results w results understanding;
  generate_response w query understanding ranked_results.

(** [except Exception as e]: the error text is embedded in the answer. *)
Definition run_search_pipeline (w : World) (query : string) : py :=
  match run_search_pipeline_try w query with
  | Ok response => response
  | Raise e => PStr (ERROR_PIPELINE_PROCESSING +:+ ": " +:+ exn_str e)
  end.

(** [_count_total_results] of [pipeline.py]: the number the pipeline logs
    after retrieval. *)
Definition _count_total_results (results : RetrievalResult) : nat :=
  let total := 0 in
  let total := total + length (local_kb_results results) in
  let total := total + length (web_results results) in
  let domain_api_results := domain_api_results results in
  if truthy (PDict domain_api_results) && negb (has_key domain_api_results "error")
  then total + 1
  else total.

(** ** The performance monitor ([app/utils/profiler.py])

    The two dictionaries of the singleton; the log lines are left out. *)

Record PerformanceMonitor := {
  timings : gmap string (list Q);
  counts : gmap string Z
}.

(** The state [__init__] leaves, and [reset] restores. *)
Definition monitor_init : PerformanceMonitor := {| timings := ∅; counts := ∅ |}.

Definition record_timing (self : PerformanceMonitor) (operation : string)
    (duration : Q) : PerformanceMonitor :=
  let timings :=
    if bool_decide (is_Some (timings self !! operation)) then timings self
    else <[ operation := [] ]> (timings self) in
  {| timings := alter (λ times, times ++ [duration]) operation timings;
     counts := <[ operation := (default 0 (counts self !! operation) + 1)%Z ]>
                 (counts self) |}.

(** [sum], [min] and [max] of a list of durations; [min] and [max] keep
    the first of equal elements, and have no value on an empty list. *)
Definition py_sum (times : list Q) : Q := fold_left Qplus times 0%Q.

Definition smaller (current time : Q) : Q :=
  if Qlt_le_dec time current then time else current.

Definition minimum (times : list Q) : option Q :=
  match times with
  | [] => None
  | t :: rest => Some (fold_left smaller rest t)
  end.

Definition operation_summary (times : list Q) : option dict :=
  match times with
  | [] => None
  | _ =>
      min_time ← minimum times;
      max_time ← maximum times;
      Some (<[ "count" := PInt (Z.of_nat (length times)) ]>
            (<[ "total_time" := PFloat (py_sum times) ]>
            (<[ "avg_time" := PFloat (py_sum times / inject_Z (Z.of_nat (length times))) ]>
            (<[ "min_time" := PFloat min_time ]>
            {[ "max_time" := PFloat max_time ]}))))
  end.

Definition get_summary (self : PerformanceMonitor) : gmap string dict :=
  omap operation_summary (timings self).

Definition reset (self : PerformanceMonitor) : PerformanceMonitor :=
  {| timings := ∅; counts := ∅ |}.

(** [print_summary]: nothing happens without data; otherwise the data is
    cleared once it has been logged. *)
Definition print_summary (self : PerformanceMonitor) : PerformanceMonitor :=
  let summary := get_summary self in
  if bool_decide (summary = ∅) then self else reset self.

(** [with track_performance(name): body]: the clock is read before and
    after the body, and the [finally] clause records the difference
    whether the body returned or raised. *)
Definition track_performance {A} (operation_name : string)
    (start_time end_time : Q)
    (body : PerformanceMonitor → outcome A * PerformanceMonitor)
    (monitor : PerformanceMonitor) : outcome A * PerformanceMonitor :=
  let '(result, monitor) := body monitor in
  (result, record_timing monitor operation_name (end_time - start_time)%Q).

(** [@timed_operation(operation_name)] around a function called
    [func_name]. *)
Definition timed_operation {A} (operation_name : option string)
    (func_name : string) (start_time end_time : Q)
    (func : PerformanceMonitor → outcome A * PerformanceMonitor)
    (monitor : PerformanceMonitor) : outcome A * PerformanceMonitor :=
  let name :=
    match operation_name with
    | Some n => if String.eqb n "" then func_name else n
    | None => func_name
    end in
  track_performance name start_time end_time func monitor.

(** ** The chat store ([app/routes.py])

    The handlers behind the routes, as functions of the file
    [chat_data.json] (absent, or holding a JSON value) and of the
    request; each gives its response, or the exception that Flask turns
    into a 500, and the file it leaves. The request fields are typed as
    the front end sends them: a chat id is a string or null, a message is
    a string, an attachment is a string or null. *)

Record response := Response { http_status : Z; json_body : dict }.

Definition load_data (file : option py) : py :=
  match file with
  | Some data => data
  | None => PDict {[ "chats" := PList [] ]}
  end.

(** [v[key]] for a string key. *)
Definition subscript (v : py) (key : string) : outcome py :=
  match v with
  | PDict d =>
      match d !! key with
      | Some x => Ok x
      | None => Raise (Exn OtherException key)
      end
  | _ => Raise (Exn TypeError "indices must be integers, or not subscriptable")
  end.

(** What a [for] loop over [v] visits: the elements of a list, the
    characters of a string, the keys of a dictionary; their order in a
    dictionary plays no part below, where every key makes the loop body
    raise. *)
Definition iterate (v : py) : outcome (list py) :=
  match v with
  | PList l => Ok l
  | PStr s => Ok ((λ c, PStr (String c "")) <$> String.list_ascii_of_string s)
  | PDict d => Ok (PStr <$> (map_to_list d).*1)
  | _ => Raise (Exn TypeError "object is not iterable")
  end.

(** [c['id'] == chat_id] for the chat id of a request. *)
Definition eq_id (id : py) (chat_id : option string) : bool :=
  match chat_id with
  | Some s => eq_str id s
  | None => match id with PNone => true | _ => false end
  end.

(** [next((c for c in chats if c['id'] == chat_id), None)], with the
    position of the chat found: the generator stops at the first match. *)
Fixpoint find_chat (i : nat) (chats : list py) (chat_id : option string)
  : outcome (option (nat * dict)) :=
  match chats with
  | [] => Ok None
  | c :: rest =>
      id ← subscript c "id";
      if eq_id id chat_id
      then match c with
           | PDict chat => Ok (Some (i, chat))
           | _ => Raise (Exn TypeError "not subscriptable")
           end
      else find_chat (S i) rest chat_id
  end.

(** [[c for c in chats if c['id'] != chat_id]] *)
Fixpoint other_chats (chats : list py) (chat_id : string) : outcome (list py) :=
  match chats with
  | [] => Ok []
  | c :: rest =>
      id ← subscript c "id";
      kept ← other_chats rest chat_id;
      Ok (if eq_str id chat_id then kept else c :: kept)
  end.

Definition not_found : response :=
  Response 404 {[ "error" := PStr "Chat not found" ]}.

(** The data with the chat at position [i] replaced: the chat found is
    an element of [data['chats']], and is changed in place. *)
Definition with_chat (data : py) (i : nat) (chat : dict) : py :=
  match data with
  | PDict d =>
      match d !! "chats" with
      | Some (PList chats) => PDict (<[ "chats" := PList (<[ i := PDict chat ]> chats) ]> d)
      | _ => data
      end
  | _ => data
  end.

(** A handler's run: the response or the exception, and the file left. *)
Definition handled (file : option py) (run : outcome (response * option py))
  : outcome response * option py :=
  match run with
  | Ok (r, file') => (Ok r, file')
  | Raise e => (Raise e, file)
  end.

Definition get_chats (file : option py) : outcome response * option py :=
  let data := load_data file in
  handled file (
    chats ← subscript data "chats";
    Ok (Response 200 {[ "chats" := chats ]}, file)).

Definition create_chat (new_chat_id created_at : string) (file : option py)
  : outcome response * option py :=
  let data := load_data file in
  handled file (
    let new_chat : dict :=
      <[ "id" := PStr new_chat_id ]>
      (<[ "title" := PStr "New Chat" ]>
      (<[ "created_at" := PStr created_at ]>
      {[ "messages" := PList [] ]})) in
    chats ← subscript data "chats";
    match data, chats with
    | PDict d, PList l =>
        Ok (Response 200 {[ "chat" := PDict new_chat ]},
            Some (PDict (<[ "chats" := PList (PDict new_chat :: l) ]> d)))
    | _, _ => Raise (Exn OtherException "object has no attribute 'insert'")
    end).

Definition get_chat (chat_id : string) (file : option py)
  : outcome response * option py :=
  let data := load_data file in
  handled file (
    chats ← subscript data "chats";
    elements ← iterate chats;
    found ← find_chat 0 elements (Some chat_id);
    match found with
    | Some (_, chat) =>
        if truthy (PDict chat)
        then Ok (Response 200 {[ "chat" := PDict chat ]}, file)
        else Ok (not_found, file)
    | None => Ok (not_found, file)
    end).

Definition title_of (message_text : string) : string :=
  take_str 50 message_text
  +:+ (if (50 <? String.length message_text)%nat then "..." else "").

Definition send_message (w : World) (chat_id : option string)
    (message_text : string) (file_content : option string)
    (user_time assistant_time : string) (file : option py)
  : outcome response * option py :=
  let data := load_data file in
  handled file (
    chats ← subscript data "chats";
    elements ← iterate chats;
    found ← find_chat 0 elements chat_id;
    match found with
    | None => Ok (not_found, file)
    | Some (i, chat) =>
        if negb (truthy (PDict chat)) then Ok (not_found, file) else
        let attached :=
          match file_content with
          | Some content => truthy (PStr content)
          | None => false
          end in
        let full_message :=
          if attached
          then message_text +:+ nl +:+ nl +:+ "[Attached Document Content]:" +:+ nl
               +:+ default "" file_content
          else message_text in
        let user_message : dict :=
          <[ "role" := PStr "user" ]>
          (<[ "content" := PStr message_text ]>
          {[ "timestamp" := PStr user_time ]}) in
        let user_message :=
          if attached then <[ "has_attachment" := PBool true ]> user_message
          else user_message in
        messages ← subscript (PDict chat) "messages";
        match messages with
        | PList messages =>
            let messages := messages ++ [PDict user_message] in
            let chat := <[ "messages" := PList messages ]> chat in
            let chat :=
              if (length messages =? 1)%nat
              then <[ "title" := PStr (title_of message_text) ]> chat
              else chat in
            let ai_response := run_search_pipeline w full_message in
            let assistant_message : dict :=
              <[ "role" := PStr "assistant" ]>
              (<[ "content" := ai_response ]>
              {[ "timestamp" := PStr assistant_time ]}) in
            let messages := messages ++ [PDict assistant_message] in
            let chat := <[ "messages" := PList messages ]> chat in
            Ok (Response 200 (<[ "success" := PBool true ]> {[ "chat" := PDict chat ]}),
                Some (with_chat data i chat))
        | _ => Raise (Exn OtherException "object has no attribute 'append'")
        end
    end).

Definition delete_chat (chat_id : string) (file : option py)
  : outcome response * option py :=
  let data := load_data file in
  handled file (
    chats ← subscript data "chats";
    elements ← iterate chats;
    kept ← other_chats elements chat_id;
    match data with
    | PDict d =>
        Ok (Response 200 {[ "status" := PStr "success" ]},
            Some (PDict (<[ "chats" := PList kept ]> d)))
    | _ => Raise (Exn TypeError "object does not support item assignment")
    end).

Definition rename_chat (chat_id : string) (new_title : py) (file : option py)
  : outcome response * option py :=
  let data := load_data file in
  handled file (
    chats ← subscript data "chats";
    elements ← iterate chats;
    found ← find_chat 0 elements (Some chat_id);
    match found with
    | Some (i, chat) =>
        if truthy (PDict chat)
        then Ok (Response 200 {[ "status" := PStr "success" ]},
                 Some (with_chat data i (<[ "title" := new_title ]> chat)))
        else Ok (not_found, file)
    | None => Ok (not_found, file)
    end).

(** The requests of the chat store, and the handler of each. *)
Inductive request :=
| GetChats
| CreateChat (new_chat_id created_at : string)
| GetChat (chat_id : string)
| SendMessage (chat_id : option string) (message_text : string)
    (file_content : option string) (user_time assistant_time : string)
| DeleteChat (chat_id : string)
| RenameChat (chat_id : string) (new_title : py).

Definition handle (w : World) (req : request) (file : option py)
  : outcome response * option py :=
  match req with
  | GetChats => get_chats file
  | CreateChat new_chat_id created_at => create_chat new_chat_id created_at file
  | GetChat chat_id => get_chat chat_id file
  | SendMessage chat_id message_text file_content user_time assistant_time =>
      send_message w chat_id message_text file_content user_time assistant_time file
  | DeleteChat chat_id => delete_chat chat_id file
  | RenameChat chat_id new_title => rename_chat chat_id new_title file
  end.

(** The requests served one after the other, each on the file the one
    before left. *)
Fixpoint serve (w : World) (requests : list request) (file : option py)
  : list (outcome response) * option py :=
  match requests with
  | [] => ([], file)
  | req :: rest =>
      let '(r, file) := handle w req file in
      let '(rs, file) := serve w rest file in
      (r :: rs, file)
  end.

(** ** Sample worlds

    Concrete collaborators, on which the functions above are run. *)

(** Nothing is reachable and nothing is configured. *)
Definition offline_world : World := {|
  http_post := λ _, RequestException "connection refused";
  http_error_str := λ status_code, pretty status_code +:+ " Server Error";
  ip_api_get := RequestException "connection refused";
  now := "2025-01-01 12:00:00";
  json_loads := λ _, None;
  json_dumps := λ _, "{}";
  py_repr := λ _, "None";
  LLM_CLASSIFICATION_SYSTEM_PROMPT :=
    "You are a multilingual query classification assistant.";
  DIRECT_ANSWER_SYSTEM_PROMPT :=
    "You are a helpful assistant. Answer the user's question directly and concisely.";
  REFINE_SYSTEM_PROMPT := "You are a search query optimization expert.";
  RESPONSE_GENERATION_SYSTEM_PROMPT_TEMPLATE := λ intent domain,
    "Query Intent: " +:+ intent +:+ nl +:+ "Query Domain: " +:+ domain;
  RESPONSE_GENERATION_USER_PROMPT_TEMPLATE := λ query context_summary,
    "User Query: " +:+ query +:+ nl +:+ nl +:+ context_summary;
  load_local_retriever := None;
  SERPAPI_KEY := None;
  serpapi_get := λ _ _, RequestException "connection refused";
  get_finance_data := λ _, Ok {[ "error" := PStr "FINANCE_API_FAILED" ]};
  get_weather_data := λ _,
    Ok (<[ "error" := PStr "Missing API key" ]> {[ "domain" := PStr DOMAIN_WEATHER ]});
  get_transportation_data := λ _ _,
    Ok (<[ "error" := PStr "No transportation results found" ]>
        {[ "domain" := PStr DOMAIN_TRANSPORTATION ]});
  bm25_get_scores := λ corpus _, Ok ((λ _, 0%Q) <$> corpus)
|}.

(** The same world with another language-model endpoint and JSON parser. *)
Definition with_model (post : chat_request → http_reply)
    (loads : string → option py) (w : World) : World := {|
  http_post := post;
  http_error_str := http_error_str w;
  ip_api_get := ip_api_get w;
  now := now w;
  json_loads := loads;
  json_dumps := json_dumps w;
  py_repr := py_repr w;
  LLM_CLASSIFICATION_SYSTEM_PROMPT := LLM_CLASSIFICATION_SYSTEM_PROMPT w;
  DIRECT_ANSWER_SYSTEM_PROMPT := DIRECT_ANSWER_SYSTEM_PROMPT w;
  REFINE_SYSTEM_PROMPT := REFINE_SYSTEM_PROMPT w;
  RESPONSE_GENERATION_SYSTEM_PROMPT_TEMPLATE := RESPONSE_GENERATION_SYSTEM_PROMPT_TEMPLATE w;
  RESPONSE_GENERATION_USER_PROMPT_TEMPLATE := RESPONSE_GENERATION_USER_PROMPT_TEMPLATE w;
  load_local_retriever := load_local_retriever w;
  SERPAPI_KEY := SERPAPI_KEY w;
  serpapi_get := serpapi_get w;
  get_finance_data := get_finance_data w;
  get_weather_data := get_weather_data w;
  get_transportation_data := get_transportation_data w;
  bm25_get_scores := bm25_get_scores w
|}.

(** The body of a chat completion whose only choice carries [content]. *)
Definition completion (content : string) : py :=
  PDict {[ "choices" :=
    PList [ PDict {[ "message" := PDict {[ "content" := PStr content ]} ]} ] ]}.

(** The model answers every request with HTTP 200 and an empty message. *)
Definition silent_model_world : World :=
  with_model (λ _, HttpResponse 200 (Ok (completion ""))) (λ _, None) offline_world.

(** The model's endpoint answers with a page that is no JSON. *)
Definition gateway_page_world : World :=
  with_model
    (λ _, HttpResponse 200 (Raise (Exn JSONDecodeError "Expecting value: line 1 column 1 (char 0)")))
    (λ _, None) offline_world.

(** The model answers every request with [reply], which [json.loads]
    parses to [parsed]. *)
Definition scripted_model_world (reply : string) (parsed : py) : World :=
  with_model (λ _, HttpResponse 200 (Ok (completion reply)))
    (λ s, if String.eqb s reply then Some parsed else None) offline_world.

Definition quoted (s : string) : string := dq +:+ s +:+ dq.

(** A classification with a domain outside the closed set. *)
Definition sports_reply_text : string :=
  "{" +:+ quoted "intent" +:+ ": " +:+ quoted "factual" +:+ ", "
  +:+ quoted "domain" +:+ ": " +:+ quoted "sports" +:+ "}".

Definition sports_world : World :=
  scripted_model_world sports_reply_text
    (PDict (<[ "intent" := PStr "factual" ]> {[ "domain" := PStr "sports" ]})).

(** A classification without a domain, wrapped in a code fence. *)
Definition fenced_reply_text : string :=
  "```json" +:+ nl +:+ "{" +:+ quoted "intent" +:+ ": " +:+ quoted "factual"
  +:+ "}" +:+ nl +:+ "```".

Definition fenced_world : World :=
  with_model (λ _, HttpResponse 200 (Ok (completion fenced_reply_text)))
    (λ s, if String.eqb s ("{" +:+ quoted "intent" +:+ ": " +:+ quoted "factual" +:+ "}")
          then Some (PDict {[ "intent" := PStr "factual" ]}) else None)
    offline_world.

(** A classification that follows the prompt of [constants.py], which asks
    for a [currencies] entry among the entities, and that gives the
    location as a string. *)
Definition currency_reply_text : string :=
  "{" +:+ quoted "intent" +:+ ": " +:+ quoted "factual" +:+ ", "
  +:+ quoted "domain" +:+ ": " +:+ quoted "finance" +:+ ", "
  +:+ quoted "entities" +:+ ": {"
  +:+ quoted "currencies" +:+ ": [" +:+ quoted "USD" +:+ ", " +:+ quoted "HKD" +:+ "], "
  +:+ quoted "locations" +:+ ": " +:+ quoted "Hong Kong" +:+ "}}".

Definition currency_reply : py :=
  PDict (<[ "intent" := PStr "factual" ]>
        (<[ "domain" := PStr "finance" ]>
        {[ "entities" :=
             PDict (<[ "currencies" := PList [PStr "USD"; PStr "HKD"] ]>
                    {[ "locations" := PStr "Hong Kong" ]}) ]})).

Definition currency_world : World :=
  scripted_model_world currency_reply_text currency_reply.

(** The same world with a search key and another search API. *)
Definition with_search (key : string) (search : string → nat → http_reply)
    (w : World) : World := {|
  http_post := http_post w;
  http_error_str := http_error_str w;
  ip_api_get := ip_api_get w;
  now := now w;
  json_loads := json_loads w;
  json_dumps := json_dumps w;
  py_repr := py_repr w;
  LLM_CLASSIFICATION_SYSTEM_PROMPT := LLM_CLASSIFICATION_SYSTEM_PROMPT w;
  DIRECT_ANSWER_SYSTEM_PROMPT := DIRECT_ANSWER_SYSTEM_PROMPT w;
  REFINE_SYSTEM_PROMPT := REFINE_SYSTEM_PROMPT w;
  RESPONSE_GENERATION_SYSTEM_PROMPT_TEMPLATE := RESPONSE_GENERATION_SYSTEM_PROMPT_TEMPLATE w;
  RESPONSE_GENERATION_USER_PROMPT_TEMPLATE := RESPONSE_GENERATION_USER_PROMPT_TEMPLATE w;
  load_local_retriever := load_local_retriever w;
  SERPAPI_KEY := Some key;
  serpapi_get := search;
  get_finance_data := get_finance_data w;
  get_weather_data := get_weather_data w;
  get_transportation_data := get_transportation_data w;
  bm25_get_scores := bm25_get_scores w
|}.

(** The search API finds one page; the model and the finance integration
    stay unreachable. *)
Definition search_only_world : World :=
  with_search "serpapi-key"
    (λ _ _, HttpResponse 200 (Ok (PDict {[ "organic_results" :=
       PList [ PDict (<[ "title" := PStr "Apple Inc. (AAPL)" ]>
                      (<[ "link" := PStr "https://example.com/quote/AAPL" ]>
                      {[ "snippet" := PStr "Apple Inc. stock quote and news" ]})) ] ]})))
    offline_world.

(** The model answers every request with one sentence. *)
Definition talkative_world : World :=
  with_model (λ _, HttpResponse 200 (Ok (completion "Sunset is at 17:45.")))
    (λ _, None) offline_world.

(** A finance question that the classifier judged to need no web search. *)
Definition finance_understanding : dict :=
  <[ "intent" := PStr INTENT_FACTUAL ]>
  (<[ "domain" := PStr DOMAIN_FINANCE ]>
  (<[ "needs_web" := PBool false ]>
  (<[ "entities" :=
        PDict (<[ ENTITY_KEY_STOCK_SYMBOLS := PList [PStr "AAPL"] ]>
               _create_empty_entities) ]>
  {[ "query" := PStr "What is the price of AAPL?" ]}))).

(** A weather question that needs the web: all three sources are selected. *)
Definition weather_understanding : dict :=
  <[ "intent" := PStr INTENT_FACTUAL ]>
  (<[ "domain" := PStr DOMAIN_WEATHER ]>
  (<[ "needs_web" := PBool true ]>
  (<[ "entities" := PDict _create_empty_entities ]>
  {[ "query" := PStr "Will it rain in Hong Kong tomorrow?" ]}))).

(** A general question that needs no web search. *)
Definition static_understanding : dict :=
  <[ "intent" := PStr INTENT_FACTUAL ]>
  (<[ "domain" := PStr DOMAIN_GENERAL ]>
  (<[ "needs_web" := PBool false ]>
  (<[ "entities" := PDict _create_empty_entities ]>
  {[ "query" := PStr "What time is sunset in Hong Kong today?" ]}))).

(** A selection that [source_selection] never makes: the domain
    integration alone. *)
Definition domain_only_selection : SourceSelection :=
  {| sources := [SOURCE_DOMAIN_API];
     domain_handler := Some DOMAIN_FINANCE;
     priority := [SOURCE_DOMAIN_API] |}.

(** ** The statements about traces *)

(** How often backend [b] was invoked. *)
Definition calls (b : backend) (t : list event) : nat :=
  length (filter (λ e, e = Call b) t).

(** The backends in the order of their invocation. *)
Definition call_order (t : list event) : list backend :=
  omap (λ e, match e with Call b => Some b | Return _ => None end) t.

(** What a trace holds after the first call of backend [b]. *)
Fixpoint after_call (b : backend) (t : list event) : list event :=
  match t with
  | [] => []
  | e :: t' => if decide (e = Call b) then t' else after_call b t'
  end.

(** A trace in which every call has returned before the next event. *)
Inductive complete : list event → Prop :=
| complete_nil : complete []
| complete_call b t : complete t → complete (Call b :: Return b :: t).

(** A trace of calls that run one after the other: each call returns
    before the next one starts, except a last call that raised. *)
Inductive sequential : list event → Prop :=
| sequential_nil : sequential []
| sequential_raised b : sequential [Call b]
| sequential_call b t : sequential t → sequential (Call b :: Return b :: t).

(** Two calls overlap when the second starts before the first has
    returned: what a trace of concurrently running backends shows. *)
Definition overlapping (t : list event) : Prop :=
  ∃ b1 b2 t1 t2 t3,
    t = t1 ++ Call b1 :: t2 ++ Call b2 :: t3 ∧ Return b1 ∉ t2.






(** ** The statements about reranking *)

(** The score a result brings into the blend. *)
Definition original_score (x : dict) : option Q :=
  as_number (get_or x "score" (PFloat DEFAULT_SCORE_LOCAL_KB)).

(** One result after blending: the new score, the BM25 score beside it,
    everything else as it was. *)
Definition blended (x : dict) (original bm25_score : Q) : dict :=
  <[ "bm25_score" := PFloat bm25_score ]>
  (<[ "score" := PFloat (0.7 * original + 0.3 * bm25_score) ]> x).

(** What BM25 is given: the lower-cased, whitespace-split texts. *)
Definition tokenized_corpus (w : World) (results : list dict) : list (list string) :=
  (λ text, split_ws (lower text)) <$> (result_text w <$> results).

(** ** The statements about the classifier *)




(** A traced computation whose calls run one after the other, and all of
    which have returned if it hands back a value. *)
Definition well_traced {A} (m : traced A) : Prop :=
  sequential (fst m) ∧ (∀ a, snd m = Ok a → complete (fst m)).

(** ** The statements about source selection *)

(** The domains that have an integration. *)
Definition DOMAIN_HANDLERS : list string :=
  [DOMAIN_FINANCE; DOMAIN_WEATHER; DOMAIN_TRANSPORTATION].

(** What the three blocks of [source_selection] build, said at once. *)
Definition selection_of (domain : py) (needs_web local_first : bool)
  : SourceSelection :=
  let handled := in_strs domain DOMAIN_HANDLERS in
  let general := eq_str domain DOMAIN_GENERAL in
  let api := if handled then [SOURCE_DOMAIN_API] else [] in
  {| sources := api ++ (if needs_web then [SOURCE_WEB_SEARCH] else [])
                ++ [SOURCE_LOCAL_KB];
     domain_handler :=
       if handled then match domain with PStr h => Some h | _ => None end
       else None;
     priority :=
       (if local_first then [SOURCE_LOCAL_KB] else [])
       ++ (if needs_web && general then [SOURCE_WEB_SEARCH] else [])
       ++ api
       ++ (if needs_web && negb general then [SOURCE_WEB_SEARCH] else [])
       ++ (if local_first then [] else [SOURCE_LOCAL_KB]) |}.

(** ** The statements about the understanding *)


Definition USER_CONTEXT_KEYS : gset string :=
  {[ "current_time"; "location"; "country"; "timezone"; "latitude"; "longitude" ]}.

(** The user context after a successful geolocation. *)
Definition located_context (w : World) (data : dict) : dict :=
  <[ "longitude" := get_or data "lon" (PFloat 114.1694) ]>
  (<[ "latitude" := get_or data "lat" (PFloat 22.3193) ]>
  (<[ "timezone" := get_or data "timezone" (PStr "Asia/Hong_Kong") ]>
  (<[ "country" := get_or data "country" (PStr "Hong Kong") ]>
  (<[ "location" := get_or data "city" (PStr "Hong Kong") ]>
     (DEFAULT_USER_CONTEXT w))))).

(** ** The statements about the retrieval backends *)

(** One result of the knowledge base. *)
Definition kb_item (content : py) (similarity_score : Q) (rank : nat) : dict :=
  <[ "content" := content ]>
  (<[ "score" := PFloat similarity_score ]>
  (<[ "source" := PStr RESULT_SOURCE_LOCAL_KB ]>
  {[ "rank" := PInt (Z.of_nat rank) ]})).

(** One result of the web search, as the pipeline gets it. *)
Definition web_item (content title url : py) : dict :=
  <[ "content" := content ]>
  (<[ "title" := title ]>
  (<[ "url" := url ]>
  (<[ "source" := PStr RESULT_SOURCE_WEB ]>
  {[ "score" := PFloat DEFAULT_SCORE_WEB_RESULTS ]}))).

(** The hits the similarity threshold lets through. *)
Definition above_threshold (hit : Q * Z) : bool :=
  if Qlt_le_dec hit.1 MIN_SIMILARITY_THRESHOLD then false else true.

(** A result that carries a number as its score. *)
Definition scored (x : dict) : Prop := ∃ s, x !! "score" = Some (PFloat s).

(** The same world with another knowledge base. *)
Definition with_retriever (r : option retriever) (w : World) : World := {|
  http_post := http_post w;
  http_error_str := http_error_str w;
  ip_api_get := ip_api_get w;
  now := now w;
  json_loads := json_loads w;
  json_dumps := json_dumps w;
  py_repr := py_repr w;
  LLM_CLASSIFICATION_SYSTEM_PROMPT := LLM_CLASSIFICATION_SYSTEM_PROMPT w;
  DIRECT_ANSWER_SYSTEM_PROMPT := DIRECT_ANSWER_SYSTEM_PROMPT w;
  REFINE_SYSTEM_PROMPT := REFINE_SYSTEM_PROMPT w;
  RESPONSE_GENERATION_SYSTEM_PROMPT_TEMPLATE := RESPONSE_GENERATION_SYSTEM_PROMPT_TEMPLATE w;
  RESPONSE_GENERATION_USER_PROMPT_TEMPLATE := RESPONSE_GENERATION_USER_PROMPT_TEMPLATE w;
  load_local_retriever := r;
  SERPAPI_KEY := SERPAPI_KEY w;
  serpapi_get := serpapi_get w;
  get_finance_data := get_finance_data w;
  get_weather_data := get_weather_data w;
  get_transportation_data := get_transportation_data w;
  bm25_get_scores := bm25_get_scores w
|}.

(** A knowledge base of three documents, of which the search finds the
    second too far from the query. *)
Definition library : retriever := {|
  kb_search := λ _ _, Ok [((9 # 10)%Q, 0%Z); ((1 # 5)%Q, 1%Z); ((1 # 2)%Q, 2%Z)];
  kb_document := λ idx,
    if (idx =? 0)%Z then Ok (PDict {[ "content" := PStr "Octopus card fares" ]})
    else if (idx =? 1)%Z then Ok (PDict {[ "content" := PStr "Dim sum" ]})
    else if (idx =? 2)%Z then Ok (PDict {[ "content" := PStr "MTR fare table" ]})
    else Raise (Exn OtherException "list index out of range")
|}.

Definition library_world : World := with_retriever (Some library) offline_world.

(** A stock question whose integration failed; the web fallback found one
    page. *)
Definition failed_quote_results : RetrievalResult :=
  {| local_kb_results := [];
     web_results :=
       [ web_item (PStr "Apple Inc. stock quote and news")
           (PStr "Apple Inc. (AAPL)") (PStr "https://example.com/quote/AAPL") ];
     domain_api_results := {[ "error" := PStr "FINANCE_API_FAILED" ]} |}.

(** ** The statements about the order of the reranked list *)




(** What [_extract_domain_api_result] looks for. *)
Definition is_domain_payload (ctx : dict) : bool :=
  eq_str (get ctx "source") RESULT_SOURCE_DOMAIN_API && is_dict (get ctx "content").

(** ** The statements about the pipeline *)

(** The language model cannot be reached: every request ends in a
    network error or an HTTP error status. *)
Definition model_unreachable (w : World) : Prop :=
  ∀ req, match http_post w req with
         | RequestException _ => True
         | HttpResponse status_code _ => is_error_status status_code = true
         end.

(** ** The statements about the performance monitor *)

(** The states the monitor goes through. *)
Inductive monitor_reachable : PerformanceMonitor → Prop :=
| reachable_init : monitor_reachable monitor_init
| reachable_record m operation duration :
    monitor_reachable m → monitor_reachable (record_timing m operation duration)
| reachable_reset m : monitor_reachable m → monitor_reachable (reset m)
| reachable_print m : monitor_reachable m → monitor_reachable (print_summary m).

(** How often an operation has been timed, and its durations. *)
Definition times_of (m : PerformanceMonitor) (operation : string) : list Q :=
  default [] (timings m !! operation).

(** The invariant of the two dictionaries. *)
Definition monitor_consistent (m : PerformanceMonitor) : Prop :=
  ∀ operation,
    counts m !! operation
    = (λ times, Z.of_nat (length times)) <$> timings m !! operation
    ∧ timings m !! operation ≠ Some [].

(** ** The statements about the chat store *)

(** A chat as the handlers need it: a dictionary with an id and a list
    of messages; and a store of such chats. *)
Definition well_formed_chat (c : py) : Prop :=
  ∃ chat messages,
    c = PDict chat ∧ is_Some (chat !! "id")
    ∧ chat !! "messages" = Some (PList messages).

Definition well_formed_store (file : option py) : Prop :=
  ∃ d chats,
    load_data file = PDict d ∧ d !! "chats" = Some (PList chats)
    ∧ Forall well_formed_chat chats.

(** The chat a search found, without its position. *)
Definition chat_found (found : outcome (option (nat * dict))) : outcome (option dict) :=
  match found with
  | Ok found => Ok (snd <$> found)
  | Raise e => Raise e
  end.

(** The messages [send_message] appends, and the chat it leaves. *)
Definition attached (file_content : option string) : bool :=
  match file_content with
  | Some content => truthy (PStr content)
  | None => false
  end.

Definition full_message_of (message_text : string) (file_content : option string)
  : string :=
  if attached file_content
  then message_text +:+ nl +:+ nl +:+ "[Attached Document Content]:" +:+ nl
       +:+ default "" file_content
  else message_text.

Definition user_message_of (message_text : string) (file_content : option string)
    (user_time : string) : dict :=
  let user_message : dict :=
    <[ "role" := PStr "user" ]>
    (<[ "content" := PStr message_text ]>
    {[ "timestamp" := PStr user_time ]}) in
  if attached file_content then <[ "has_attachment" := PBool true ]> user_message
  else user_message.

Definition assistant_message_of (ai_response : py) (assistant_time : string) : dict :=
  <[ "role" := PStr "assistant" ]>
  (<[ "content" := ai_response ]>
  {[ "timestamp" := PStr assistant_time ]}).

Definition answered_chat (w : World) (chat : dict) (messages : list py)
    (message_text : string) (file_content : option string)
    (user_time assistant_time : string) : dict :=
  let user_message := user_message_of message_text file_content user_time in
  let assistant_message :=
    assistant_message_of
      (run_search_pipeline w (full_message_of message_text file_content))
      assistant_time in
  let titled :=
    match messages with
    | [] => <[ "title" := PStr (title_of message_text) ]>
              (<[ "messages" := PList [PDict user_message] ]> chat)
    | _ => <[ "messages" := PList (messages ++ [PDict user_message]) ]> chat
    end in
  <[ "messages" := PList ((messages ++ [PDict user_message])
                          ++ [PDict assistant_message]) ]> titled.

(** A store with one chat that has no message yet. *)
Definition fresh_chat : dict :=
  <[ "id" := PStr "1735732800000417" ]>
  (<[ "title" := PStr "New Chat" ]>
  (<[ "created_at" := PStr "2025-01-01T12:00:00" ]>
  {[ "messages" := PList [] ]})).

Definition one_chat_file : option py :=
  Some (PDict {[ "chats" := PList [PDict fresh_chat] ]}).

(** * Properties *)

(** ** Dictionaries *)

Lemma has_key_true (d : dict) (k : string) :
  has_key d k = true ↔ is_Some (d !! k).
Proof. unfold has_key. apply bool_decide_eq_true. Qed.

Lemma has_key_false (d : dict) (k : string) :
  has_key d k = false ↔ d !! k = None.
Proof.
  unfold has_key. rewrite bool_decide_eq_false.
  symmetry. apply eq_None_not_Some.
Qed.

Lemma get_or_Some (d : dict) (k : string) (dflt v : py) :
  d !! k = Some v → get_or d k dflt = v.
Proof. intros H. unfold get_or. by rewrite H. Qed.


(** ** The language-model client *)

Section Client.
Context (w : World).

(** A reply of [chat] is an error marker and nothing else, or it has no
    error marker and binds [content] to a string. *)
Lemma chat_reply_cases req r :
  chat w req = Ok r →
  (∃ e, r = {[ "error" := PStr e ]})
  ∨ (∃ c, r !! "error" = None ∧ r !! "content" = Some (PStr c)).
Proof.
  unfold chat. destruct (http_post w req) as [msg|status body].
  - intros [= <-]. left. eauto.
  - destruct (is_error_status status).
    + intros [= <-]. left. eauto.
    + destruct body as [data|e]; cbn; [|done].
      destruct (String.eqb _ _); intros [= <-]; right;
        eexists; split; by simplify_map_eq.
Qed.

(** An answer whose text is empty is passed on as [content = ""], with a
    warning next to it, not as an error. *)
Lemma chat_empty_content req status data :
  http_post w req = HttpResponse status (Ok data) →
  is_error_status status = false →
  extract_content data = "" →
  ∃ r, chat w req = Ok r ∧ r !! "error" = None ∧ r !! "content" = Some (PStr "").
Proof.
  intros Hpost Hstatus Hdata. unfold chat. rewrite Hpost, Hstatus. cbn.
  rewrite Hdata. cbn. eexists. split; [done|]. split; by simplify_map_eq.
Qed.

Lemma chat_body_not_json req status e :
  http_post w req = HttpResponse status (Raise e) →
  is_error_status status = false →
  chat w req = Raise e.
Proof. intros Hpost Hstatus. unfold chat. by rewrite Hpost, Hstatus. Qed.

Lemma chat_never_empty_dict req r : chat w req = Ok r → r ≠ ∅.
Proof.
  intros [[e ->]|(c & _ & Hc)]%chat_reply_cases Hr.
  - by apply (f_equal (lookup "error")) in Hr.
  - by rewrite Hr in Hc.
Qed.
End Client.

(** ** Response generation *)

Section ResponseGeneration.
Context (w : World) (query : string) (understanding : dict) (context : list dict).

Let req := generation_request w query understanding context.

(** On an error marker the answer is the static apology. *)
Lemma generate_response_on_error r :
  chat w req = Ok r → is_Some (r !! "error") →
  generate_response w query understanding context = Ok (PStr LOG_RESPONSE_ERROR).
Proof.
  intros Hchat Herr. unfold generate_response. fold req. rewrite Hchat. cbn.
  apply has_key_true in Herr. by rewrite Herr.
Qed.

(** Without an error marker the answer is the reply's content, as it is. *)
Lemma generate_response_on_content r c :
  chat w req = Ok r → r !! "error" = None → r !! "content" = Some (PStr c) →
  generate_response w query understanding context = Ok (PStr c).
Proof.
  intros Hchat Herr Hc. unfold generate_response. fold req. rewrite Hchat. cbn.
  apply has_key_false in Herr. rewrite Herr. by rewrite (get_or_Some _ _ _ _ Hc).
Qed.


(** It raises when the endpoint's body is no JSON: [response.json()] sits
    outside the [try] of [chat], and nothing on the way up catches it. *)
Lemma generate_response_raises status e :
  http_post w req = HttpResponse status (Raise e) →
  is_error_status status = false →
  generate_response w query understanding context = Raise e.
Proof.
  intros Hpost Hstatus. unfold generate_response. fold req.
  by rewrite (chat_body_not_json _ _ _ _ Hpost Hstatus).
Qed.

(** C3, evaluated where the model answers with an empty text and no
    error: [generate_response] returns the empty string, not the static
    text "I couldn't generate a response at this time."; the default of
    [result.get("content", ...)] is never used, because [chat] always
    binds [content]. *)
Theorem generate_response_empty_content status data :
  http_post w req = HttpResponse status (Ok data) →
  is_error_status status = false →
  extract_content data = "" →
  generate_response w query understanding context = Ok (PStr "")
  ∧ PStr "" ≠ PStr LOG_RESPONSE_FALLBACK.
Proof.
  intros Hpost Hstatus Hdata.
  destruct (chat_empty_content _ _ _ _ Hpost Hstatus Hdata) as (r & Hchat & Herr & Hc).
  split; [|done]. by eapply generate_response_on_content.
Qed.
End ResponseGeneration.

Lemma generate_response_empty_content_witness :
  generate_response silent_model_world "What time is sunset in Hong Kong today?"
    (default_understanding (get_user_context silent_model_world)) []
  = Ok (PStr "")
  ∧ PStr "" ≠ PStr LOG_RESPONSE_FALLBACK.
Proof.
  apply (generate_response_empty_content silent_model_world _ _ _ 200 (completion ""));
    reflexivity.
Defined.

(** ** The pipeline *)

Section Pipeline.
Context (w : World) (query : string).


(** An exception anywhere in the stages becomes an answer that embeds
    its text, and that answer is not empty. *)
Lemma run_search_pipeline_on_exception e :
  run_search_pipeline_try w query = Raise e →
  run_search_pipeline w query
  = PStr (ERROR_PIPELINE_PROCESSING +:+ ": " +:+ exn_str e)
  ∧ run_search_pipeline w query ≠ PStr "".
Proof.
  intros H. unfold run_search_pipeline. rewrite H. split; [done|].
  by intros [=].
Qed.
End Pipeline.

(** C1, evaluated where the model answers every request with HTTP 200 and
    an empty message: no stage fails, and the answer of the pipeline is
    the empty string. *)
Theorem run_search_pipeline_empty_answer :
  run_search_pipeline silent_model_world "What time is sunset in Hong Kong today?"
  = PStr "".
Proof. vm_compute. reflexivity. Qed.

(** Where the endpoint's body is no JSON the exception reaches the handler
    of the pipeline, whose answer embeds the error text. *)
Example run_search_pipeline_gateway_page :
  run_search_pipeline gateway_page_world "What time is sunset in Hong Kong today?"
  = PStr (ERROR_PIPELINE_PROCESSING +:+ ": Expecting value: line 1 column 1 (char 0)").
Proof. vm_compute. reflexivity. Qed.

(** ** Source selection *)

Section SourceSelection.

Lemma complete_priority_cons s srcs prio :
  complete_priority (s :: srcs) prio
  = complete_priority srcs
      (if bool_decide (s ∈ prio) then prio else prio ++ [s]).
Proof. reflexivity. Qed.

(** The closing loop keeps what is in [priority], in its order, and
    leaves no source out. *)
Lemma complete_priority_prefix srcs prio :
  ∃ added, complete_priority srcs prio = prio ++ added.
Proof.
  revert prio. induction srcs as [|s srcs IH]; intros prio.
  - exists []. by rewrite app_nil_r.
  - rewrite complete_priority_cons. case_bool_decide.
    + apply IH.
    + destruct (IH (prio ++ [s])) as [added ->].
      exists (s :: added). by rewrite <- app_assoc.
Qed.

Lemma complete_priority_covers srcs prio s :
  s ∈ srcs → s ∈ complete_priority srcs prio.
Proof.
  revert prio. induction srcs as [|s' srcs IH]; intros prio; [by intros ?%elem_of_nil|].
  rewrite complete_priority_cons.
  intros [->|Hin]%elem_of_cons; [|by apply IH].
  case_bool_decide as Hs.
  - destruct (complete_priority_prefix srcs prio) as [added ->]. set_solver.
  - destruct (complete_priority_prefix srcs (prio ++ [s'])) as [added ->]. set_solver.
Qed.

Lemma complete_priority_NoDup srcs prio :
  NoDup prio → NoDup (complete_priority srcs prio).
Proof.
  revert prio. induction srcs as [|s srcs IH]; intros prio Hnd; [done|].
  rewrite complete_priority_cons.
  case_bool_decide as Hs; apply IH; [done|].
  apply NoDup_app. split; [done|]. split; [|apply NoDup_singleton].
  intros x Hx ->%list_elem_of_singleton. done.
Qed.

(** Where every source has its place already, the loop changes nothing. *)
Lemma complete_priority_id srcs prio :
  (∀ s, s ∈ srcs → s ∈ prio) → complete_priority srcs prio = prio.
Proof.
  induction srcs as [|s srcs IH]; intros Hsub; [done|].
  rewrite complete_priority_cons.
  rewrite bool_decide_eq_true_2 by set_solver. apply IH. set_solver.
Qed.

(** The local knowledge base is selected for every understanding. *)
Lemma source_selection_local_kb (understanding : dict) :
  SOURCE_LOCAL_KB ∈ sources (source_selection understanding).
Proof.
  unfold source_selection.
  repeat match goal with |- context [if ?b then _ else _] => destruct b end;
    cbn; set_solver.
Qed.

(** C2: for every understanding, [priority] is a permutation of
    [sources], of the same length, and neither list repeats a source. *)
Theorem source_selection_priority_permutation (understanding : dict) :
  let sel := source_selection understanding in
  priority sel ≡ₚ sources sel
  ∧ length (priority sel) = length (sources sel)
  ∧ NoDup (sources sel)
  ∧ NoDup (priority sel)
  ∧ (∀ s, s ∈ priority sel ↔ s ∈ sources sel).
Proof.
  assert (Hperm : priority (source_selection understanding)
                  ≡ₚ sources (source_selection understanding)
                  ∧ NoDup (sources (source_selection understanding))).
  { unfold source_selection.
    set (domain := get_or understanding "domain" _).
    set (needs_web := get_or understanding "needs_web" _).
    set (intent := get_or understanding "intent" _).
    destruct (eq_str domain DOMAIN_FINANCE), (eq_str domain DOMAIN_WEATHER),
      (eq_str domain DOMAIN_TRANSPORTATION), (eq_str domain DOMAIN_GENERAL),
      (truthy needs_web), (eq_str intent INTENT_CONVERSATIONAL);
      vm_compute; (split; [solve_Permutation|]);
      apply (bool_decide_unpack _); vm_compute; exact I. }
  destruct Hperm as [Hperm Hnd]. cbn. repeat split.
  - done.
  - by rewrite Hperm.
  - done.
  - by rewrite Hperm.
  - by rewrite Hperm.
  - by rewrite Hperm.
Qed.

(** The scenario of the specification: a weather query that needs the
    web. *)
Example source_selection_weather :
  let sel := source_selection
    (<[ "domain" := PStr DOMAIN_WEATHER ]>
     (<[ "needs_web" := PBool true ]> {[ "intent" := PStr INTENT_FACTUAL ]})) in
  sources sel = [SOURCE_DOMAIN_API; SOURCE_WEB_SEARCH; SOURCE_LOCAL_KB]
  ∧ priority sel = [SOURCE_DOMAIN_API; SOURCE_WEB_SEARCH; SOURCE_LOCAL_KB]
  ∧ domain_handler sel = Some DOMAIN_WEATHER.
Proof. vm_compute. done. Qed.
End SourceSelection.

(** ** Query understanding *)

Section QueryUnderstanding.
Context (w : World) (query : string).

Let user_context := get_user_context w.

Lemma query_understanding_fallback :
  classify_with_llm w query user_context = None →
  query_understanding w query = default_understanding user_context.
Proof. intros H. unfold query_understanding. fold user_context. by rewrite H. Qed.

Lemma classify_with_llm_on_text content :
  model_reply_text w query user_context = Ok (Some content) →
  classify_with_llm w query user_context
  = match json_loads w content with
    | Some result =>
        match validate_reply result with Ok r => r | Raise _ => None end
    | None => None
    end.
Proof.
  intros H. unfold classify_with_llm, classify_try. rewrite H. cbn.
  by destruct (json_loads w content).
Qed.

End QueryUnderstanding.

(** The failures one by one, on sample worlds: an empty answer, prose in
    place of JSON, a reply without [domain] inside a code fence, a domain
    outside the closed set. *)
Example query_understanding_empty_answer :
  query_understanding silent_model_world "Will it rain in Hong Kong tomorrow?"
  = default_understanding (get_user_context silent_model_world).
Proof. vm_compute. reflexivity. Qed.

Example query_understanding_prose_answer :
  query_understanding talkative_world "Will it rain in Hong Kong tomorrow?"
  = default_understanding (get_user_context talkative_world).
Proof. vm_compute. reflexivity. Qed.

Example query_understanding_missing_domain :
  json_loads fenced_world (strip_code_fences (strip fenced_reply_text))
  = Some (PDict {[ "intent" := PStr "factual" ]})
  ∧ query_understanding fenced_world "Will it rain in Hong Kong tomorrow?"
    = default_understanding (get_user_context fenced_world).
Proof. split; vm_compute; reflexivity. Qed.

Example query_understanding_unknown_domain :
  query_understanding sports_world "Who won the match?"
  = default_understanding (get_user_context sports_world).
Proof. vm_compute. reflexivity. Qed.


(** ** The entities of an understanding *)


Section Entities.








End Entities.

Section UnderstandingEntities.
Context (w : World) (query : string).


End UnderstandingEntities.




(** ** Traces *)

Section Traces.

Lemma complete_sequential t : complete t → sequential t.
Proof. induction 1; by constructor. Qed.

Lemma complete_app t1 t2 : complete t1 → complete t2 → complete (t1 ++ t2).
Proof. induction 1; intros; cbn; [done|]. constructor. auto. Qed.

Lemma sequential_app t1 t2 : complete t1 → sequential t2 → sequential (t1 ++ t2).
Proof. induction 1; intros; cbn; [done|]. constructor. auto. Qed.

(** In a sequential trace no call starts while another is under way. *)
Lemma sequential_not_overlapping t : sequential t → ¬ overlapping t.
Proof.
  induction 1 as [|b|b t Hseq IH]; intros (b1 & b2 & t1 & t2 & t3 & Ht & Hin).
  - by destruct t1.
  - apply (f_equal length) in Ht. rewrite length_app in Ht. cbn in Ht.
    rewrite length_app in Ht. cbn in Ht. lia.
  - destruct t1 as [|e1 [|e2 t1]]; cbn in Ht.
    + injection Ht as -> Ht. destruct t2 as [|e t2]; cbn in Ht; [done|].
      injection Ht as <- _. apply Hin. by left.
    + by injection Ht.
    + injection Ht as _ _ ->. apply IH. by exists b1, b2, t1, t2, t3.
Qed.

Lemma well_traced_ret {A} (a : A) : well_traced (mret a).
Proof. split; intros; constructor. Qed.

Lemma well_traced_invoke {A} b (call : outcome A) : well_traced (invoke b call).
Proof.
  destruct call; split; cbn; intros; try done; repeat constructor.
Qed.

Lemma well_traced_read_local {A} name (v : option A) :
  well_traced (read_local name v).
Proof. destruct v; split; cbn; intros; try done; constructor. Qed.

Lemma well_traced_bind {A B} (m : traced A) (f : A → traced B) :
  well_traced m → (∀ a, well_traced (f a)) → well_traced (m ≫= f).
Proof.
  destruct m as [t [a|e]]; intros [Hseq Hcomp] Hf; unfold mbind, traced_bind.
  - destruct (f a) as [t' r] eqn:Hfa. specialize (Hf a). rewrite Hfa in Hf.
    destruct Hf as [Hseq' Hcomp']. cbn in *. split.
    + apply sequential_app; eauto.
    + intros b Hb. apply complete_app; eauto.
  - split; [done|]. by intros.
Qed.

(** The coordinator is built from calls, reads and returns only. *)
Lemma retrieve_information_well_traced w query understanding sel :
  well_traced (retrieve_information w query understanding sel).
Proof.
  unfold retrieve_information.
  repeat first
    [ apply well_traced_bind; [|intros ?]
    | apply well_traced_ret
    | apply well_traced_invoke
    | apply well_traced_read_local
    | match goal with
      | |- well_traced (if ?b then _ else _) => destruct b
      | |- well_traced (match ?x with _ => _ end) => destruct x
      end ].
Qed.
End Traces.

(** ** Retrieval *)

(** Running the traced monad: binds and returns are unfolded, traces and
    record fields computed; no dictionary is looked into. *)
Ltac run_traced :=
  repeat progress
    (unfold mbind, traced_bind, mret, traced_ret, invoke, read_local, raise;
     cbn [negb andb orb fst snd app
          local_kb_results web_results domain_api_results]).

(** The paths through [retrieve_information]: one case for each test the
    coordinator makes. *)
Ltac split_trace :=
  unfold retrieve_information;
  repeat (run_traced;
    match goal with
    | |- context [bool_decide (?s ∈ sources ?sel)] =>
        destruct (bool_decide (s ∈ sources sel)) eqn:?
    | |- context [truthy ?v] => destruct (truthy v) eqn:?
    | |- context [match domain_handler ?s with _ => _ end] =>
        destruct (domain_handler s) eqn:?
    | |- context [match call_domain_api ?w ?q ?h ?u with _ => _ end] =>
        destruct (call_domain_api w q h u) eqn:?
    | |- context [has_key ?d ?k] => destruct (has_key d k) eqn:?
    end);
  run_traced.

Ltac decided :=
  repeat match goal with
  | H : bool_decide _ = true |- _ => apply bool_decide_eq_true in H
  | H : bool_decide _ = false |- _ => apply bool_decide_eq_false in H
  end.

Section DirectAnswer.
Context (w : World) (query : string).

Lemma direct_answer_item_nonempty content : direct_answer_item content ≠ ∅.
Proof. intros H. by apply (f_equal (lookup "rank")) in H. Qed.

(** A non-empty reply becomes the synthetic result. *)
Lemma get_hkgai_answer_content reply c :
  chat w (direct_answer_request w query) = Ok reply →
  reply !! "content" = Some (PStr c) → c ≠ "" →
  get_hkgai_answer w query = direct_answer_item (PStr c).
Proof.
  intros Hchat Hc Hne. unfold get_hkgai_answer, get_hkgai_answer_try.
  rewrite Hchat. unfold mbind, outcome_bind.
  assert (Hkey : has_key reply "content" = true) by (apply has_key_true; eauto).
  unfold get. rewrite Hkey, (get_or_Some _ _ _ _ Hc).
  assert (Ht : truthy (PStr c) = true).
  { unfold truthy. by destruct (String.eqb_spec c ""). }
  by rewrite Ht.
Qed.

(** Whatever the model does, the answer is the synthetic result of some
    content, or nothing. *)
Lemma get_hkgai_answer_cases :
  get_hkgai_answer w query = ∅
  ∨ ∃ content, get_hkgai_answer w query = direct_answer_item content.
Proof.
  unfold get_hkgai_answer, get_hkgai_answer_try.
  destruct (chat w (direct_answer_request w query)) as [reply|e]; [|by left].
  unfold mbind, outcome_bind.
  destruct (has_key reply "content" && truthy (get reply "content")); eauto.
Qed.
End DirectAnswer.

Section Coordinator.
Context (w : World) (query : string) (understanding : dict)
        (sel : SourceSelection).

(** Without the local knowledge base among the sources, [kb_results] is
    read before any statement has assigned it. *)
Lemma retrieve_information_unbound :
  SOURCE_LOCAL_KB ∉ sources sel →
  ∃ t msg, retrieve_information w query understanding sel
           = (t, Raise (Exn UnboundLocalError msg)).
Proof. intros Hkb. split_trace; decided; try done; eauto. Qed.

(** With it, only the domain integration can make the coordinator
    raise. *)
Lemma retrieve_information_raise e :
  SOURCE_LOCAL_KB ∈ sources sel →
  snd (retrieve_information w query understanding sel) = Raise e →
  ∃ handler, domain_handler sel = Some handler
             ∧ call_domain_api w query handler understanding = Raise e.
Proof.
  intros Hkb. split_trace; decided; try done; intros [=]; subst; eauto.
Qed.

Lemma retrieve_information_returns :
  SOURCE_LOCAL_KB ∈ sources sel →
  (∀ handler, returns (call_domain_api w query handler understanding)) →
  returns (snd (retrieve_information w query understanding sel)).
Proof.
  intros Hkb Hapi.
  destruct (snd (retrieve_information w query understanding sel)) as [r|e] eqn:Hrun;
    [by exists r|].
  destruct (retrieve_information_raise e Hkb Hrun) as (handler & _ & Hraise).
  destruct (Hapi handler) as [a Ha]. congruence.
Qed.

(** C7: in a run that returns, a domain result with an error marker and
    no web search among the sources mean exactly one web-search call,
    made after the domain call, whose results are the web bucket; with
    web search among the sources there is exactly one web-search call,
    none after the domain call, and the web bucket holds its results. *)
Theorem domain_failure_web_fallback r :
  snd (retrieve_information w query understanding sel) = Ok r →
  let t := fst (retrieve_information w query understanding sel) in
  let user_context := get understanding "user_context" in
  (has_key (domain_api_results r) "error" = true →
   SOURCE_WEB_SEARCH ∉ sources sel →
     calls WebSearch t = 1
     ∧ calls WebSearch (after_call DomainAPI t) = 1
     ∧ web_results r = retrieve_from_web w query user_context)
  ∧ (SOURCE_WEB_SEARCH ∈ sources sel →
     calls WebSearch t = 1
     ∧ calls WebSearch (after_call DomainAPI t) = 0
     ∧ web_results r = retrieve_from_web w query user_context).
Proof.
  cbv zeta. revert r.
  split_trace; decided; try done; intros r [= <-]; run_traced.
  all: split; [intros Herr Hweb|intros Hweb]; try done; try congruence.
  all: by rewrite (proj2 (has_key_false ∅ "error")) in Herr by apply lookup_empty.
Qed.

(** Without an error marker nothing is searched that was not selected. *)
Lemma no_fallback_without_error r :
  snd (retrieve_information w query understanding sel) = Ok r →
  has_key (domain_api_results r) "error" = false →
  SOURCE_WEB_SEARCH ∉ sources sel →
  calls WebSearch (fst (retrieve_information w query understanding sel)) = 0
  ∧ web_results r = [].
Proof.
  revert r.
  split_trace; decided; try done; intros r [= <-]; run_traced;
    intros Herr Hweb; try done; congruence.
Qed.

(** C8: without web search among the sources the model is asked once
    for a direct answer, and in a run that returns a non-empty reply
    heads the local bucket as a result of rank 0 and score 1.0, while an
    empty one leaves the bucket as retrieved; with web search among the
    sources the model is not asked, and each bucket holds what its own
    backend returned. *)
Theorem direct_answer_policy :
  let run := retrieve_information w query understanding sel in
  let kb := retrieve_from_local_kb w query DEFAULT_TOP_K_LOCAL_KB in
  (SOURCE_WEB_SEARCH ∉ sources sel →
     calls DirectAnswer (fst run) = 1
     ∧ ∀ r, snd run = Ok r →
         (∀ reply c,
            chat w (direct_answer_request w query) = Ok reply →
            reply !! "content" = Some (PStr c) → c ≠ "" →
            local_kb_results r = direct_answer_item (PStr c) :: kb
            ∧ direct_answer_item (PStr c) !! "rank" = Some (PInt 0)
            ∧ direct_answer_item (PStr c) !! "score" = Some (PFloat 1.0)
            ∧ direct_answer_item (PStr c) !! "content" = Some (PStr c))
         ∧ (get_hkgai_answer w query = ∅ → local_kb_results r = kb))
  ∧ (SOURCE_WEB_SEARCH ∈ sources sel →
     calls DirectAnswer (fst run) = 0
     ∧ ∀ r, snd run = Ok r →
         local_kb_results r = kb
         ∧ web_results r
           = retrieve_from_web w query (get understanding "user_context")
         ∧ (domain_api_results r = ∅
            ∨ ∃ handler, call_domain_api w query handler understanding
                         = Ok (domain_api_results r))).
Proof.
  cbv zeta. split; intros Hweb.
  - split; [split_trace; decided; by try done|].
    intros r Hrun. split.
    + intros reply c Hchat Hc Hne.
      pose proof (get_hkgai_answer_content w query reply c Hchat Hc Hne) as Hans.
      split; [|by repeat split].
      revert r Hrun. rewrite <- Hans. clear Hans.
      split_trace; decided; try done; intros r [= <-]; run_traced; try done.
      all: match goal with
           | H : truthy (PDict _) = false |- _ =>
               rewrite (get_hkgai_answer_content w query reply c Hchat Hc Hne) in H;
               unfold truthy in H; apply negb_false_iff, bool_decide_eq_true in H;
               by apply direct_answer_item_nonempty in H
           end.
    + intros Hempty. revert r Hrun. unfold retrieve_information. rewrite Hempty.
      split_trace; decided; try done; intros r [= <-]; run_traced; try done.
      all: match goal with
           | H : truthy (PDict ∅) = true |- _ => by vm_compute in H
           end.
  - split; [split_trace; decided; by try done|].
    revert Hweb.
    split_trace; decided; try done; intros _ r [= <-]; run_traced;
      repeat split; eauto.
Qed.

(** C9, as the code has it: the backends run one after the other, in
    the order local knowledge base, direct answer, web search, domain
    integration, web fallback; each call returns before the next one
    starts, so that no two of them are ever under way together, and the
    buckets are handed back when every call made has returned. *)
Theorem retrieval_backends_run_in_sequence :
  let t := fst (retrieve_information w query understanding sel) in
  sequential t
  ∧ ¬ overlapping t
  ∧ sublist (call_order t) [LocalKB; DirectAnswer; WebSearch; DomainAPI; WebSearch]
  ∧ (∀ r, snd (retrieve_information w query understanding sel) = Ok r → complete t).
Proof.
  cbv zeta.
  destruct (retrieve_information_well_traced w query understanding sel)
    as [Hseq Hcomplete].
  split; [done|]. split; [by apply sequential_not_overlapping|].
  split; [|done].
  clear Hseq Hcomplete.
  split_trace; vm_compute;
    repeat first [apply sublist_nil | apply sublist_skip | apply sublist_cons].
Qed.
End Coordinator.

(** ** Reranking *)

Section Reranking.

Lemma larger_ge_l a b : (a <= larger a b)%Q.
Proof. unfold larger. destruct (Qlt_le_dec a b); [by apply Qlt_le_weak|apply Qle_refl]. Qed.

Lemma larger_ge_r a b : (b <= larger a b)%Q.
Proof. unfold larger. destruct (Qlt_le_dec a b); [apply Qle_refl|done]. Qed.

Lemma fold_larger_ge l a :
  (a <= fold_left larger l a)%Q ∧ ∀ s, s ∈ l → (s <= fold_left larger l a)%Q.
Proof.
  revert a. induction l as [|b l IH]; intros a; cbn.
  - split; [apply Qle_refl|]. by intros s ?%elem_of_nil.
  - destruct (IH (larger a b)) as [Hge Hall]. split.
    + eapply Qle_trans; [apply larger_ge_l|done].
    + intros s [->|Hs]%elem_of_cons; [|by apply Hall].
      eapply Qle_trans; [apply larger_ge_r|done].
Qed.

(** [max(scores)] is at least every score. *)
Lemma maximum_ge scores m s :
  maximum scores = Some m → s ∈ scores → (s <= m)%Q.
Proof.
  destruct scores as [|a l]; [done|]. intros [= <-] [->|Hs]%elem_of_cons.
  - apply (proj1 (fold_larger_ge l a)).
  - by apply (proj2 (fold_larger_ge l a)).
Qed.




Lemma blend_length results scores :
  length (blend results scores) = length results.
Proof.
  revert scores. induction results as [|y results IH]; intros scores; [done|].
  destruct scores as [|c scores]; [done|]. cbn [blend].
  destruct (as_number _); [|done]. cbn. by rewrite IH.
Qed.

(** Sorting *)

Lemma insert_desc_perm k x sorted : insert_desc k x sorted ≡ₚ (k, x) :: sorted.
Proof.
  induction sorted as [|[k' y] rest IH]; cbn; [done|].
  destruct (Qlt_le_dec k k'); [|done].
  rewrite IH. apply perm_swap.
Qed.

Lemma sort_desc_perm keyed : sort_desc keyed ≡ₚ keyed.*2.
Proof.
  unfold sort_desc. induction keyed as [|[k x] keyed IH]; cbn; [done|].
  rewrite insert_desc_perm. cbn. by rewrite IH.
Qed.

Lemma keyed_results results keyed :
  mapM (λ x, k ← sort_key x; Some (k, x)) results = Some keyed →
  keyed.*2 = results.
Proof.
  revert keyed. induction results as [|x results IH]; intros keyed; cbn.
  - by intros [= <-].
  - destruct (sort_key x) as [k|]; cbn; [|done].
    destruct (mapM _ results) as [keyed'|]; cbn; [|done].
    intros [= <-]. cbn. by rewrite (IH keyed').
Qed.

Lemma sort_by_score_perm results :
  (∀ x, x ∈ results → is_Some (sort_key x)) →
  ∃ ranked, sort_by_score results = Ok ranked ∧ ranked ≡ₚ results.
Proof.
  intros Hkeys. unfold sort_by_score.
  destruct results as [|x [|y results]]; [by eexists..|].
  destruct (mapM _ (x :: y :: results)) as [keyed|] eqn:Hm.
  - eexists. split; [done|]. rewrite sort_desc_perm.
    by rewrite (keyed_results _ _ Hm).
  - apply mapM_None_1 in Hm. apply Exists_exists in Hm as (z & Hz & Hnone).
    destruct (Hkeys z) as [k Hk]; [done|].
    by rewrite Hk in Hnone.
Qed.
End Reranking.

Section RerankResults.
Context (w : World) (results : RetrievalResult) (understanding : dict).

(** The score of a flattened result: its own, or the default of its
    bucket. *)
Lemma flatten_results_scores x :
  x ∈ flatten_results results →
  (∃ kb_result, kb_result ∈ local_kb_results results
     ∧ x !! "source" = Some (PStr RESULT_SOURCE_LOCAL_KB)
     ∧ x !! "score" = Some (get_or kb_result "score" (PFloat 0.5)))
  ∨ (∃ web_result, web_result ∈ web_results results
     ∧ x !! "source" = Some (PStr RESULT_SOURCE_WEB)
     ∧ x !! "score" = Some (get_or web_result "score" (PFloat 0.7)))
  ∨ (x !! "source" = Some (PStr RESULT_SOURCE_DOMAIN_API)
     ∧ x !! "score" = Some (PFloat 0.9)
     ∧ x !! "content" = Some (PDict (domain_api_results results))).
Proof.
  unfold flatten_results. rewrite !elem_of_app, !list_elem_of_fmap.
  intros [(kb & -> & Hkb)|[(web & -> & Hweb)|Hdom]].
  - left. exists kb. by simplify_map_eq.
  - right. left. exists web. by simplify_map_eq.
  - right. right. destruct (truthy _); [|by apply elem_of_nil in Hdom].
    apply list_elem_of_singleton in Hdom as ->. by simplify_map_eq.
Qed.


(** A failure of the BM25 step is swallowed: the results keep the scores
    they came with. *)
Lemma rescore_on_bm25_failure q e :
  understanding !! "query" = Some (PStr q) →
  bm25_get_scores w (tokenized_corpus w (flatten_results results))
    (split_ws (lower q)) = Raise e →
  rescore w (flatten_results results) understanding = flatten_results results.
Proof.
  intros Hq Hraise. unfold rescore, apply_bm25_reranking.
  destruct (ML_AVAILABLE && bool_decide (1 < length (flatten_results results)));
    [|done].
  rewrite (get_or_Some _ _ _ _ Hq).
  change (negb ML_AVAILABLE) with false. cbv iota.
  unfold tokenized_corpus in Hraise. by rewrite Hraise.
Qed.

End RerankResults.



(** ** The coordinator on the sample worlds *)

Lemma domain_failure_web_fallback_witness :
  let run := retrieve_information search_only_world "What is the price of AAPL?"
               finance_understanding (source_selection finance_understanding) in
  (SOURCE_WEB_SEARCH ∉ sources (source_selection finance_understanding))
  ∧ ∃ r, snd run = Ok r
      ∧ has_key (domain_api_results r) "error" = true
      ∧ calls WebSearch (fst run) = 1
      ∧ calls WebSearch (after_call DomainAPI (fst run)) = 1
      ∧ web_results r
        = retrieve_from_web search_only_world "What is the price of AAPL?"
            (get finance_understanding "user_context").
Proof.
  cbv zeta.
  assert (Hweb : SOURCE_WEB_SEARCH ∉ sources (source_selection finance_understanding)).
  { apply (bool_decide_unpack _). vm_compute. exact I. }
  split; [done|].
  destruct (snd (retrieve_information search_only_world "What is the price of AAPL?"
                   finance_understanding (source_selection finance_understanding)))
    as [r|e] eqn:Hrun; [|by vm_compute in Hrun].
  assert (Herr : has_key (domain_api_results r) "error" = true).
  { vm_compute in Hrun. injection Hrun as <-. vm_compute. reflexivity. }
  exists r. split; [done|]. split; [done|].
  by apply (domain_failure_web_fallback search_only_world
              "What is the price of AAPL?" finance_understanding
              (source_selection finance_understanding) r Hrun).
Defined.

Lemma direct_answer_policy_witness :
  let run := retrieve_information talkative_world
               "What time is sunset in Hong Kong today?"
               static_understanding (source_selection static_understanding) in
  (SOURCE_WEB_SEARCH ∉ sources (source_selection static_understanding))
  ∧ calls DirectAnswer (fst run) = 1
  ∧ ∃ r, snd run = Ok r
      ∧ local_kb_results r
        = direct_answer_item (PStr "Sunset is at 17:45.")
          :: retrieve_from_local_kb talkative_world
               "What time is sunset in Hong Kong today?" DEFAULT_TOP_K_LOCAL_KB.
Proof.
  cbv zeta.
  assert (Hweb : SOURCE_WEB_SEARCH ∉ sources (source_selection static_understanding)).
  { apply (bool_decide_unpack _). vm_compute. exact I. }
  split; [done|].
  destruct (proj1 (direct_answer_policy talkative_world
                     "What time is sunset in Hong Kong today?"
                     static_understanding (source_selection static_understanding))
              Hweb) as [Hcalls Hbucket].
  split; [done|].
  destruct (snd (retrieve_information talkative_world
                   "What time is sunset in Hong Kong today?"
                   static_understanding (source_selection static_understanding)))
    as [r|e] eqn:Hrun; [|by vm_compute in Hrun].
  exists r. split; [done|].
  destruct (Hbucket r eq_refl) as [Hreply _].
  eapply (Hreply _ "Sunset is at 17:45."); [reflexivity|reflexivity|done].
Defined.

(** C9 as the specification words it fails on a run that uses all three
    backends: they are called in turn, and no call starts before the one
    before it has returned. *)
Lemma retrieval_backends_not_concurrent :
  let t := fst (retrieve_information search_only_world
                  "Will it rain in Hong Kong tomorrow?"
                  weather_understanding (source_selection weather_understanding)) in
  call_order t = [LocalKB; WebSearch; DomainAPI]
  ∧ ¬ overlapping t.
Proof.
  cbv zeta.
  assert (Ht : fst (retrieve_information search_only_world
                      "Will it rain in Hong Kong tomorrow?"
                      weather_understanding (source_selection weather_understanding))
               = [Call LocalKB; Return LocalKB; Call WebSearch; Return WebSearch;
                  Call DomainAPI; Return DomainAPI])
    by (vm_compute; reflexivity).
  rewrite Ht. split; [reflexivity|].
  apply sequential_not_overlapping. repeat constructor.
Qed.

(** C10: a selection without the local knowledge base makes
    [retrieve_information] read [kb_results] unassigned, which raises; the
    selections of [source_selection] all contain the local knowledge base,
    and on them an exception of the coordinator is one that the domain
    integration raised. *)
Theorem kb_results_unbound_unreachable :
  (∀ w query understanding sel,
     SOURCE_LOCAL_KB ∉ sources sel →
     ∃ t, retrieve_information w query understanding sel
          = (t, Raise (unbound_local "kb_results")))
  ∧ (∀ understanding, SOURCE_LOCAL_KB ∈ sources (source_selection understanding))
  ∧ (∀ w query understanding selected_from e,
       snd (retrieve_information w query understanding
              (source_selection selected_from)) = Raise e →
       ∃ handler, call_domain_api w query handler understanding = Raise e).
Proof.
  split; [|split].
  - intros w query understanding sel Hkb.
    split_trace; decided; try done; eauto.
  - apply source_selection_local_kb.
  - intros w query understanding selected_from e Hrun.
    destruct (retrieve_information_raise w query understanding
                (source_selection selected_from) e
                (source_selection_local_kb selected_from) Hrun)
      as (handler & _ & Hraise).
    eauto.
Qed.

Lemma kb_results_unbound_unreachable_witness :
  (SOURCE_LOCAL_KB ∉ sources domain_only_selection)
  ∧ ∃ t, retrieve_information talkative_world "What is the price of AAPL?"
           finance_understanding domain_only_selection
         = (t, Raise (unbound_local "kb_results")).
Proof.
  assert (Hkb : SOURCE_LOCAL_KB ∉ sources domain_only_selection).
  { apply (bool_decide_unpack _). vm_compute. exact I. }
  split; [done|].
  by apply (proj1 kb_results_unbound_unreachable).
Defined.

(** * Further properties

    What the code shows beyond the statements above, function by
    function. *)

(** ** Stripped text *)

Lemma rstrip_idem s : rstrip (rstrip s) = rstrip s.
Proof.
  induction s as [|c s IH]; [done|].
  cbn [rstrip]. destruct (rstrip s) as [|c' r] eqn:Hr.
  - destruct (is_space c) eqn:Hc; [done|]. cbn [rstrip]. by rewrite Hc.
  - change (rstrip (String c (String c' r)))
      with (match rstrip (String c' r) with
            | EmptyString => if is_space c then EmptyString else String c EmptyString
            | String c0 r0 => String c (String c0 r0)
            end).
    by rewrite IH.
Qed.

Lemma rstrip_head c s :
  is_space c = false → ∃ r, rstrip (String c s) = String c r.
Proof.
  intros Hc. cbn [rstrip]. destruct (rstrip s); rewrite ?Hc; eauto.
Qed.

Lemma lstrip_head s :
  lstrip s = EmptyString ∨ ∃ c r, lstrip s = String c r ∧ is_space c = false.
Proof.
  induction s as [|c s IH]; [by left|].
  cbn [lstrip]. destruct (is_space c) eqn:Hc; [done|]. right. eauto.
Qed.

Lemma lstrip_id c r : is_space c = false → lstrip (String c r) = String c r.
Proof. intros Hc. cbn [lstrip]. by rewrite Hc. Qed.

Lemma strip_idem s : strip (strip s) = strip s.
Proof.
  unfold strip.
  destruct (lstrip_head s) as [->|(c & r & -> & Hc)]; [done|].
  destruct (rstrip_head c r Hc) as [r' Hr]. rewrite Hr.
  rewrite (lstrip_id c r' Hc), <- Hr. apply rstrip_idem.
Qed.

Lemma or_empty_strip_stripped v c : or_empty_strip v = Some c → strip c = c.
Proof.
  unfold or_empty_strip. destruct (truthy v); [|by intros [= <-]].
  destruct v; try done. intros [= <-]. apply strip_idem.
Qed.

Lemma extract_content_stripped data : strip (extract_content data) = extract_content data.
Proof.
  unfold extract_content.
  destruct (extract_content_try data) as [c|] eqn:Htry; [|done]. cbn [default from_option id].
  unfold extract_content_try in Htry.
  destruct data as [| | | | | |d]; try done.
  destruct (truthy _); [|by injection Htry as <-].
  destruct (subscript0 _) as [c0|]; [|done]. cbn [mbind option_bind] in Htry.
  destruct (if truthy _ then _ else _) as [| | | | | |md]; try done.
  destruct (or_empty_strip (get md "content")) as [content|] eqn:Hcontent; [|done].
  cbn [mbind option_bind] in Htry.
  destruct (String.eqb content "").
  - by apply or_empty_strip_stripped in Htry.
  - injection Htry as <-. by apply or_empty_strip_stripped in Hcontent.
Qed.

Lemma chat_content_stripped (w : World) (req : chat_request) (r : dict) (c : string) :
  chat w req = Ok r → r !! "content" = Some (PStr c) → strip c = c.
Proof.
  unfold chat. destruct (http_post w req) as [msg|status body].
  - intros [= <-]. by rewrite lookup_singleton_ne.
  - destruct (is_error_status status).
    + intros [= <-]. by rewrite lookup_singleton_ne.
    + destruct body as [data|e]; [|done]. unfold mbind, outcome_bind.
      pose proof (extract_content_stripped data) as Hstrip.
      destruct (String.eqb _ ""); intros [= <-]; rewrite lookup_insert_eq;
        intros [= <-]; [done|done].
Qed.

(** ** The replies of the language-model client *)



(** ** The refined search query *)

Section Refine.
Context (w : World) (original_query : string) (user_context : py).

Let req := ChatRequest (REFINE_SYSTEM_PROMPT w)
             (refine_user_prompt w original_query user_context) 50 0.3.

(** X2: the refined query is the user's own query or the non-empty text
    the model answered with; it is the user's own query when the request
    raises or comes back with an error marker, and it is never empty for
    a query that is not. *)
Theorem refine_search_query_fallback :
  let refined := _refine_search_query w original_query user_context in
  (refined = original_query
   ∨ ∃ reply c, chat w req = Ok reply
        ∧ reply !! "content" = Some (PStr c) ∧ c ≠ "" ∧ refined = c)
  ∧ (∀ e, chat w req = Raise e → refined = original_query)
  ∧ (∀ reply, chat w req = Ok reply → is_Some (reply !! "error") →
       refined = original_query)
  ∧ (original_query ≠ "" → refined ≠ "").
Proof.
  cbv zeta. unfold _refine_search_query. fold req.
  destruct (chat w req) as [reply|e] eqn:Hchat.
  - destruct (chat_reply_cases w req reply Hchat) as [[e ->]|(c & Herr & Hc)].
    + split; [by left|]. split; [done|]. split; [done|]. done.
    + assert (Hkey : has_key reply "content" = true) by (apply has_key_true; eauto).
      rewrite Hkey. unfold get, get_or. rewrite Hc. cbn [default from_option id andb truthy].
      destruct (String.eqb_spec c "") as [->|Hne]; cbn [negb].
      * split; [by left|]. split; [done|]. split; [done|]. done.
      * rewrite (chat_content_stripped w req reply c Hchat Hc). split; [right; by exists reply, c|].
        split; [done|]. split; [|done].
        intros reply' [= <-] [x Hx]. congruence.
  - split; [by left|]. split; [done|]. split; [done|]. done.
Qed.
End Refine.

Lemma refine_search_query_fallback_witness :
  _refine_search_query offline_world "what is the weather like in Hong Kong" PNone
  = "what is the weather like in Hong Kong".
Proof.
  apply (proj1 (proj2 (proj2 (refine_search_query_fallback offline_world
                  "what is the weather like in Hong Kong" PNone)))
           {[ "error" := PStr "connection refused" ]}).
  - reflexivity.
  - by eexists.
Defined.

(** ** The shape of an understanding *)

(** What a reply that passes validation turns into. *)
Lemma validate_reply_accepts (result r : dict) :
  validate_reply (PDict result) = Ok (Some r) →
  in_strs (get result "intent") VALID_INTENTS = true
  ∧ in_strs (get result "domain") VALID_DOMAINS = true
  ∧ r !! "intent" = result !! "intent"
  ∧ r !! "domain" = result !! "domain"
  ∧ is_Some (result !! "intent")
  ∧ is_Some (result !! "domain")
  ∧ r !! "needs_web"
    = Some (match result !! "needs_web" with
            | Some v => v
            | None => PBool (in_strs (get result "domain")
                               [DOMAIN_WEATHER; DOMAIN_TRANSPORTATION; DOMAIN_FINANCE])
            end).
Proof.
  unfold validate_reply.
  destruct (has_key result "intent") eqn:Hi; [|done].
  destruct (has_key result "domain") eqn:Hd; [|done].
  cbn [negb orb].
  destruct (in_strs (get result "intent") VALID_INTENTS) eqn:Hvi; [|done].
  destruct (in_strs (get result "domain") VALID_DOMAINS) eqn:Hvd; [|done].
  cbn [negb]. intros [= <-].
  apply has_key_true in Hi, Hd.
  split; [done|]. split; [done|].
  destruct (has_key result "needs_web") eqn:Hn.
  - apply has_key_true in Hn as [v Hv]. rewrite Hv.
    destruct (has_key result "entities");
      rewrite ?lookup_insert_ne by done; by rewrite ?lookup_insert_ne by done.
  - apply has_key_false in Hn. rewrite Hn.
    destruct (has_key _ "entities");
      rewrite ?lookup_insert_ne by done; rewrite ?lookup_insert_eq;
      by rewrite ?lookup_insert_ne by done.
Qed.

Section UnderstandingShape.
Context (w : World) (query : string).


(** X5: for a reply that passes validation, needs_web is the value the
    model supplied, whatever it is; where the model supplied none it is
    true exactly for the weather, transportation and finance domains. *)
Theorem needs_web_default content result :
  model_reply_text w query (get_user_context w) = Ok (Some content) →
  json_loads w content = Some (PDict result) →
  in_strs (get result "intent") VALID_INTENTS = true →
  in_strs (get result "domain") VALID_DOMAINS = true →
  query_understanding w query !! "needs_web"
  = Some (match result !! "needs_web" with
          | Some v => v
          | None => PBool (in_strs (get result "domain")
                             [DOMAIN_WEATHER; DOMAIN_TRANSPORTATION; DOMAIN_FINANCE])
          end).
Proof.
  intros Htext Hload Hvi Hvd.
  assert (Hi : has_key result "intent" = true).
  { destruct (has_key result "intent") eqn:Hk; [done|].
    apply has_key_false in Hk. unfold get, get_or in Hvi. by rewrite Hk in Hvi. }
  assert (Hd : has_key result "domain" = true).
  { destruct (has_key result "domain") eqn:Hk; [done|].
    apply has_key_false in Hk. unfold get, get_or in Hvd. by rewrite Hk in Hvd. }
  destruct (validate_reply (PDict result)) as [[r|]|e] eqn:Hval.
  2,3: unfold validate_reply in Hval; rewrite Hi, Hd, Hvi, Hvd in Hval; done.
  pose proof (validate_reply_accepts result r Hval) as (_ & _ & _ & _ & _ & _ & Hn).
  unfold query_understanding.
  rewrite (classify_with_llm_on_text w query content Htext), Hload, Hval.
  assert (Hr : truthy (PDict r) = true).
  { unfold truthy. apply negb_true_iff, bool_decide_eq_false. intros ->.
    by rewrite lookup_empty in Hn. }
  rewrite Hr. rewrite !lookup_insert_ne, lookup_insert_eq by done.
  by rewrite (get_or_Some _ _ _ _ Hn).
Qed.
End UnderstandingShape.

Lemma get_user_context_cases (w : World) :
  get_user_context w = DEFAULT_USER_CONTEXT w
  ∨ ∃ data, ip_api_get w = HttpResponse 200 (Ok (PDict data))
            ∧ eq_str (get data "status") "success" = true
            ∧ get_user_context w = located_context w data.
Proof.
  unfold get_user_context.
  repeat case_match; simplify_eq; eauto.
Qed.

(** X3: the user context always has the same six keys and the current
    time; without a successful geolocation it is the Hong Kong default. *)
Theorem get_user_context_shape (w : World) :
  dom (get_user_context w) = USER_CONTEXT_KEYS
  ∧ get_user_context w !! "current_time" = Some (PStr (now w))
  ∧ ((∀ data, ip_api_get w = HttpResponse 200 (Ok (PDict data)) →
              eq_str (get data "status") "success" = false) →
     get_user_context w = DEFAULT_USER_CONTEXT w).
Proof.
  assert (Hdom : dom (DEFAULT_USER_CONTEXT w) = USER_CONTEXT_KEYS).
  { unfold DEFAULT_USER_CONTEXT. rewrite !dom_insert_L, dom_singleton_L.
    unfold USER_CONTEXT_KEYS. set_solver. }
  destruct (get_user_context_cases w) as [->|(data & Hip & Hs & ->)].
  - by split; [|split].
  - split; [|split].
    + unfold located_context. rewrite !dom_insert_L, Hdom.
      unfold USER_CONTEXT_KEYS. set_solver.
    + unfold located_context. by rewrite !lookup_insert_ne by done.
    + intros H. specialize (H data Hip). congruence.
Qed.

Lemma get_user_context_shape_witness :
  get_user_context offline_world = DEFAULT_USER_CONTEXT offline_world.
Proof.
  apply (proj2 (proj2 (get_user_context_shape offline_world))).
  intros data Hip. discriminate Hip.
Defined.

Lemma needs_web_default_witness :
  query_understanding currency_world "Convert 100 USD to HKD" !! "needs_web"
  = Some (PBool true).
Proof.
  assert (Htext : model_reply_text currency_world "Convert 100 USD to HKD"
                    (get_user_context currency_world) = Ok (Some currency_reply_text))
    by (vm_compute; reflexivity).
  assert (Hload : json_loads currency_world currency_reply_text = Some currency_reply)
    by (vm_compute; reflexivity).
  exact (needs_web_default currency_world "Convert 100 USD to HKD" currency_reply_text
           _ Htext Hload eq_refl eq_refl).
Defined.

(** ** The selected sources *)

Lemma eq_str_true (v : py) (s : string) : eq_str v s = true ↔ v = PStr s.
Proof.
  destruct v; cbn; try (split; intros; discriminate).
  rewrite String.eqb_eq. split; [by intros ->|by intros [= ->]].
Qed.

Lemma in_strs_true (v : py) (l : list string) :
  in_strs v l = true ↔ ∃ s, s ∈ l ∧ v = PStr s.
Proof.
  unfold in_strs. rewrite existsb_exists. split.
  - intros (s & Hs & Heq). exists s. split; [by apply list_elem_of_In|by apply eq_str_true].
  - intros (s & Hs & ->). exists s. split; [by apply list_elem_of_In|by apply eq_str_true].
Qed.

Lemma eq_str_false (v : py) (s : string) : eq_str v s = false ↔ v ≠ PStr s.
Proof. rewrite <- eq_str_true. by destruct (eq_str v s). Qed.

(** A domain is one of the four known ones, or none of them. *)
Lemma domain_cases (d : py) :
  d = PStr DOMAIN_FINANCE ∨ d = PStr DOMAIN_WEATHER
  ∨ d = PStr DOMAIN_TRANSPORTATION ∨ d = PStr DOMAIN_GENERAL
  ∨ (eq_str d DOMAIN_FINANCE = false ∧ eq_str d DOMAIN_WEATHER = false
     ∧ eq_str d DOMAIN_TRANSPORTATION = false ∧ eq_str d DOMAIN_GENERAL = false).
Proof.
  destruct (eq_str d DOMAIN_FINANCE) eqn:Hf; [apply eq_str_true in Hf; auto|].
  destruct (eq_str d DOMAIN_WEATHER) eqn:Hw; [apply eq_str_true in Hw; auto|].
  destruct (eq_str d DOMAIN_TRANSPORTATION) eqn:Ht; [apply eq_str_true in Ht; auto|].
  destruct (eq_str d DOMAIN_GENERAL) eqn:Hg; [apply eq_str_true in Hg; auto 6|].
  auto 10.
Qed.

Ltac solve_sublist :=
  repeat first [apply sublist_nil | apply sublist_skip | apply sublist_cons].

Section Selection.
Context (understanding : dict).

Let domain := get_or understanding "domain" (PStr DOMAIN_GENERAL).
Let needs_web := get_or understanding "needs_web" (PBool false).
Let intent := get_or understanding "intent" (PStr INTENT_CONVERSATIONAL).

Lemma source_selection_shape :
  source_selection understanding
  = selection_of domain (truthy needs_web)
      (eq_str intent INTENT_CONVERSATIONAL
       || (eq_str domain DOMAIN_GENERAL && negb (truthy needs_web))).
Proof.
  unfold source_selection, selection_of. fold domain needs_web intent.
  unfold in_strs, DOMAIN_HANDLERS. cbn [existsb].
  destruct (domain_cases domain) as [Hd|[Hd|[Hd|[Hd|(Hf & Hw & Ht & Hg)]]]].
  1-4: rewrite Hd;
       change (eq_str (PStr DOMAIN_FINANCE) DOMAIN_FINANCE) with true;
       change (eq_str (PStr DOMAIN_FINANCE) DOMAIN_GENERAL) with false;
       change (eq_str (PStr DOMAIN_WEATHER) DOMAIN_FINANCE) with false;
       change (eq_str (PStr DOMAIN_WEATHER) DOMAIN_WEATHER) with true;
       change (eq_str (PStr DOMAIN_WEATHER) DOMAIN_GENERAL) with false;
       change (eq_str (PStr DOMAIN_TRANSPORTATION) DOMAIN_FINANCE) with false;
       change (eq_str (PStr DOMAIN_TRANSPORTATION) DOMAIN_WEATHER) with false;
       change (eq_str (PStr DOMAIN_TRANSPORTATION) DOMAIN_TRANSPORTATION) with true;
       change (eq_str (PStr DOMAIN_TRANSPORTATION) DOMAIN_GENERAL) with false;
       change (eq_str (PStr DOMAIN_GENERAL) DOMAIN_FINANCE) with false;
       change (eq_str (PStr DOMAIN_GENERAL) DOMAIN_WEATHER) with false;
       change (eq_str (PStr DOMAIN_GENERAL) DOMAIN_TRANSPORTATION) with false;
       change (eq_str (PStr DOMAIN_GENERAL) DOMAIN_GENERAL) with true.
  5: rewrite Hf, Hw, Ht, Hg.
  all: destruct (truthy needs_web); destruct (eq_str intent INTENT_CONVERSATIONAL);
         vm_compute; reflexivity.
Qed.

(** X6: the domain integration is selected exactly for the three
    domains that have one, and the handler named is then the domain
    itself; web search is selected exactly when needs_web is truthy; the
    sources always come in the order domain API, web search, local
    knowledge base. *)
Theorem source_selection_sources :
  let sel := source_selection understanding in
  (SOURCE_DOMAIN_API ∈ sources sel ↔ in_strs domain DOMAIN_HANDLERS = true)
  ∧ (SOURCE_WEB_SEARCH ∈ sources sel ↔ truthy needs_web = true)
  ∧ (∀ h, domain_handler sel = Some h ↔ h ∈ DOMAIN_HANDLERS ∧ domain = PStr h)
  ∧ sublist (sources sel) [SOURCE_DOMAIN_API; SOURCE_WEB_SEARCH; SOURCE_LOCAL_KB].
Proof.
  cbv zeta. rewrite source_selection_shape. unfold selection_of.
  cbn [sources domain_handler].
  destruct (in_strs domain DOMAIN_HANDLERS) eqn:Hh; destruct (truthy needs_web).
  all: split; [split; [done || (intros H; exfalso; set_solver)|set_solver]|].
  all: split; [split; [done || (intros H; exfalso; set_solver)|set_solver]|].
  all: split; [|cbn [app]; solve_sublist].
  1-2: apply in_strs_true in Hh as (h' & Hh' & ->);
       intros h; split; [by intros [= <-]|by intros [_ [= ->]]].
  all: intros h; split; [done|intros [Hin Hd]];
       assert (in_strs domain DOMAIN_HANDLERS = true) by (apply in_strs_true; eauto);
       congruence.
Qed.

(** X7: the local knowledge base heads the priority list exactly for a
    conversational intent, or when neither the domain integration nor the
    web search is selected; it ends the list exactly for any other
    intent, or when it is the only source; the domain integration comes
    before the web search whenever both are selected. *)
Theorem source_selection_priority_order :
  let sel := source_selection understanding in
  (head (priority sel) = Some SOURCE_LOCAL_KB
   ↔ eq_str intent INTENT_CONVERSATIONAL = true
     ∨ (in_strs domain DOMAIN_HANDLERS = false ∧ truthy needs_web = false))
  ∧ (last (priority sel) = Some SOURCE_LOCAL_KB
     ↔ eq_str intent INTENT_CONVERSATIONAL = false
       ∨ (in_strs domain DOMAIN_HANDLERS = false ∧ truthy needs_web = false))
  ∧ (SOURCE_DOMAIN_API ∈ sources sel → SOURCE_WEB_SEARCH ∈ sources sel →
     sublist [SOURCE_DOMAIN_API; SOURCE_WEB_SEARCH] (priority sel)).
Proof.
  cbv zeta. rewrite source_selection_shape. unfold selection_of.
  cbn [sources priority].
  unfold in_strs, DOMAIN_HANDLERS. cbn [existsb].
  destruct (domain_cases domain) as [Hd|[Hd|[Hd|[Hd|(Hf & Hw & Ht & Hg)]]]].
  1-4: rewrite Hd;
       change (eq_str (PStr DOMAIN_FINANCE) DOMAIN_FINANCE) with true;
       change (eq_str (PStr DOMAIN_FINANCE) DOMAIN_GENERAL) with false;
       change (eq_str (PStr DOMAIN_WEATHER) DOMAIN_FINANCE) with false;
       change (eq_str (PStr DOMAIN_WEATHER) DOMAIN_WEATHER) with true;
       change (eq_str (PStr DOMAIN_WEATHER) DOMAIN_GENERAL) with false;
       change (eq_str (PStr DOMAIN_TRANSPORTATION) DOMAIN_FINANCE) with false;
       change (eq_str (PStr DOMAIN_TRANSPORTATION) DOMAIN_WEATHER) with false;
       change (eq_str (PStr DOMAIN_TRANSPORTATION) DOMAIN_TRANSPORTATION) with true;
       change (eq_str (PStr DOMAIN_TRANSPORTATION) DOMAIN_GENERAL) with false;
       change (eq_str (PStr DOMAIN_GENERAL) DOMAIN_FINANCE) with false;
       change (eq_str (PStr DOMAIN_GENERAL) DOMAIN_WEATHER) with false;
       change (eq_str (PStr DOMAIN_GENERAL) DOMAIN_TRANSPORTATION) with false;
       change (eq_str (PStr DOMAIN_GENERAL) DOMAIN_GENERAL) with true.
  5: rewrite Hf, Hw, Ht, Hg.
  all: destruct (truthy needs_web); destruct (eq_str intent INTENT_CONVERSATIONAL);
       cbn [orb andb negb app head last].
  all: repeat split; try (intros; solve_sublist; fail); try tauto;
       try (intros [?|[? ?]]; done); try (intros; exfalso; set_solver).
Qed.
End Selection.

Section SelectedBackends.
Context (w : World) (query : string) (understanding : dict).

Let domain := get_or understanding "domain" (PStr DOMAIN_GENERAL).
Let needs_web := get_or understanding "needs_web" (PBool false).
Let entities := get_or understanding "entities" (PDict DEFAULT_ENTITIES).

(** The handlers [call_domain_api] knows. *)
Lemma call_domain_api_handled h :
  h ∈ DOMAIN_HANDLERS →
  call_domain_api w query h understanding
  = (if String.eqb h DOMAIN_FINANCE then get_finance_data w entities
     else if String.eqb h DOMAIN_WEATHER then get_weather_data w entities
     else get_transportation_data w query entities).
Proof.
  unfold DOMAIN_HANDLERS. rewrite !elem_of_cons, elem_of_nil.
  intros [->|[->|[->|[]]]]; reflexivity.
Qed.

(** X8: on a selection made by [source_selection] the coordinator
    always queries the local knowledge base once, asks for a direct
    answer exactly when needs_web is not truthy, calls the domain
    integration exactly for the three domains that have one, and searches
    the web once when needs_web is truthy; the handler it passes on is
    one [call_domain_api] knows, so that the "No API handler" branch is
    never taken. *)
Theorem selected_backends_called :
  let sel := source_selection understanding in
  let t := fst (retrieve_information w query understanding sel) in
  calls LocalKB t = 1
  ∧ calls DirectAnswer t = (if truthy needs_web then 0 else 1)
  ∧ calls DomainAPI t = (if in_strs domain DOMAIN_HANDLERS then 1 else 0)
  ∧ (truthy needs_web = true → calls WebSearch t = 1)
  ∧ (∀ h, domain_handler sel = Some h →
       call_domain_api w query h understanding
       = (if String.eqb h DOMAIN_FINANCE then get_finance_data w entities
          else if String.eqb h DOMAIN_WEATHER then get_weather_data w entities
          else get_transportation_data w query entities)).
Proof.
  cbv zeta. rewrite source_selection_shape. fold domain needs_web.
  set (local_first := orb _ _). clearbody local_first.
  unfold selection_of.
  destruct (in_strs domain DOMAIN_HANDLERS) eqn:Hh.
  - apply in_strs_true in Hh as (h & Hh & Hd). rewrite Hd.
    assert (Ht : truthy (PStr h) = true).
    { revert Hh. unfold DOMAIN_HANDLERS. rewrite !elem_of_cons, elem_of_nil.
      by intros [->|[->|[->|[]]]]. }
    destruct (truthy needs_web) eqn:Hweb; unfold retrieve_information;
      cbn [sources domain_handler app];
      change (bool_decide (SOURCE_LOCAL_KB ∈ _)) with true;
      change (bool_decide (SOURCE_WEB_SEARCH ∈ [SOURCE_DOMAIN_API; SOURCE_WEB_SEARCH; SOURCE_LOCAL_KB])) with true;
      change (bool_decide (SOURCE_WEB_SEARCH ∈ [SOURCE_DOMAIN_API; SOURCE_LOCAL_KB])) with false;
      change (bool_decide (SOURCE_DOMAIN_API ∈ _)) with true;
      rewrite Ht; split_trace.
    all: repeat split; try done.
    all: intros h' [= <-]; by apply call_domain_api_handled.
  - destruct (truthy needs_web) eqn:Hweb; unfold retrieve_information;
      cbn [sources domain_handler app];
      change (bool_decide (SOURCE_LOCAL_KB ∈ _)) with true;
      change (bool_decide (SOURCE_WEB_SEARCH ∈ [SOURCE_WEB_SEARCH; SOURCE_LOCAL_KB])) with true;
      change (bool_decide (SOURCE_WEB_SEARCH ∈ [SOURCE_LOCAL_KB])) with false;
      split_trace.
    all: repeat split; try done.
Qed.
End SelectedBackends.

(** ** The knowledge base and the web search *)

Lemma StronglySorted_lookup {A} (R : relation A) (l : list A) (i j : nat) x y :
  StronglySorted R l → (i < j)%nat → l !! i = Some x → l !! j = Some y → R x y.
Proof.
  intros Hsorted. revert i j. induction Hsorted as [|a l Hsorted IH Hall]; intros i j Hij.
  - by rewrite lookup_nil.
  - destruct j as [|j]; [lia|]. destruct i as [|i]; cbn.
    + intros [= <-] Hy. rewrite Forall_forall in Hall.
      apply Hall. by eapply list_elem_of_lookup_2.
    + apply IH. lia.
Qed.

Section LocalKB.
Context (r : retriever).

(** The results of the formatting loop, hit by hit: a hit below the
    threshold is dropped, every other one keeps its place in the hit list
    as its rank. *)
Lemma kb_format_items i hits results :
  kb_format r i hits = Ok results →
  ∃ kept : list (nat * (Q * Z) * py),
    results = (λ '(k, (s, _), content), kb_item content s (k + 1)) <$> kept
    ∧ Forall (λ '(k, (s, idx), content),
                hits !! ((k - i)%nat : nat) = Some (s, idx) ∧ (i ≤ k)%nat
                ∧ (MIN_SIMILARITY_THRESHOLD <= s)%Q
                ∧ ∃ d, kb_document r idx = Ok (PDict d) ∧ d !! "content" = Some content)
             kept
    ∧ StronglySorted lt (kept.*1.*1).
Proof.
  revert i results. induction hits as [|[s idx] hits IH]; intros i results.
  - intros [= <-]. exists []. repeat split; constructor.
  - cbn [kb_format]. destruct (Qlt_le_dec s MIN_SIMILARITY_THRESHOLD) as [Hlt|Hge].
    + intros Hrest. destruct (IH _ _ Hrest) as (kept & -> & Hall & Hsorted).
      exists kept. repeat split; [|done].
      eapply Forall_impl; [exact Hall|].
      intros [[k [s' idx']] content] (Hk & Hi & Hs & Hd).
      repeat split; [|lia|done..].
      replace (k - i) with (S (k - S i)) by lia. done.
    + unfold mbind, outcome_bind.
      destruct (kb_document r idx) as [[| | | | | |d]|e] eqn:Hdoc; try done.
      destruct (d !! "content") as [content|] eqn:Hcontent; [|done].
      destruct (kb_format r (S i) hits) as [rest|e] eqn:Hrest; [|done].
      intros [= <-]. destruct (IH _ _ Hrest) as (kept & -> & Hall & Hsorted).
      exists ((i, (s, idx), content) :: kept). repeat split.
      * constructor.
        { replace (i - i) with 0 by lia. repeat split; eauto. }
        eapply Forall_impl; [exact Hall|].
        intros [[k [s' idx']] content'] (Hk & Hi & Hs & Hd).
        repeat split; [|lia|done..].
        replace (k - i) with (S (k - S i)) by lia. done.
      * cbn [fmap list_fmap fst]. constructor; [done|].
        rewrite Forall_fmap, Forall_fmap.
        eapply Forall_impl; [exact Hall|].
        intros [[k [s' idx']] content'] (Hk & Hi & Hs & Hd). cbn. lia.
Qed.
End LocalKB.

Lemma kb_format_length r i hits results :
  kb_format r i hits = Ok results →
  length results = length (filter (λ hit, above_threshold hit = true) hits).
Proof.
  revert i results. induction hits as [|[s idx] hits IH]; intros i results.
  - by intros [= <-].
  - cbn [kb_format]. rewrite filter_cons.
    pose proof (eq_refl : above_threshold (s, idx)
                          = if Qlt_le_dec s MIN_SIMILARITY_THRESHOLD
                            then false else true) as Habove.
    destruct (Qlt_le_dec s MIN_SIMILARITY_THRESHOLD) as [Hlt|Hge].
    + rewrite decide_False by congruence. apply IH.
    + rewrite decide_True by done. unfold mbind, outcome_bind.
      destruct (kb_document r idx) as [[| | | | | |d]|e]; try done.
      destruct (d !! "content"); [|done].
      destruct (kb_format r (S i) hits) as [rest|e] eqn:Hrest; [|done].
      intros [= <-]. cbn [length]. f_equal. by eapply IH.
Qed.

Section LocalKBResults.
Context (w : World) (query : string) (top_k : nat).
Context (r : retriever) (hits : list (Q * Z)).

(** X9: with an index loaded and a search that returns, the knowledge
    base hands back all the hits at or above the similarity threshold 0.3
    or, when a document lookup fails, nothing; each result carries the
    content of the document found, the similarity as its score, the
    source local_kb and, as its rank, the position of the hit in the hit
    list counted from 1, so that ranks increase along the list. *)
Theorem retrieve_from_local_kb_results :
  load_local_retriever w = Some r →
  kb_search r query top_k = Ok hits →
  let results := retrieve_from_local_kb w query top_k in
  (results = []
   ∨ length results = length (filter (λ hit, above_threshold hit = true) hits))
  ∧ (∀ x, x ∈ results →
       ∃ content s idx (rank : nat) d,
         x = kb_item content s rank
         ∧ hits !! ((rank - 1)%nat : nat) = Some (s, idx)
         ∧ (1 ≤ rank)%nat
         ∧ (MIN_SIMILARITY_THRESHOLD <= s)%Q
         ∧ kb_document r idx = Ok (PDict d) ∧ d !! "content" = Some content)
  ∧ (∀ (i j : nat) x y, (i < j)%nat →
       results !! i = Some x → results !! j = Some y →
       ∃ rx ry, x !! "rank" = Some (PInt rx) ∧ y !! "rank" = Some (PInt ry)
                ∧ (rx < ry)%Z).
Proof.
  intros Hload Hsearch. cbv zeta. unfold retrieve_from_local_kb.
  rewrite Hload, Hsearch.
  change (Ok hits ≫= _) with (kb_format r 0 hits).
  destruct (kb_format r 0 hits) as [results|e] eqn:Hformat.
  2: { split; [by left|]. split; [by intros x Hx%elem_of_nil|].
       intros i j x y _ Hx. by rewrite lookup_nil in Hx. }
  split; [right; by eapply kb_format_length|].
  destruct (kb_format_items r 0 hits results Hformat) as (kept & -> & Hall & Hsorted).
  split.
  - intros x (((k & s & idx) & content) & -> & Hin)%list_elem_of_fmap.
    rewrite Forall_forall in Hall. specialize (Hall _ Hin).
    destruct Hall as (Hk & _ & Hs & d & Hd & Hc).
    exists content, s, idx, (k + 1)%nat, d. repeat split; try done; [|lia].
    by replace (k + 1 - 1)%nat with (k - 0)%nat by lia.
  - intros i j x y Hij Hx Hy.
    rewrite list_lookup_fmap in Hx, Hy.
    destruct (kept !! i) as [[[kx [sx ix]] cx]|] eqn:Hi; [|done].
    destruct (kept !! j) as [[[ky [sy iy]] cy]|] eqn:Hj; [|done].
    injection Hx as <-. injection Hy as <-.
    exists (Z.of_nat (kx + 1)), (Z.of_nat (ky + 1)).
    split; [done|]. split; [done|].
    assert (kx < ky)%nat; [|lia].
    eapply (StronglySorted_lookup lt (kept.*1.*1) i j); [done|done|..].
    + by rewrite !list_lookup_fmap, Hi.
    + by rewrite !list_lookup_fmap, Hj.
Qed.
End LocalKBResults.

Lemma retrieve_from_local_kb_results_witness :
  let hits := [((9 # 10)%Q, 0%Z); ((1 # 5)%Q, 1%Z); ((1 # 2)%Q, 2%Z)] in
  let results := retrieve_from_local_kb library_world "MTR fares" 5 in
  load_local_retriever library_world = Some library
  ∧ kb_search library "MTR fares" 5 = Ok hits
  ∧ length results = 2
  ∧ (∀ x, x ∈ results →
       ∃ content s idx (rank : nat) d,
         x = kb_item content s rank
         ∧ hits !! ((rank - 1)%nat : nat) = Some (s, idx)
         ∧ (1 ≤ rank)%nat
         ∧ (MIN_SIMILARITY_THRESHOLD <= s)%Q
         ∧ kb_document library idx = Ok (PDict d) ∧ d !! "content" = Some content).
Proof.
  cbv zeta. split; [reflexivity|]. split; [reflexivity|]. split; [by vm_compute|].
  apply (retrieve_from_local_kb_results library_world "MTR fares" 5 library
           [((9 # 10)%Q, 0%Z); ((1 # 5)%Q, 1%Z); ((1 # 2)%Q, 2%Z)]
           eq_refl eq_refl).
Defined.

Section Web.
Context (w : World) (query : string) (user_context : py).

Lemma mapM_serp_items refined_query items results :
  mapM (serp_item query refined_query) items = Some results →
  length results = length items
  ∧ ∀ x, x ∈ results →
      ∃ d, x = <[ "title" := get_or d "title" (PStr "") ]>
               (<[ "link" := get_or d "link" (PStr "") ]>
               (<[ "snippet" := get_or d "snippet" (PStr "") ]>
               (<[ "source" := PStr "serpapi" ]>
               (<[ "original_query" := PStr query ]>
               {[ "refined_query" := PStr refined_query ]})))).
Proof.
  intros Hm. split; [symmetry; by eapply length_mapM|].
  intros x Hx. apply mapM_Some_1 in Hm.
  apply list_elem_of_lookup in Hx as [i Hi].
  destruct (Forall2_lookup_r _ _ _ _ _ Hm Hi) as (item & _ & Hitem).
  destruct item; try done. injection Hitem as <-. eauto.
Qed.

Lemma serpapi_search_results max_results :
  let results := serpapi_search w query max_results user_context in
  (length results ≤ max_results)%nat
  ∧ ∀ x, x ∈ results →
      ∃ title link snippet,
        x !! "title" = Some title ∧ x !! "link" = Some link
        ∧ x !! "snippet" = Some snippet.
Proof.
  cbv zeta. unfold serpapi_search.
  assert (Hnil : (length (@nil dict) ≤ max_results)%nat
                 ∧ ∀ x : dict, x ∈ @nil dict →
                     ∃ title link snippet,
                       x !! "title" = Some title ∧ x !! "link" = Some link
                       ∧ x !! "snippet" = Some snippet).
  { split; [cbn; lia|by intros x Hx%elem_of_nil]. }
  repeat case_match; try exact Hnil. subst.
  match goal with |- context [mapM ?f ?l] => destruct (mapM f l) as [results|] eqn:Hm end;
    [|exact Hnil].
  destruct (mapM_serp_items _ _ _ Hm) as [Hlen Hshape]. cbn [from_option id]. split.
  - rewrite Hlen, length_take. lia.
  - intros x Hx. destruct (Hshape x Hx) as [item ->]. eexists _, _, _.
    repeat split; by simplify_map_eq.
Qed.

(** X10: the web search hands back at most five results, each with
    exactly the fields content, title, url, source and score, the source
    being web and the score 0.8; it hands back nothing without an API
    key, on a status other than 200 and on a network error. *)
Theorem retrieve_from_web_results :
  let results := retrieve_from_web w query user_context in
  (length results ≤ DEFAULT_MAX_WEB_RESULTS)%nat
  ∧ (∀ x, x ∈ results → ∃ content title url, x = web_item content title url)
  ∧ (SERPAPI_KEY w = None ∨ SERPAPI_KEY w = Some "" → results = [])
  ∧ (∀ status body,
       serpapi_get w (_refine_search_query w query user_context)
         DEFAULT_MAX_WEB_RESULTS = HttpResponse status body →
       status ≠ 200%Z → results = [])
  ∧ (∀ msg,
       serpapi_get w (_refine_search_query w query user_context)
         DEFAULT_MAX_WEB_RESULTS = RequestException msg → results = []).
Proof.
  cbv zeta. unfold retrieve_from_web.
  destruct (serpapi_search_results DEFAULT_MAX_WEB_RESULTS) as [Hlen Hshape].
  split; [by rewrite length_fmap|]. split.
  { intros x (y & -> & Hy)%list_elem_of_fmap.
    destruct (Hshape y Hy) as (title & link & snippet & Ht & Hl & Hs).
    exists snippet, title, link. unfold web_item.
    by rewrite (get_or_Some _ _ _ _ Ht), (get_or_Some _ _ _ _ Hl),
               (get_or_Some _ _ _ _ Hs). }
  unfold serpapi_search.
  split; [by intros [->| ->]|].
  split.
  - intros status body Hget Hstatus. rewrite Hget.
    destruct (SERPAPI_KEY w) as [[|c key]|]; try done.
    repeat case_match; try done; lia.
  - intros msg Hget. rewrite Hget. by destruct (SERPAPI_KEY w) as [[|c key]|].
Qed.
End Web.

(** ** The order of the reranked list *)


Section Sorting.











Lemma sort_by_score_Ok_perm results ranked :
  sort_by_score results = Ok ranked → ranked ≡ₚ results.
Proof.
  unfold sort_by_score.
  destruct results as [|a [|b results]]; [by intros [= <-]..|].
  destruct (mapM _ (a :: b :: results)) as [keyed|] eqn:Hm; [|done].
  intros [= <-]. by rewrite sort_desc_perm, (keyed_results _ _ Hm).
Qed.

End Sorting.

(** What blending leaves of a result: the result itself, or the result
    with its two scores written. *)
Lemma blend_lookup_inv results scores (i : nat) y :
  blend results scores !! i = Some y →
  ∃ x, results !! i = Some x ∧ (y = x ∨ ∃ o b, y = blended x o b).
Proof.
  revert scores i. induction results as [|x results IH]; intros scores i; [done|].
  destruct scores as [|c scores]; [eauto|]. cbn [blend].
  destruct (as_number _) as [o|]; [|eauto].
  destruct i as [|i]; cbn.
  - intros [= <-]. exists x. split; [done|]. right. by exists o, c.
  - apply IH.
Qed.

Lemma rescore_lookup_inv w all_results understanding (i : nat) y :
  rescore w all_results understanding !! i = Some y →
  ∃ x, all_results !! i = Some x ∧ (y = x ∨ ∃ o b, y = blended x o b).
Proof.
  unfold rescore, apply_bm25_reranking.
  repeat case_match; eauto using blend_lookup_inv.
Qed.

Lemma rescore_length w all_results understanding :
  length (rescore w all_results understanding) = length all_results.
Proof.
  unfold rescore, apply_bm25_reranking.
  repeat case_match; by rewrite ?blend_length.
Qed.

Lemma append_assoc (a b c : string) : (a +:+ b) +:+ c = a +:+ (b +:+ c).
Proof.
  induction a as [|x a IH]; [done|].
  change (String x ((a +:+ b) +:+ c) = String x (a +:+ (b +:+ c))). by f_equal.
Qed.

Lemma append_empty_r (a : string) : a +:+ "" = a.
Proof.
  induction a as [|x a IH]; [done|].
  change (String x (a +:+ "") = String x a). by f_equal.
Qed.

(** A loop that only appends to its accumulator. *)
Lemma fold_left_appends {A} (f : string → A → string) (l : list A) (acc : string) :
  (∀ acc x, ∃ r, f acc x = acc +:+ r) →
  ∃ rest, fold_left f l acc = acc +:+ rest.
Proof.
  intros Hf. revert acc. induction l as [|x l IH]; intros acc; cbn [fold_left].
  - exists "". by rewrite append_empty_r.
  - destruct (Hf acc x) as [r ->]. destruct (IH (acc +:+ r)) as [rest ->].
    exists (r +:+ rest). by rewrite append_assoc.
Qed.

(** With a payload the summary opens with it; only web results can
    follow. *)
Lemma build_context_summary_primary w (context : list dict) (payload : py) :
  context ≠ [] → truthy payload = true →
  ∃ supporting,
    _build_context_summary w context payload
    = RESPONSE_CONTEXT_HEADER +:+ RESPONSE_PRIMARY_SOURCE_HEADER
      +:+ json_dumps w payload +:+ nl +:+ supporting
    ∧ (_extract_web_results context DEFAULT_MAX_SUPPORTING_WEB = [] → supporting = "").
Proof.
  intros Hne Ht. unfold _build_context_summary.
  destruct context as [|c context]; [done|]. rewrite Ht.
  set (head := RESPONSE_CONTEXT_HEADER +:+ _).
  destruct (_extract_web_results (c :: context) DEFAULT_MAX_SUPPORTING_WEB)
    as [|x web] eqn:Hweb.
  - exists "". split; [|done]. unfold head. by rewrite ?append_assoc, ?append_empty_r.
  - match goal with |- context [fold_left ?f ?l ?acc] =>
      destruct (fold_left_appends f l acc) as [rest Hrest] end.
    { intros acc [i ctx]. destruct (get_or ctx "content" (PStr "")); try by
        (exists ""; rewrite append_empty_r).
      eexists. by rewrite ?append_assoc. }
    rewrite Hrest. exists (RESPONSE_SUPPORTING_WEB_HEADER +:+ rest).
    split; [|done]. unfold head. by rewrite ?append_assoc.
Qed.

Section RerankOrder.
Context (w : World) (results : RetrievalResult) (understanding : dict).


(** X12: the reranked list has as many entries as
    [_count_total_results] counts, plus one when the payload of the
    domain integration carries an error marker: the count leaves a failed
    payload out, the reranking keeps it. *)
Theorem count_total_results_reranked ranked :
  rerank_results w results understanding = Ok ranked →
  length ranked
  = (_count_total_results results
     + (if has_key (domain_api_results results) "error" then 1 else 0))%nat.
Proof.
  unfold rerank_results. intros Hsort.
  rewrite (sort_by_score_Ok_perm _ _ Hsort), rescore_length.
  unfold flatten_results, _count_total_results.
  rewrite !length_app, !length_fmap.
  destruct (has_key (domain_api_results results) "error") eqn:Herr.
  - assert (Ht : truthy (PDict (domain_api_results results)) = true).
    { unfold truthy. apply negb_true_iff, bool_decide_eq_false. intros Hempty.
      rewrite Hempty in Herr. by vm_compute in Herr. }
    rewrite Ht. cbn. lia.
  - destruct (truthy _); cbn; lia.
Qed.

(** After reranking, the payload of the domain integration is what
    [_extract_domain_api_result] finds. *)
Lemma extract_reranked_payload ranked :
  rerank_results w results understanding = Ok ranked →
  domain_api_results results ≠ ∅ →
  _extract_domain_api_result ranked = PDict (domain_api_results results).
Proof.
  unfold rerank_results. intros Hsort Hne.
  pose proof (sort_by_score_Ok_perm _ _ Hsort) as Hperm.
  assert (Hpayload : ∀ y, y ∈ ranked → is_domain_payload y = true →
            get y "content" = PDict (domain_api_results results)).
  { intros y Hy. rewrite Hperm in Hy.
    apply list_elem_of_lookup in Hy as [i Hi].
    apply rescore_lookup_inv in Hi as (x & Hx & Hy).
    apply list_elem_of_lookup_2, flatten_results_scores in Hx.
    assert (Hsrc : y !! "source" = x !! "source" ∧ y !! "content" = x !! "content").
    { destruct Hy as [->|(o & b & ->)]; [done|]. unfold blended.
      by rewrite !lookup_insert_ne by done. }
    destruct Hsrc as [Hsrc Hcontent].
    unfold is_domain_payload, get, get_or. rewrite Hsrc, Hcontent.
    destruct Hx as [(kb & _ & -> & _)|[(web & _ & -> & _)|(_ & _ & ->)]]; done. }
  assert (Hexists : ∃ y, y ∈ ranked ∧ is_domain_payload y = true).
  { assert (Hlast : ∃ x, x ∈ flatten_results results
                       ∧ x !! "source" = Some (PStr RESULT_SOURCE_DOMAIN_API)
                       ∧ x !! "content" = Some (PDict (domain_api_results results))).
    { eexists. split.
      - unfold flatten_results. rewrite !elem_of_app. right. right.
        assert (Ht : truthy (PDict (domain_api_results results)) = true).
        { unfold truthy. by apply negb_true_iff, bool_decide_eq_false. }
        rewrite Ht. apply list_elem_of_singleton. reflexivity.
      - by simplify_map_eq. }
    destruct Hlast as (x & Hx & Hsrc & Hcontent).
    apply list_elem_of_lookup in Hx as [i Hi].
    destruct (lookup_lt_is_Some_2 (rescore w (flatten_results results) understanding) i)
      as [y Hy].
    { rewrite rescore_length. by eapply lookup_lt_Some. }
    exists y. split; [rewrite Hperm; by eapply list_elem_of_lookup_2|].
    apply rescore_lookup_inv in Hy as (x' & Hx' & Hy).
    assert (x' = x) as -> by congruence.
    assert (Hsame : y !! "source" = x !! "source" ∧ y !! "content" = x !! "content").
    { destruct Hy as [->|(o & b & ->)]; [done|]. unfold blended.
      by rewrite !lookup_insert_ne by done. }
    destruct Hsame as [Hs Hc].
    unfold is_domain_payload, get, get_or. by rewrite Hs, Hc, Hsrc, Hcontent. }
  clear Hsort Hperm. induction ranked as [|y ranked IH].
  - by destruct Hexists as (y & Hy%elem_of_nil & _).
  - cbn [_extract_domain_api_result].
    fold (is_domain_payload y).
    destruct (is_domain_payload y) eqn:Hy.
    + apply Hpayload; [by left|done].
    + apply IH.
      * intros z Hz. apply Hpayload. by right.
      * destruct Hexists as (z & [->|Hz]%elem_of_cons & Hp); [congruence|eauto].
Qed.

(** X13: after reranking, a non-empty payload of the domain integration
    (an error payload too) is what [_extract_domain_api_result] finds,
    wherever the sort has put it; the context summary then opens with the
    header and this payload as the primary source, and nothing follows it
    when retrieval brought no web results: the results of the knowledge
    base are left out of the prompt. *)
Theorem domain_payload_is_primary ranked :
  rerank_results w results understanding = Ok ranked →
  domain_api_results results ≠ ∅ →
  let payload := PDict (domain_api_results results) in
  _extract_domain_api_result ranked = payload
  ∧ ∃ supporting,
      _build_context_summary w ranked (_extract_domain_api_result ranked)
      = RESPONSE_CONTEXT_HEADER +:+ RESPONSE_PRIMARY_SOURCE_HEADER
        +:+ json_dumps w payload +:+ nl +:+ supporting
      ∧ (web_results results = [] → supporting = "").
Proof.
  intros Hranked Hne. cbv zeta.
  pose proof (extract_reranked_payload ranked Hranked Hne) as Hpayload.
  split; [done|]. rewrite Hpayload.
  assert (Ht : truthy (PDict (domain_api_results results)) = true).
  { unfold truthy. by apply negb_true_iff, bool_decide_eq_false. }
  assert (Hlen : ranked ≠ []).
  { intros ->. discriminate Hpayload. }
  destruct (build_context_summary_primary w ranked _ Hlen Ht) as (supporting & Hs & Hweb).
  exists supporting. split; [done|]. intros Hnone. apply Hweb.
  unfold _extract_web_results.
  assert (Hfilter : filter (λ ctx, eq_str (get ctx "source") RESULT_SOURCE_WEB = true)
                      ranked = []); [|by rewrite Hfilter].
  destruct (filter _ ranked) as [|y rest] eqn:Hfilter; [done|]. exfalso.
  assert (Hy : y ∈ filter (λ ctx, eq_str (get ctx "source") RESULT_SOURCE_WEB = true)
                      ranked) by (rewrite Hfilter; by left).
  apply list_elem_of_filter in Hy as [Hweby Hy]. revert Hweby.
  unfold rerank_results in Hranked.
  rewrite (sort_by_score_Ok_perm _ _ Hranked) in Hy.
  apply list_elem_of_lookup in Hy as [i Hi].
  apply rescore_lookup_inv in Hi as (x & Hx & Hy).
  apply list_elem_of_lookup_2, flatten_results_scores in Hx.
  assert (Hsrc : y !! "source" = x !! "source").
  { destruct Hy as [->|(o & b & ->)]; [done|]. unfold blended.
    by rewrite !lookup_insert_ne by done. }
  unfold get, get_or. rewrite Hsrc.
  destruct Hx as [(kb & _ & -> & _)|[(web & Hin & _)|(-> & _ & _)]]; [done| |done].
  rewrite Hnone in Hin. by apply elem_of_nil in Hin.
Qed.
End RerankOrder.


Lemma count_total_results_reranked_witness :
  ∃ ranked,
    rerank_results offline_world failed_quote_results finance_understanding = Ok ranked
    ∧ _count_total_results failed_quote_results = 1
    ∧ length ranked = 2.
Proof.
  assert (∃ ranked, rerank_results offline_world failed_quote_results
                      finance_understanding = Ok ranked) as [ranked Hranked]
    by (eexists; vm_compute; reflexivity).
  exists ranked. split; [done|]. split; [reflexivity|].
  exact (count_total_results_reranked offline_world failed_quote_results
           finance_understanding ranked Hranked).
Defined.

Lemma domain_payload_is_primary_witness :
  ∃ ranked,
    rerank_results offline_world failed_quote_results finance_understanding = Ok ranked
    ∧ domain_api_results failed_quote_results ≠ ∅
    ∧ _extract_domain_api_result ranked
      = PDict {[ "error" := PStr "FINANCE_API_FAILED" ]}.
Proof.
  assert (∃ ranked, rerank_results offline_world failed_quote_results
                      finance_understanding = Ok ranked) as [ranked Hranked]
    by (eexists; vm_compute; reflexivity).
  assert (Hne : domain_api_results failed_quote_results ≠ ∅).
  { intros H. by apply (f_equal (lookup "error")) in H. }
  exists ranked. split; [done|]. split; [done|].
  apply (domain_payload_is_primary offline_world failed_quote_results
           finance_understanding ranked Hranked Hne).
Defined.

(** ** Reranking what retrieval returns *)

Section Scored.
Context (w : World) (query : string).

Lemma retrieve_from_local_kb_scored top_k :
  Forall scored (retrieve_from_local_kb w query top_k).
Proof.
  unfold retrieve_from_local_kb.
  destruct (load_local_retriever w) as [r|]; [|constructor].
  destruct (kb_search r query top_k) as [hits|e]; [|constructor].
  change (Ok hits ≫= _) with (kb_format r 0 hits).
  destruct (kb_format r 0 hits) as [results|e] eqn:Hformat; [|constructor].
  destruct (kb_format_items r 0 hits results Hformat) as (kept & -> & _ & _).
  rewrite Forall_fmap. apply Forall_true. intros [[k [s idx]] content].
  exists s. cbn. unfold kb_item. by simplify_map_eq.
Qed.

Lemma retrieve_from_web_scored user_context :
  Forall scored (retrieve_from_web w query user_context).
Proof.
  unfold retrieve_from_web. rewrite Forall_fmap. apply Forall_true.
  intros x. exists DEFAULT_SCORE_WEB_RESULTS. cbn. by simplify_map_eq.
Qed.

Lemma get_hkgai_answer_scored :
  get_hkgai_answer w query = ∅ ∨ scored (get_hkgai_answer w query).
Proof.
  destruct (get_hkgai_answer_cases w query) as [?|[content ->]]; [by left|].
  right. exists 1.0%Q. unfold direct_answer_item. by simplify_map_eq.
Qed.
End Scored.

Section ScoredRetrieval.
Context (w : World) (query : string) (understanding : dict)
        (sel : SourceSelection).

(** Whatever the coordinator puts in the two lists carries a score. *)
Lemma retrieve_information_scored r :
  snd (retrieve_information w query understanding sel) = Ok r →
  Forall scored (local_kb_results r) ∧ Forall scored (web_results r).
Proof.
  pose proof (retrieve_from_local_kb_scored w query DEFAULT_TOP_K_LOCAL_KB) as Hkb.
  pose proof (retrieve_from_web_scored w query (get understanding "user_context")) as Hweb.
  assert (Hcons : truthy (PDict (get_hkgai_answer w query)) = true →
                  scored (get_hkgai_answer w query)).
  { destruct (get_hkgai_answer_scored w query) as [->|?]; [by vm_compute|done]. }
  revert r.
  split_trace; decided; try done; intros r [= <-]; run_traced;
    split; try done; try constructor; auto.
Qed.
End ScoredRetrieval.

Section RerankRetrieved.
Context (w : World).

Lemma scored_sort_key x : scored x → is_Some (sort_key x).
Proof. intros [s Hs]. unfold sort_key. rewrite (get_or_Some _ _ _ _ Hs). by eexists. Qed.

Lemma flatten_results_sort_keys results :
  Forall scored (local_kb_results results) →
  Forall scored (web_results results) →
  Forall scored (flatten_results results).
Proof.
  intros Hkb Hweb. rewrite Forall_forall in Hkb, Hweb |- *.
  intros x [(kb & Hin & _ & Hs)|[(web & Hin & _ & Hs)|(_ & Hs & _)]]%flatten_results_scores.
  - destruct (Hkb _ Hin) as [s Hkbs]. exists s.
    by rewrite Hs, (get_or_Some _ _ _ _ Hkbs).
  - destruct (Hweb _ Hin) as [s Hwebs]. exists s.
    by rewrite Hs, (get_or_Some _ _ _ _ Hwebs).
  - by eexists.
Qed.

Lemma rescore_scored all_results understanding :
  Forall scored all_results →
  Forall scored (rescore w all_results understanding).
Proof.
  rewrite !Forall_forall. intros Hall y [i Hi]%list_elem_of_lookup.
  apply rescore_lookup_inv in Hi as (x & Hx & Hy).
  apply list_elem_of_lookup_2, Hall in Hx.
  destruct Hy as [->|(o & b & ->)]; [done|].
  eexists. unfold blended. by rewrite lookup_insert_ne, lookup_insert_eq.
Qed.

Lemma rerank_results_returns results understanding :
  Forall scored (local_kb_results results) →
  Forall scored (web_results results) →
  returns (rerank_results w results understanding).
Proof.
  intros Hkb Hweb. unfold rerank_results.
  destruct (sort_by_score_perm (rescore w (flatten_results results) understanding))
    as (ranked & Hsort & _); [|by exists ranked].
  intros x Hx. apply scored_sort_key.
  pose proof (rescore_scored _ understanding
                (flatten_results_sort_keys _ Hkb Hweb)) as Hall.
  rewrite Forall_forall in Hall. by apply Hall.
Qed.

(** What retrieval returns can always be reranked. *)
Lemma rerank_retrieved_Ok query understanding sel results reranked_for :
  snd (retrieve_information w query understanding sel) = Ok results →
  returns (rerank_results w results reranked_for).
Proof.
  intros Hrun.
  destruct (retrieve_information_scored _ _ _ _ _ Hrun) as [Hkb Hweb].
  by apply rerank_results_returns.
Qed.

(** X14: reranking never fails on what retrieval returns, whatever the
    BM25 library does, and keeps every result. *)
Theorem rerank_retrieved_returns query understanding sel results reranked_for :
  snd (retrieve_information w query understanding sel) = Ok results →
  ∃ ranked,
    rerank_results w results reranked_for = Ok ranked
    ∧ length ranked
      = (length (local_kb_results results) + length (web_results results)
         + (if bool_decide (domain_api_results results = ∅) then 0 else 1))%nat.
Proof.
  intros Hrun.
  destruct (rerank_retrieved_Ok _ _ _ _ reranked_for Hrun) as [ranked Hranked].
  exists ranked. split; [done|].
  unfold rerank_results in Hranked.
  rewrite (sort_by_score_Ok_perm _ _ Hranked), rescore_length.
  unfold flatten_results. rewrite !length_app, !length_fmap.
  unfold truthy. destruct (bool_decide _); cbn; lia.
Qed.
End RerankRetrieved.

Lemma rerank_retrieved_returns_witness :
  ∃ results,
    snd (retrieve_information search_only_world "What is the price of AAPL?"
           finance_understanding (source_selection finance_understanding))
    = Ok results
    ∧ ∃ ranked,
        rerank_results search_only_world results finance_understanding = Ok ranked
        ∧ length ranked
          = (length (local_kb_results results) + length (web_results results)
             + (if bool_decide (domain_api_results results = ∅) then 0 else 1))%nat.
Proof.
  assert (∃ results,
            snd (retrieve_information search_only_world "What is the price of AAPL?"
                   finance_understanding (source_selection finance_understanding))
            = Ok results) as [results Hrun]
    by (eexists; vm_compute; reflexivity).
  exists results. split; [done|].
  exact (rerank_retrieved_returns search_only_world _ _ _ results
           finance_understanding Hrun).
Defined.

(** ** The answers and the exceptions of the pipeline *)



Section PipelineErrors.
Context (w : World) (query : string).

Let understanding : dict := <[ "query" := PStr query ]> (query_understanding w query).

End PipelineErrors.


Section Unreachable.
Context (w : World) (query : string).
Hypothesis Hdown : model_unreachable w.

Lemma chat_unreachable req : ∃ e, chat w req = Ok {[ "error" := PStr e ]}.
Proof.
  unfold chat. specialize (Hdown req).
  destruct (http_post w req) as [msg|status_code body]; [eauto|].
  rewrite Hdown. eauto.
Qed.

Lemma classify_with_llm_unreachable user_context :
  classify_with_llm w query user_context = None.
Proof.
  unfold classify_with_llm, classify_try, model_reply_text.
  destruct (chat_unreachable (classification_request w query user_context)) as [e ->].
  unfold mbind, outcome_bind.
  by rewrite (proj2 (has_key_true _ _)) by (rewrite lookup_singleton_eq; eauto).
Qed.

(** X16: when the language model cannot be reached the understanding
    is the default one, the web search and the local knowledge base are
    the sources, and the answer of the pipeline is the static apology. *)
Theorem run_search_pipeline_model_unreachable :
  query_understanding w query = default_understanding (get_user_context w)
  ∧ sources (source_selection (<[ "query" := PStr query ]> (query_understanding w query)))
    = [SOURCE_WEB_SEARCH; SOURCE_LOCAL_KB]
  ∧ run_search_pipeline w query = PStr LOG_RESPONSE_ERROR.
Proof.
  assert (Hu : query_understanding w query = default_understanding (get_user_context w)).
  { apply query_understanding_fallback, classify_with_llm_unreachable. }
  split; [done|].
  unfold run_search_pipeline, run_search_pipeline_try. rewrite Hu.
  set (understanding := <[ "query" := PStr query ]> _).
  assert (Hsel : source_selection understanding
                 = selection_of (PStr DOMAIN_GENERAL) true false).
  { rewrite source_selection_shape.
    assert (get_or understanding "domain" (PStr DOMAIN_GENERAL) = PStr DOMAIN_GENERAL)
      as -> by (unfold get_or, understanding, default_understanding; by simplify_map_eq).
    assert (get_or understanding "needs_web" (PBool false) = PBool true)
      as -> by (unfold get_or, understanding, default_understanding; by simplify_map_eq).
    assert (get_or understanding "intent" (PStr INTENT_CONVERSATIONAL) = PStr INTENT_FACTUAL)
      as -> by (unfold get_or, understanding, default_understanding; by simplify_map_eq).
    reflexivity. }
  split; [by rewrite Hsel|].
  destruct (snd (retrieve_information w query understanding
                   (source_selection understanding))) as [results|e] eqn:Hrun.
  2: { destruct (retrieve_information_raise w query understanding _ e
                   (source_selection_local_kb understanding) Hrun) as (handler & Hh & _).
       by rewrite Hsel in Hh. }
  destruct (rerank_retrieved_Ok w query understanding _ results understanding Hrun)
    as (ranked & Hranked).
  unfold mbind at 1, outcome_bind at 1. rewrite Hranked.
  unfold mbind at 1, outcome_bind at 1.
  destruct (chat_unreachable (generation_request w query understanding ranked)) as [e He].
  erewrite generate_response_on_error; [done|exact He|].
  rewrite lookup_singleton_eq. eauto.
Qed.
End Unreachable.

Lemma run_search_pipeline_model_unreachable_witness :
  model_unreachable offline_world
  ∧ run_search_pipeline offline_world "Will it rain in Hong Kong tomorrow?"
    = PStr LOG_RESPONSE_ERROR.
Proof.
  assert (Hdown : model_unreachable offline_world) by (by intros req).
  split; [done|].
  apply (run_search_pipeline_model_unreachable offline_world
           "Will it rain in Hong Kong tomorrow?" Hdown).
Defined.

Section PipelineAnswer.
Context (w : World) (query : string).

Let understanding : dict := <[ "query" := PStr query ]> (query_understanding w query).

End PipelineAnswer.

(** ** The performance monitor *)

Section Monitor.

Lemma record_timing_times m operation duration op :
  times_of (record_timing m operation duration) op
  = if decide (op = operation) then times_of m op ++ [duration] else times_of m op.
Proof.
  unfold times_of, record_timing. cbn [timings].
  destruct (decide (op = operation)) as [->|Hne].
  - rewrite lookup_alter_eq. case_bool_decide as Hsome.
    + by destruct Hsome as [times ->].
    + rewrite lookup_insert_eq. cbn.
      by rewrite (proj2 (eq_None_not_Some _) Hsome).
  - rewrite lookup_alter_ne by done. case_bool_decide; [done|].
    by rewrite lookup_insert_ne.
Qed.

Lemma record_timing_lookup m operation duration :
  timings (record_timing m operation duration) !! operation
  = Some (times_of m operation ++ [duration]).
Proof.
  unfold times_of, record_timing. cbn [timings].
  rewrite lookup_alter_eq. case_bool_decide as Hsome.
  - by destruct Hsome as [times ->].
  - rewrite lookup_insert_eq. cbn. by rewrite (proj2 (eq_None_not_Some _) Hsome).
Qed.

Lemma record_timing_lookup_ne m operation duration op :
  op ≠ operation →
  timings (record_timing m operation duration) !! op = timings m !! op.
Proof.
  intros Hne. unfold record_timing. cbn [timings].
  rewrite lookup_alter_ne by done. case_bool_decide; [done|].
  by rewrite lookup_insert_ne.
Qed.

Lemma monitor_init_consistent : monitor_consistent monitor_init.
Proof. intros op. cbn. by rewrite !lookup_empty. Qed.

Lemma record_timing_consistent m operation duration :
  monitor_consistent m → monitor_consistent (record_timing m operation duration).
Proof.
  intros Hm op. destruct (decide (op = operation)) as [->|Hne].
  - rewrite record_timing_lookup. destruct (Hm operation) as [Hc _].
    split; [|by destruct (times_of m operation)].
    unfold record_timing. cbn [counts]. rewrite lookup_insert_eq. cbn.
    rewrite Hc. unfold times_of. rewrite length_app. cbn.
    destruct (timings m !! operation); cbn; f_equal; lia.
  - rewrite record_timing_lookup_ne by done.
    unfold record_timing. cbn [counts]. rewrite lookup_insert_ne by done.
    apply Hm.
Qed.

Lemma operation_summary_None times : operation_summary times = None ↔ times = [].
Proof. by destruct times. Qed.

Lemma get_summary_empty m :
  monitor_consistent m → get_summary m = ∅ → m = monitor_init.
Proof.
  intros Hm Hs.
  assert (Ht : timings m = ∅).
  { apply map_eq. intros op. rewrite lookup_empty.
    apply (f_equal (lookup op)) in Hs. unfold get_summary in Hs.
    rewrite lookup_omap, lookup_empty in Hs.
    destruct (timings m !! op) as [times|] eqn:Hop; [|done].
    cbn in Hs. apply operation_summary_None in Hs as ->.
    by destruct (Hm op) as [_ ?]. }
  assert (Hc : counts m = ∅).
  { apply map_eq. intros op. destruct (Hm op) as [-> _].
    by rewrite Ht, !lookup_empty. }
  destruct m as [t c]. cbn in *. by subst.
Qed.

Lemma print_summary_clears m :
  monitor_consistent m → print_summary m = monitor_init.
Proof.
  intros Hm. unfold print_summary. case_bool_decide as Hs; [|done].
  by apply get_summary_empty.
Qed.

Lemma monitor_reachable_consistent m : monitor_reachable m → monitor_consistent m.
Proof.
  induction 1 as [|m op d _ IH|m _ IH|m _ IH].
  - apply monitor_init_consistent.
  - by apply record_timing_consistent.
  - apply monitor_init_consistent.
  - rewrite print_summary_clears by done. apply monitor_init_consistent.
Qed.

Lemma fold_smaller_spec l a :
  (fold_left smaller l a = a ∨ fold_left smaller l a ∈ l)
  ∧ (fold_left smaller l a <= a)%Q
  ∧ ∀ t, t ∈ l → (fold_left smaller l a <= t)%Q.
Proof.
  revert a. induction l as [|b l IH]; intros a; cbn [fold_left].
  - split; [by left|]. split; [apply Qle_refl|by intros t ?%elem_of_nil].
  - destruct (IH (smaller a b)) as (Hin & Hle & Hall).
    assert (Hs : (smaller a b = a ∨ smaller a b = b)
                 ∧ (smaller a b <= a)%Q ∧ (smaller a b <= b)%Q).
    { unfold smaller. destruct (Qlt_le_dec b a) as [Hlt|Hge].
      - split; [by right|]. split; [by apply Qlt_le_weak|apply Qle_refl].
      - split; [by left|]. split; [apply Qle_refl|done]. }
    destruct Hs as (Hs & Hsa & Hsb). split; [|split].
    + destruct Hin as [->|Hin]; [|right; by right].
      destruct Hs as [->| ->]; [by left|right; by left].
    + by eapply Qle_trans.
    + intros t [->|Ht]%elem_of_cons; [by eapply Qle_trans|by apply Hall].
Qed.

Lemma minimum_spec times m :
  minimum times = Some m → m ∈ times ∧ ∀ t, t ∈ times → (m <= t)%Q.
Proof.
  destruct times as [|a l]; [done|]. intros [= <-].
  destruct (fold_smaller_spec l a) as (Hin & Hle & Hall). split.
  - destruct Hin as [->|Hin]; [by left|by right].
  - intros t [->|Ht]%elem_of_cons; [done|by apply Hall].
Qed.

Lemma fold_larger_elem l a :
  fold_left larger l a = a ∨ fold_left larger l a ∈ l.
Proof.
  revert a. induction l as [|b l IH]; intros a; cbn [fold_left]; [by left|].
  destruct (IH (larger a b)) as [->|Hin]; [|right; by right].
  unfold larger. destruct (Qlt_le_dec a b); [right; by left|by left].
Qed.

Lemma maximum_elem times m : maximum times = Some m → m ∈ times.
Proof.
  destruct times as [|a l]; [done|]. intros [= <-].
  destruct (fold_larger_elem l a) as [->|Hin]; [by left|by right].
Qed.

(** X18: in every state the monitor reaches, an operation has a count
    exactly when it has timings, the count is the number of its timings,
    and no operation is listed without a timing. *)
Theorem monitor_counts_match m :
  monitor_reachable m →
  ∀ operation,
    counts m !! operation
    = (λ times, Z.of_nat (length times)) <$> timings m !! operation
    ∧ timings m !! operation ≠ Some [].
Proof. apply monitor_reachable_consistent. Qed.

(** X19: the summary has an entry exactly for the operations timed
    since the last reset; its count is the number of timings, which is
    also what the count dictionary holds, and its minimum and maximum are
    timings that were recorded and bound all the others. *)
Theorem get_summary_entries m operation :
  monitor_reachable m →
  (is_Some (get_summary m !! operation) ↔ is_Some (timings m !! operation))
  ∧ ∀ entry, get_summary m !! operation = Some entry →
      ∃ min_time max_time,
        entry !! "count" = Some (PInt (Z.of_nat (length (times_of m operation))))
        ∧ counts m !! operation = Some (Z.of_nat (length (times_of m operation)))
        ∧ entry !! "min_time" = Some (PFloat min_time)
        ∧ entry !! "max_time" = Some (PFloat max_time)
        ∧ min_time ∈ times_of m operation
        ∧ max_time ∈ times_of m operation
        ∧ ∀ t, t ∈ times_of m operation → (min_time <= t <= max_time)%Q.
Proof.
  intros Hm%monitor_reachable_consistent. destruct (Hm operation) as [Hc Hne].
  unfold get_summary, times_of. rewrite lookup_omap.
  destruct (timings m !! operation) as [times|] eqn:Ht; cbn [mbind option_bind];
    [|split; [by split; intros [? [=]]|done]].
  destruct times as [|t0 times]; [done|].
  unfold operation_summary.
  destruct (minimum (t0 :: times)) as [mn|] eqn:Hmin; [|done].
  destruct (maximum (t0 :: times)) as [mx|] eqn:Hmax; [|done].
  cbn [mbind option_bind]. split; [split; eauto|].
  intros entry [= <-]. exists mn, mx.
  destruct (minimum_spec _ _ Hmin) as [Hmn Hle].
  split; [by simplify_map_eq|]. split; [by rewrite Hc|].
  split; [by simplify_map_eq|]. split; [by simplify_map_eq|].
  split; [done|]. split; [by eapply maximum_elem|].
  intros t Hin. split; [by apply Hle|by eapply maximum_ge].
Qed.

(** X20: after [print_summary] the monitor is empty, in every state it
    reaches: where it returns early, without data, there was nothing to
    clear. *)
Theorem print_summary_resets m :
  monitor_reachable m → print_summary m = monitor_init.
Proof. intros Hm. by apply print_summary_clears, monitor_reachable_consistent. Qed.

(** X21: a timed operation hands on what its function returned or
    raised, and leaves exactly one more timing, under its own name, than
    the function left; the operation name is the name given, or the
    function's name where none or an empty one is given. *)
Theorem timed_operation_records {A} operation_name func_name start_time end_time
    (func : PerformanceMonitor → outcome A * PerformanceMonitor) monitor :
  let name := match operation_name with
              | Some n => if String.eqb n "" then func_name else n
              | None => func_name
              end in
  let after_func := snd (func monitor) in
  let after := snd (timed_operation operation_name func_name start_time end_time
                      func monitor) in
  fst (timed_operation operation_name func_name start_time end_time func monitor)
  = fst (func monitor)
  ∧ times_of after name = times_of after_func name ++ [(end_time - start_time)%Q]
  ∧ (∀ operation, operation ≠ name →
       times_of after operation = times_of after_func operation)
  ∧ (monitor_reachable after_func → monitor_reachable after).
Proof.
  cbv zeta. unfold timed_operation, track_performance.
  destruct (func monitor) as [result m']. cbn [fst snd].
  split; [done|]. split; [|split].
  - rewrite record_timing_times. by rewrite decide_True.
  - intros op Hne. rewrite record_timing_times. by rewrite decide_False.
  - by constructor.
Qed.

End Monitor.

Lemma monitor_counts_match_witness :
  let m := record_timing (record_timing monitor_init "rerank_results" 0.25)
             "rerank_results" 0.5 in
  monitor_reachable m
  ∧ counts m !! "rerank_results" = Some 2%Z
  ∧ timings m !! "rerank_results" = Some [0.25%Q; 0.5%Q].
Proof.
  cbv zeta.
  assert (Hm : monitor_reachable
                 (record_timing (record_timing monitor_init "rerank_results" 0.25)
                    "rerank_results" 0.5)) by (repeat constructor).
  split; [done|].
  destruct (monitor_counts_match _ Hm "rerank_results") as [Hc _].
  split; [exact Hc|reflexivity].
Defined.

Lemma get_summary_entries_witness :
  let m := record_timing (record_timing monitor_init "generate_response" 1.5)
             "generate_response" 0.75 in
  monitor_reachable m
  ∧ ∃ entry min_time max_time,
      get_summary m !! "generate_response" = Some entry
      ∧ entry !! "count" = Some (PInt 2)
      ∧ entry !! "min_time" = Some (PFloat min_time)
      ∧ entry !! "max_time" = Some (PFloat max_time)
      ∧ min_time ∈ times_of m "generate_response"
      ∧ max_time ∈ times_of m "generate_response".
Proof.
  cbv zeta.
  set (m := record_timing (record_timing monitor_init "generate_response" 1.5)
              "generate_response" 0.75).
  assert (Hm : monitor_reachable m) by (repeat constructor).
  split; [done|].
  destruct (get_summary_entries m "generate_response" Hm) as [_ Hentry].
  assert (∃ entry, get_summary m !! "generate_response" = Some entry) as [entry Hs]
    by (eexists; vm_compute; reflexivity).
  destruct (Hentry entry Hs)
    as (min_time & max_time & Hcount & _ & Hmin & Hmax & Hmn & Hmx & _).
  exists entry, min_time, max_time. by repeat split.
Defined.

Lemma print_summary_resets_witness :
  let m := record_timing monitor_init "query_understanding" 0.4 in
  monitor_reachable m ∧ print_summary m = monitor_init.
Proof.
  cbv zeta.
  assert (Hm : monitor_reachable (record_timing monitor_init "query_understanding" 0.4))
    by (repeat constructor).
  split; [done|]. exact (print_summary_resets _ Hm).
Defined.

(** ** The chat store *)

Section ChatStore.

Lemma subscript_dict (d : dict) key x :
  d !! key = Some x → subscript (PDict d) key = Ok x.
Proof. intros H. unfold subscript. by rewrite H. Qed.

Lemma find_chat_Some i chats chat_id j chat :
  find_chat i chats chat_id = Ok (Some (j, chat)) →
  (i ≤ j)%nat ∧ chats !! ((j - i)%nat : nat) = Some (PDict chat)
  ∧ ∃ id, chat !! "id" = Some id ∧ eq_id id chat_id = true.
Proof.
  revert i. induction chats as [|c chats IH]; intros i; [done|].
  cbn [find_chat]. unfold subscript.
  destruct c as [| | | | | |d]; try done.
  destruct (d !! "id") as [id|] eqn:Hid; [|done].
  unfold mbind, outcome_bind. destruct (eq_id id chat_id) eqn:Heq.
  - intros [= <- <-]. replace (i - i)%nat with 0%nat by lia. split; [lia|]. eauto.
  - intros (Hle & Hlook & Hfound)%IH. split; [lia|]. split; [|done].
    by replace (j - i)%nat with (S (j - S i)) by lia.
Qed.

Lemma find_chat_well_formed i chats chat_id :
  Forall well_formed_chat chats → ∃ found, find_chat i chats chat_id = Ok found.
Proof.
  intros Hwf. revert i. induction Hwf as [|c chats Hc _ IH]; intros i; [by eexists|].
  destruct Hc as (chat & messages & -> & [id Hid] & _).
  cbn [find_chat]. rewrite (subscript_dict _ _ _ Hid). unfold mbind, outcome_bind.
  destruct (eq_id id chat_id); eauto.
Qed.

(** No chat before the one found has the id asked for. *)
Lemma find_chat_first i chats chat_id j chat (k : nat) c :
  find_chat i chats chat_id = Ok (Some (j, chat)) →
  (k < j - i)%nat → chats !! k = Some c →
  ∃ d id, c = PDict d ∧ d !! "id" = Some id ∧ eq_id id chat_id = false.
Proof.
  revert i k. induction chats as [|c' chats IH]; intros i k; [done|].
  cbn [find_chat]. unfold subscript.
  destruct c' as [| | | | | |d]; try done.
  destruct (d !! "id") as [id|] eqn:Hid; [|done].
  unfold mbind, outcome_bind. destruct (eq_id id chat_id) eqn:Heq.
  - intros [= <- <-]. lia.
  - intros Hfind Hk. destruct k as [|k]; cbn.
    + intros [= <-]. eauto.
    + apply (IH (S i)); [done|].
      apply find_chat_Some in Hfind as (? & _ & _). lia.
Qed.

Lemma find_chat_None i chats chat_id :
  find_chat i chats chat_id = Ok None →
  Forall (λ c, ∃ d id, c = PDict d ∧ d !! "id" = Some id
                       ∧ eq_id id chat_id = false) chats.
Proof.
  revert i. induction chats as [|c chats IH]; intros i; [constructor|].
  cbn [find_chat]. unfold subscript.
  destruct c as [| | | | | |d]; try done.
  destruct (d !! "id") as [id|] eqn:Hid; [|done].
  unfold mbind, outcome_bind. destruct (eq_id id chat_id) eqn:Heq; [done|].
  intros Hrest. constructor; [eauto|by eapply IH].
Qed.

(** The position where the search starts only shifts the position
    found. *)
Lemma find_chat_shift i i' chats chat_id :
  chat_found (find_chat i chats chat_id) = chat_found (find_chat i' chats chat_id).
Proof.
  revert i i'. induction chats as [|c chats IH]; intros i i'; [done|].
  cbn [find_chat]. destruct (subscript c "id") as [id|e]; [|done].
  unfold mbind, outcome_bind. destruct (eq_id id chat_id); [by destruct c|].
  apply IH.
Qed.

Lemma other_chats_spec chats chat_id kept :
  other_chats chats chat_id = Ok kept →
  find_chat 0 kept (Some chat_id) = Ok None
  ∧ (Forall well_formed_chat chats → Forall well_formed_chat kept)
  ∧ sublist kept chats
  ∧ ∀ other, other ≠ chat_id →
      chat_found (find_chat 0 kept (Some other))
      = chat_found (find_chat 0 chats (Some other)).
Proof.
  revert kept. induction chats as [|c chats IH]; intros kept.
  - intros [= <-]. split; [done|]. split; [done|]. split; [constructor|done].
  - cbn [other_chats]. destruct (subscript c "id") as [id|e] eqn:Hid; [|done].
    unfold mbind at 1, outcome_bind at 1.
    destruct (other_chats chats chat_id) as [kept'|e]; [|done].
    unfold mbind, outcome_bind. intros [= <-].
    destruct (IH kept' eq_refl) as (Hnone & Hwf & Hsub & Hother).
    destruct (eq_str id chat_id) eqn:Heq.
    + split; [done|]. split; [intros [_ Hall]%Forall_cons; by apply Hwf|].
      split; [by apply sublist_cons|].
      intros other Hne. rewrite Hother by done.
      cbn [find_chat]. rewrite Hid. unfold mbind, outcome_bind. cbn [eq_id].
      assert (eq_str id other = false) as ->.
      { apply eq_str_true in Heq as ->. cbn. by apply String.eqb_neq. }
      apply (find_chat_shift 0 1).
    + split; [|split; [|split]].
      * cbn [find_chat]. rewrite Hid. unfold mbind, outcome_bind. cbn [eq_id].
        rewrite Heq.
        pose proof (find_chat_shift 1 0 kept' (Some chat_id)) as Hshift.
        rewrite Hnone in Hshift.
        destruct (find_chat 1 kept' (Some chat_id)) as [[[j chat]|]|e]; by try done.
      * intros [Hc Hall]%Forall_cons. constructor; [done|by apply Hwf].
      * by apply sublist_skip.
      * intros other Hne. cbn [find_chat]. rewrite Hid. unfold mbind, outcome_bind.
        destruct (eq_id id (Some other)); [done|].
        rewrite <- (find_chat_shift 0 1 kept'), <- (find_chat_shift 0 1 chats).
        by apply Hother.
Qed.

Lemma other_chats_well_formed chats chat_id :
  Forall well_formed_chat chats → ∃ kept, other_chats chats chat_id = Ok kept.
Proof.
  induction 1 as [|c chats Hc _ [kept IH]]; [by eexists|].
  destruct Hc as (chat & messages & -> & [id Hid] & _).
  cbn [other_chats]. rewrite (subscript_dict _ _ _ Hid), IH.
  unfold mbind, outcome_bind. eauto.
Qed.
End ChatStore.

Section ChatStoreHandlers.
Context (w : World).

Lemma truthy_dict_lookup (d : dict) k x : d !! k = Some x → truthy (PDict d) = true.
Proof.
  intros Hk. unfold truthy. apply negb_true_iff, bool_decide_eq_false.
  intros ->. by rewrite lookup_empty in Hk.
Qed.

Lemma with_chat_well_formed (d : dict) chats i chat :
  d !! "chats" = Some (PList chats) →
  Forall well_formed_chat chats → well_formed_chat (PDict chat) →
  well_formed_store (Some (with_chat (PDict d) i chat)).
Proof.
  intros Hchats Hwf Hchat. unfold with_chat. rewrite Hchats.
  eexists _, _. split; [reflexivity|]. split; [by rewrite lookup_insert_eq|].
  by apply Forall_insert.
Qed.

(** What [send_message] does when it finds the chat. *)
Lemma send_message_found file d chats chat_id message_text file_content
    user_time assistant_time i chat messages :
  load_data file = PDict d →
  d !! "chats" = Some (PList chats) →
  find_chat 0 chats chat_id = Ok (Some (i, chat)) →
  chat !! "messages" = Some (PList messages) →
  let chat' := answered_chat w chat messages message_text file_content
                 user_time assistant_time in
  send_message w chat_id message_text file_content user_time assistant_time file
  = (Ok (Response 200 (<[ "success" := PBool true ]> {[ "chat" := PDict chat' ]})),
     Some (PDict (<[ "chats" := PList (<[ i := PDict chat' ]> chats) ]> d))).
Proof.
  intros Hload Hchats Hfind Hmessages. cbv zeta.
  unfold send_message. rewrite Hload, (subscript_dict _ _ _ Hchats).
  unfold mbind at 1, outcome_bind at 1. unfold iterate.
  unfold mbind at 1, outcome_bind at 1. rewrite Hfind.
  unfold mbind at 1, outcome_bind at 1.
  destruct (find_chat_Some _ _ _ _ _ Hfind) as (_ & _ & id & Hid & _).
  rewrite (truthy_dict_lookup _ _ _ Hid). cbn [negb].
  rewrite (subscript_dict _ _ _ Hmessages).
  unfold mbind, outcome_bind, handled, with_chat. rewrite Hchats.
  unfold answered_chat, user_message_of, assistant_message_of, full_message_of, attached.
  rewrite length_app. cbn [length].
  destruct messages as [|m messages]; cbn [length Nat.add Nat.eqb app]; [done|].
  by replace (length messages + 1 =? 0)%nat with false
    by (symmetry; apply Nat.eqb_neq; lia).
Qed.

Lemma handle_well_formed req file :
  well_formed_store file →
  ∃ r file', handle w req file = (Ok r, file') ∧ well_formed_store file'.
Proof.
  intros Hwf. pose proof Hwf as (d & chats & Hload & Hchats & Hall).
  destruct req as [|new_chat_id created_at|chat_id
                  |chat_id message_text file_content user_time assistant_time
                  |chat_id|chat_id new_title]; cbn [handle].
  - unfold get_chats. rewrite Hload, (subscript_dict _ _ _ Hchats).
    unfold mbind, outcome_bind, handled. by eexists _, _.
  - unfold create_chat. rewrite Hload, (subscript_dict _ _ _ Hchats).
    unfold mbind, outcome_bind, handled.
    eexists _, _. split; [done|].
    eexists _, _. split; [reflexivity|]. split; [by rewrite lookup_insert_eq|].
    constructor; [|done]. eexists _, []. split; [reflexivity|].
    split; [by rewrite lookup_insert_eq|].
    by simplify_map_eq.
  - unfold get_chat. rewrite Hload, (subscript_dict _ _ _ Hchats).
    unfold mbind at 1, outcome_bind at 1. unfold iterate.
    unfold mbind at 1, outcome_bind at 1.
    destruct (find_chat_well_formed 0 chats (Some chat_id) Hall) as [found ->].
    unfold mbind, outcome_bind, handled.
    destruct found as [[i chat]|]; [destruct (truthy _)|]; by eexists _, _.
  - destruct (find_chat_well_formed 0 chats chat_id Hall) as [[[i chat]|] Hfind].
    + destruct (find_chat_Some _ _ _ _ _ Hfind) as (_ & Hi & id & Hid & _).
      replace (i - 0)%nat with i in Hi by lia.
      pose proof (Forall_lookup_1 _ _ _ _ Hall Hi)
        as (chat0 & messages & [= <-] & _ & Hmessages).
      rewrite (send_message_found _ _ _ _ _ _ _ _ _ _ _ Hload Hchats Hfind Hmessages).
      eexists _, _. split; [done|].
      eexists _, _. split; [reflexivity|]. split; [by rewrite lookup_insert_eq|].
      apply Forall_insert; [done|].
      eexists _, _. split; [reflexivity|]. unfold answered_chat.
      split; [|by rewrite lookup_insert_eq].
      rewrite lookup_insert_ne by done.
      destruct messages; rewrite ?lookup_insert_ne by done; eauto.
    + unfold send_message. rewrite Hload, (subscript_dict _ _ _ Hchats).
      unfold mbind at 1, outcome_bind at 1. unfold iterate.
      unfold mbind at 1, outcome_bind at 1. rewrite Hfind.
      unfold mbind, outcome_bind, handled. by eexists _, _.
  - unfold delete_chat. rewrite Hload, (subscript_dict _ _ _ Hchats).
    unfold mbind at 1, outcome_bind at 1. unfold iterate.
    unfold mbind at 1, outcome_bind at 1.
    destruct (other_chats_well_formed chats chat_id Hall) as [kept Hkept].
    rewrite Hkept. unfold mbind, outcome_bind, handled.
    eexists _, _. split; [done|].
    eexists _, _. split; [reflexivity|]. split; [by rewrite lookup_insert_eq|].
    by apply (other_chats_spec _ _ _ Hkept).
  - unfold rename_chat. rewrite Hload, (subscript_dict _ _ _ Hchats).
    unfold mbind at 1, outcome_bind at 1. unfold iterate.
    unfold mbind at 1, outcome_bind at 1.
    destruct (find_chat_well_formed 0 chats (Some chat_id) Hall) as [[[i chat]|] Hfind];
      rewrite Hfind; unfold mbind, outcome_bind, handled; [|by eexists _, _].
    destruct (find_chat_Some _ _ _ _ _ Hfind) as (_ & Hi & id & Hid & _).
    replace (i - 0)%nat with i in Hi by lia.
    pose proof (Forall_lookup_1 _ _ _ _ Hall Hi)
      as (chat0 & messages & [= <-] & _ & Hmessages).
    rewrite (truthy_dict_lookup _ _ _ Hid).
    eexists _, _. split; [done|].
    apply (with_chat_well_formed d chats); [done..|].
    eexists _, _. split; [reflexivity|].
    rewrite !lookup_insert_ne by done. eauto.
Qed.

(** X22: on a store whose chats are dictionaries with an id and a list
    of messages (the absent file is one), no request makes a handler
    raise, whatever the requests and their order, and the store they
    leave is again of this kind. *)
Theorem store_stays_well_formed requests file :
  well_formed_store file →
  Forall returns (fst (serve w requests file))
  ∧ well_formed_store (snd (serve w requests file))
  ∧ length (fst (serve w requests file)) = length requests.
Proof.
  revert file. induction requests as [|req requests IH]; intros file Hwf.
  - by repeat split.
  - cbn [serve].
    destruct (handle_well_formed req file Hwf) as (r & file' & -> & Hwf').
    destruct (IH file' Hwf') as (Hall & Hwf'' & Hlen).
    destruct (serve w requests file') as [rs file'']. cbn [fst snd] in *.
    split; [constructor; [by exists r|done]|]. split; [done|]. cbn [length]. by f_equal.
Qed.
End ChatStoreHandlers.

Section ChatStoreRoundTrips.
Context (w : World).

Lemma get_chat_found file (d : dict) chats chat_id i chat :
  load_data file = PDict d → d !! "chats" = Some (PList chats) →
  find_chat 0 chats (Some chat_id) = Ok (Some (i, chat)) →
  get_chat chat_id file = (Ok (Response 200 {[ "chat" := PDict chat ]}), file).
Proof.
  intros Hload Hchats Hfind. unfold get_chat.
  rewrite Hload, (subscript_dict _ _ _ Hchats).
  unfold mbind at 1, outcome_bind at 1. unfold iterate.
  unfold mbind at 1, outcome_bind at 1. rewrite Hfind.
  destruct (find_chat_Some _ _ _ _ _ Hfind) as (_ & _ & id & Hid & _).
  unfold mbind, outcome_bind, handled. by rewrite (truthy_dict_lookup _ _ _ Hid).
Qed.

Lemma get_chat_not_found file (d : dict) chats chat_id :
  load_data file = PDict d → d !! "chats" = Some (PList chats) →
  find_chat 0 chats (Some chat_id) = Ok None →
  get_chat chat_id file = (Ok not_found, file).
Proof.
  intros Hload Hchats Hfind. unfold get_chat.
  rewrite Hload, (subscript_dict _ _ _ Hchats).
  unfold mbind at 1, outcome_bind at 1. unfold iterate.
  unfold mbind at 1, outcome_bind at 1. by rewrite Hfind.
Qed.

(** A chat changed in place, with its id kept, is found where it was. *)
Lemma find_chat_insert start chats chat_id i chat chat' :
  find_chat start chats chat_id = Ok (Some (i, chat)) →
  chat' !! "id" = chat !! "id" →
  find_chat start (<[ (i - start)%nat := PDict chat' ]> chats) chat_id
  = Ok (Some (i, chat')).
Proof.
  intros Hfind Hsame. revert start Hfind.
  induction chats as [|c chats IH]; intros start; [done|].
  cbn [find_chat]. unfold subscript.
  destruct c as [| | | | | |d]; try done.
  destruct (d !! "id") as [id|] eqn:Hid; [|done].
  unfold mbind, outcome_bind. destruct (eq_id id chat_id) eqn:Heq.
  - intros [= <- <-]. replace (start - start)%nat with 0%nat by lia.
    cbn [insert list_insert find_chat]. unfold subscript. rewrite Hsame, Hid.
    unfold mbind, outcome_bind. by rewrite Heq.
  - intros Hfind. pose proof (find_chat_Some _ _ _ _ _ Hfind) as (Hle & _).
    replace (i - start)%nat with (S (i - S start)) by lia.
    cbn [insert list_insert find_chat]. unfold subscript. rewrite Hid.
    unfold mbind, outcome_bind. rewrite Heq. by apply IH.
Qed.

Lemma find_chat_insert_0 chats chat_id i chat chat' :
  find_chat 0 chats chat_id = Ok (Some (i, chat)) →
  chat' !! "id" = chat !! "id" →
  find_chat 0 (<[ i := PDict chat' ]> chats) chat_id = Ok (Some (i, chat')).
Proof.
  intros Hfind Hsame.
  pose proof (find_chat_insert 0 chats chat_id i chat chat' Hfind Hsame) as H.
  by rewrite Nat.sub_0_r in H.
Qed.

Lemma other_chats_none chats chat_id :
  find_chat 0 chats (Some chat_id) = Ok None → other_chats chats chat_id = Ok chats.
Proof.
  intros Hnone%find_chat_None. induction Hnone as [|c chats Hc _ IH]; [done|].
  destruct Hc as (d & id & -> & Hid & Heq). cbn [other_chats].
  rewrite (subscript_dict _ _ _ Hid), IH. unfold mbind, outcome_bind.
  cbn [eq_id] in Heq. by rewrite Heq.
Qed.


(** X24: a chat just created is empty, is called "New Chat" and heads
    the list of chats; it is the chat found under its id, even where an
    older chat has the same id. *)
Theorem create_chat_then_get_chat file d chats new_chat_id created_at :
  load_data file = PDict d →
  d !! "chats" = Some (PList chats) →
  ∃ new_chat file',
    create_chat new_chat_id created_at file
    = (Ok (Response 200 {[ "chat" := PDict new_chat ]}), Some file')
    ∧ new_chat !! "id" = Some (PStr new_chat_id)
    ∧ new_chat !! "title" = Some (PStr "New Chat")
    ∧ new_chat !! "messages" = Some (PList [])
    ∧ get_chat new_chat_id (Some file')
      = (Ok (Response 200 {[ "chat" := PDict new_chat ]}), Some file')
    ∧ get_chats (Some file')
      = (Ok (Response 200 {[ "chats" := PList (PDict new_chat :: chats) ]}), Some file').
Proof.
  intros Hload Hchats. eexists _, _. split.
  { unfold create_chat. rewrite Hload, (subscript_dict _ _ _ Hchats).
    unfold mbind, outcome_bind, handled. reflexivity. }
  split; [by simplify_map_eq|]. split; [by simplify_map_eq|].
  split; [by simplify_map_eq|]. split.
  - eapply get_chat_found; [reflexivity|by rewrite lookup_insert_eq|].
    cbn [find_chat]. unfold subscript. rewrite lookup_insert_eq.
    unfold mbind, outcome_bind. cbn [eq_id eq_str]. by rewrite String.eqb_refl.
  - unfold get_chats, load_data, subscript. by rewrite lookup_insert_eq.
Qed.

(** X25: deleting a chat on a well-formed store succeeds; afterwards
    the id is not found, every other id is answered as before, and
    deleting again changes nothing. *)
Theorem delete_chat_then_get_chat file chat_id :
  well_formed_store file →
  ∃ file',
    delete_chat chat_id file
    = (Ok (Response 200 {[ "status" := PStr "success" ]}), Some file')
    ∧ well_formed_store (Some file')
    ∧ get_chat chat_id (Some file') = (Ok not_found, Some file')
    ∧ (∀ other, other ≠ chat_id →
         fst (get_chat other (Some file')) = fst (get_chat other file))
    ∧ delete_chat chat_id (Some file')
      = (Ok (Response 200 {[ "status" := PStr "success" ]}), Some file').
Proof.
  intros (d & chats & Hload & Hchats & Hall).
  destruct (other_chats_well_formed chats chat_id Hall) as [kept Hkept].
  destruct (other_chats_spec _ _ _ Hkept) as (Hnone & Hwf & _ & Hother).
  exists (PDict (<[ "chats" := PList kept ]> d)).
  assert (Hdelete : ∀ file0 d0 chats0 kept0,
            load_data file0 = PDict d0 → d0 !! "chats" = Some (PList chats0) →
            other_chats chats0 chat_id = Ok kept0 →
            delete_chat chat_id file0
            = (Ok (Response 200 {[ "status" := PStr "success" ]}),
               Some (PDict (<[ "chats" := PList kept0 ]> d0)))).
  { intros file0 d0 chats0 kept0 Hl Hc Hk. unfold delete_chat.
    rewrite Hl, (subscript_dict _ _ _ Hc).
    unfold mbind at 1, outcome_bind at 1. unfold iterate.
    unfold mbind at 1, outcome_bind at 1. by rewrite Hk. }
  split; [by eapply Hdelete|].
  split.
  { eexists _, _. split; [reflexivity|]. split; [by rewrite lookup_insert_eq|auto]. }
  split.
  { eapply get_chat_not_found; [reflexivity|by rewrite lookup_insert_eq|done]. }
  split.
  - intros other Hne. specialize (Hother other Hne).
    destruct (find_chat_well_formed 0 chats (Some other) Hall) as [found Hfound].
    destruct (find_chat_well_formed 0 kept (Some other) (Hwf Hall)) as [found' Hfound'].
    rewrite Hfound, Hfound' in Hother. cbn [chat_found] in Hother.
    injection Hother as Hother.
    destruct found as [[i chat]|], found' as [[i' chat']|]; try done.
    + injection Hother as ->.
      erewrite (get_chat_found (Some _)), (get_chat_found file);
        [done|done..|reflexivity|by rewrite lookup_insert_eq|done].
    + erewrite (get_chat_not_found (Some _)), (get_chat_not_found file);
        [done|done..|reflexivity|by rewrite lookup_insert_eq|done].
  - rewrite (Hdelete (Some (PDict (<[ "chats" := PList kept ]> d)))
               (<[ "chats" := PList kept ]> d) kept kept eq_refl);
      [by rewrite insert_insert_eq|by rewrite lookup_insert_eq|].
    by apply other_chats_none.
Qed.

(** X26: renaming a chat that is found writes the new title into this
    chat and leaves the other chats alone; the chat found under the id
    afterwards is the old one with the new title. *)
Theorem rename_chat_then_get_chat file d chats chat_id new_title i chat :
  load_data file = PDict d →
  d !! "chats" = Some (PList chats) →
  find_chat 0 chats (Some chat_id) = Ok (Some (i, chat)) →
  let chat' := <[ "title" := new_title ]> chat in
  let file' := PDict (<[ "chats" := PList (<[ i := PDict chat' ]> chats) ]> d) in
  rename_chat chat_id new_title file
  = (Ok (Response 200 {[ "status" := PStr "success" ]}), Some file')
  ∧ get_chat chat_id (Some file')
    = (Ok (Response 200 {[ "chat" := PDict chat' ]}), Some file')
  ∧ (∀ j : nat, j ≠ i → <[ i := PDict chat' ]> chats !! j = chats !! j).
Proof.
  intros Hload Hchats Hfind. cbv zeta.
  destruct (find_chat_Some _ _ _ _ _ Hfind) as (_ & _ & id & Hid & _).
  split; [|split].
  - unfold rename_chat. rewrite Hload, (subscript_dict _ _ _ Hchats).
    unfold mbind at 1, outcome_bind at 1. unfold iterate.
    unfold mbind at 1, outcome_bind at 1. rewrite Hfind.
    unfold mbind, outcome_bind, handled, with_chat.
    by rewrite (truthy_dict_lookup _ _ _ Hid), Hchats.
  - eapply get_chat_found; [reflexivity|by rewrite lookup_insert_eq|].
    apply (find_chat_insert_0 chats (Some chat_id) i chat); [done|].
    by rewrite lookup_insert_ne.
  - intros j Hj. by rewrite list_lookup_insert_ne.
Qed.
End ChatStoreRoundTrips.

Lemma one_chat_file_well_formed : well_formed_store one_chat_file.
Proof.
  eexists _, _. split; [reflexivity|]. split; [reflexivity|].
  constructor; [|constructor]. eexists _, _. split; [reflexivity|].
  split; [by eexists|reflexivity].
Qed.

Lemma store_stays_well_formed_witness :
  let requests :=
    [ CreateChat "1735732800000417" "2025-01-01T12:00:00";
      SendMessage (Some "1735732800000417") "Is the Star Ferry running?" None
        "09:00 AM" "09:01 AM";
      RenameChat "1735732800000417" (PStr "Ferries");
      GetChat "1735732800000417";
      DeleteChat "1735732800000417";
      GetChats ] in
  well_formed_store None
  ∧ Forall returns (fst (serve offline_world requests None))
  ∧ well_formed_store (snd (serve offline_world requests None)).
Proof.
  cbv zeta.
  assert (Hwf : well_formed_store None).
  { eexists _, _. split; [reflexivity|]. split; [reflexivity|constructor]. }
  split; [done|].
  destruct (store_stays_well_formed offline_world
              [ CreateChat "1735732800000417" "2025-01-01T12:00:00";
                SendMessage (Some "1735732800000417") "Is the Star Ferry running?" None
                  "09:00 AM" "09:01 AM";
                RenameChat "1735732800000417" (PStr "Ferries");
                GetChat "1735732800000417";
                DeleteChat "1735732800000417";
                GetChats ] None Hwf) as (Hall & Hwf' & _).
  by split.
Defined.


Lemma create_chat_then_get_chat_witness :
  ∃ new_chat file',
    create_chat "1735732800000417" "2025-01-01T12:00:00" None
    = (Ok (Response 200 {[ "chat" := PDict new_chat ]}), Some file')
    ∧ get_chat "1735732800000417" (Some file')
      = (Ok (Response 200 {[ "chat" := PDict new_chat ]}), Some file').
Proof.
  destruct (create_chat_then_get_chat None {[ "chats" := PList [] ]} []
              "1735732800000417" "2025-01-01T12:00:00" eq_refl eq_refl)
    as (new_chat & file' & Hcreate & _ & _ & _ & Hget & _).
  by exists new_chat, file'.
Defined.

Lemma delete_chat_then_get_chat_witness :
  well_formed_store one_chat_file
  ∧ ∃ file',
      delete_chat "1735732800000417" one_chat_file
      = (Ok (Response 200 {[ "status" := PStr "success" ]}), Some file')
      ∧ get_chat "1735732800000417" (Some file') = (Ok not_found, Some file').
Proof.
  split; [exact one_chat_file_well_formed|].
  destruct (delete_chat_then_get_chat one_chat_file "1735732800000417"
              one_chat_file_well_formed) as (file' & Hdelete & _ & Hget & _).
  by exists file'.
Defined.

Lemma rename_chat_then_get_chat_witness :
  let chat' := <[ "title" := PStr "Ferries" ]> fresh_chat in
  let file' := PDict (<[ "chats" := PList [PDict chat'] ]>
                        {[ "chats" := PList [PDict fresh_chat] ]}) in
  rename_chat "1735732800000417" (PStr "Ferries") one_chat_file
  = (Ok (Response 200 {[ "status" := PStr "success" ]}), Some file')
  ∧ get_chat "1735732800000417" (Some file')
    = (Ok (Response 200 {[ "chat" := PDict chat' ]}), Some file').
Proof.
  cbv zeta.
  destruct (rename_chat_then_get_chat one_chat_file
              {[ "chats" := PList [PDict fresh_chat] ]} [PDict fresh_chat]
              "1735732800000417" (PStr "Ferries") 0 fresh_chat
              eq_refl eq_refl eq_refl) as (Hrename & Hget & _).
  by split.
Defined.
